(** * payment-api: the payments application, embedded and verified

    A shallow embedding of [web/payments]: the models, the Celery tasks
    ([tasks.py]), the idempotency middleware ([middleware.py]), the
    serializers and the views, followed by the properties proved of them.

    Conventions.
    - Database tables are lists of rows in primary-key order; the
      [IdempotencyKey] table, whose [key] column is unique, and the cache are
      finite maps.
    - A view or a task is a function from the world before to the world
      after (and a response); what the code obtains from its environment (the
      clock, the random generator, the network, the token generator) is an
      argument.
    - [DecimalField(decimal_places=2)] values are integers counting
      hundredths.
    - Logging is modelled where a property speaks about it (the webhook
      task); [time.sleep] only delays and is not modelled. *)

From Stdlib Require Import Ascii.
From stdpp Require Import base strings gmap list pretty.
From stdpp Require Import sorting.

Open Scope Z_scope.

(** ** Python values *)

Module Py.

(** What [json.dumps] accepts and [json.loads] returns; also what a DRF
    [Response] carries in [.data], what a [JSONField] stores and what the
    cache holds. *)
#[warnings="-register-all"] Inductive value :=
| PNone
| PBool (b : bool)
| PInt (n : Z)
| PStr (s : string)
| PList (xs : list value)
| PDict (items : list (string * value)).

(** Truth value of an object, as [if x:] tests it. *)
Definition truthy (v : value) : bool :=
  match v with
  | PNone => false
  | PBool b => b
  | PInt n => negb (n =? 0)
  | PStr s => negb (String.eqb s "")
  | PList xs => match xs with [] => false | _ => true end
  | PDict items => match items with [] => false | _ => true end
  end.

(** [d.keys()] of a dict. *)
Definition keys (v : value) : list string :=
  match v with
  | PDict items => items.*1
  | _ => []
  end.

(** [d.get(k)]; the first binding wins, a dict literal has no duplicates. *)
Fixpoint assoc (k : string) (items : list (string * value)) : option value :=
  match items with
  | [] => None
  | (k', v) :: rest => if String.eqb k k' then Some v else assoc k rest
  end.

Definition get (k : string) (v : value) : option value :=
  match v with
  | PDict items => assoc k items
  | _ => None
  end.

(** The decimal digit [n mod 10] as a character. *)
Definition digit (n : Z) : ascii := ascii_of_N (48 + Z.to_N (n mod 10)).

(** [w] decimal digits of [n], least significant last: ["%0wd" % n] for
    [0 <= n < 10^w]. *)
Fixpoint zfill (w : nat) (n : Z) : string :=
  match w with
  | O => ""
  | S w' => zfill w' (n / 10) +:+ String (digit n) ""
  end.

(** [str(d)] for a [Decimal] with two decimal places, given in hundredths:
    [str(Decimal('100.00')) = '100.00']. *)
Definition str_Decimal (hundredths : Z) : string :=
  (if hundredths <? 0 then "-" else "")
    +:+ pretty (Z.abs hundredths / 100) +:+ "." +:+ zfill 2 (Z.abs hundredths).

(** [datetime.datetime]; [utcoffset] is [None] for a naive value, else the
    offset from UTC in minutes. *)
Record datetime := {
  year : Z; month : Z; day : Z;
  hour : Z; minute : Z; second : Z; microsecond : Z;
  utcoffset : option Z
}.

Definition format_time (dt : datetime) : string :=
  zfill 2 (hour dt) +:+ ":" +:+ zfill 2 (minute dt) +:+ ":" +:+ zfill 2 (second dt)
    +:+ (if microsecond dt =? 0 then "" else "." +:+ zfill 6 (microsecond dt)).

Definition format_offset (off : option Z) : string :=
  match off with
  | None => ""
  | Some m =>
      (if m <? 0 then "-" else "+")
        +:+ zfill 2 (Z.abs m / 60) +:+ ":" +:+ zfill 2 (Z.abs m mod 60)
  end.

(** [datetime.isoformat()]. *)
Definition isoformat (dt : datetime) : string :=
  zfill 4 (year dt) +:+ "-" +:+ zfill 2 (month dt) +:+ "-" +:+ zfill 2 (day dt)
    +:+ "T" +:+ format_time dt +:+ format_offset (utcoffset dt).

(** Character classes and patterns, to describe the shape of a string. *)
Inductive cclass := Digit | Lit (c : ascii) | Sign.

Definition is_digit (c : ascii) : bool :=
  ((48 <=? N_of_ascii c) && (N_of_ascii c <=? 57))%N.

Definition in_class (k : cclass) (c : ascii) : bool :=
  match k with
  | Digit => is_digit c
  | Lit c' => Ascii.eqb c c'
  | Sign => Ascii.eqb c "+" || Ascii.eqb c "-"
  end.

Fixpoint matches (p : list cclass) (s : string) : bool :=
  match p, s with
  | [], EmptyString => true
  | k :: p', String c s' => in_class k c && matches p' s'
  | _, _ => false
  end.

Definition digits (n : nat) : list cclass := replicate n Digit.

(** ISO 8601 extended date and time, [YYYY-MM-DDThh:mm:ss], with an optional
    fraction of six digits and an optional offset [+hh:mm] or [-hh:mm]. *)
Definition iso_date_time : list cclass :=
  digits 4 ++ [Lit "-"%char] ++ digits 2 ++ [Lit "-"%char] ++ digits 2 ++ [Lit "T"%char]
    ++ digits 2 ++ [Lit ":"%char] ++ digits 2 ++ [Lit ":"%char] ++ digits 2.
Definition iso_fraction : list cclass := [Lit "."%char] ++ digits 6.
Definition iso_offset : list cclass := [Sign] ++ digits 2 ++ [Lit ":"%char] ++ digits 2.

Definition is_iso8601 (s : string) : bool :=
  matches iso_date_time s
  || matches (iso_date_time ++ iso_fraction) s
  || matches (iso_date_time ++ iso_offset) s
  || matches (iso_date_time ++ iso_fraction ++ iso_offset) s.

End Py.

Import Py.

(** ** models.py *)

Record Merchant := {
  merchant_id : Z;
  merchant_user : Z;                    (* OneToOneField(User): the user's id *)
  merchant_name : string
}.

Record PaymentKey := {
  paymentkey_id : Z;
  paymentkey_merchant : Z;
  paymentkey_key : string;
  paymentkey_is_active : bool;
  paymentkey_created_at : datetime
}.

Record Transaction := {
  tx_id : Z;
  tx_merchant : Z;
  tx_amount : Z;                        (* DecimalField(decimal_places=2), in hundredths *)
  tx_currency : string;
  tx_description : string;
  tx_status : string;                   (* CharField, default 'pending' *)
  tx_created_at : datetime;
  tx_updated_at : datetime
}.

Record Refund := {
  refund_id : Z;
  refund_transaction : Z;               (* OneToOneField(Transaction) *)
  refund_amount : Z;
  refund_reason : string;
  refund_status : string;               (* CharField, default 'pending' *)
  refund_created_at : datetime
}.

Record Webhook := {
  webhook_id : Z;
  webhook_merchant : Z;
  webhook_url : string;
  webhook_secret : string;
  webhook_created_at : datetime
}.

Record IdempotencyKey := {
  ik_key : string;
  ik_method : string;
  ik_path : string;
  ik_response_status : option Z;        (* IntegerField(null=True) *)
  ik_response_body : option value;      (* JSONField(null=True) *)
  ik_created_at : datetime
}.

(** Jobs on the Celery queue, one per [task.delay(...)]. *)
Inductive Job :=
| ProcessTransaction (transaction_id : Z)
| SendWebhooks (transaction_id : Z)
| DeliverWebhook (webhook_id : Z) (payload : value).

(** Queries on the [IdempotencyKey] table, recorded in the order they are
    made: [filter(key=k).first()], [create(key=k, ...)] and the update of
    [update_or_create(key=k, ...)]. *)
Inductive Query :=
| SELECT (key : string)
| INSERT (key : string)
| UPDATE (key : string).

(** The database, the cache and the job queue. *)
Record World := {
  merchants : list Merchant;
  payment_keys : list PaymentKey;
  transactions : list Transaction;
  refunds : list Refund;
  webhooks : list Webhook;
  idempotency_keys : gmap string IdempotencyKey;
  sequences : gmap string Z;            (* last primary key handed out, per table *)
  cache : gmap string value;
  queue : list Job;
  queries : list Query
}.

Definition set_transactions (txs : list Transaction) (w : World) : World :=
  {| merchants := merchants w; payment_keys := payment_keys w; transactions := txs;
     refunds := refunds w; webhooks := webhooks w; idempotency_keys := idempotency_keys w;
     sequences := sequences w; cache := cache w; queue := queue w; queries := queries w |}.

Definition set_refunds (rs : list Refund) (w : World) : World :=
  {| merchants := merchants w; payment_keys := payment_keys w; transactions := transactions w;
     refunds := rs; webhooks := webhooks w; idempotency_keys := idempotency_keys w;
     sequences := sequences w; cache := cache w; queue := queue w; queries := queries w |}.

Definition set_webhooks (ws : list Webhook) (w : World) : World :=
  {| merchants := merchants w; payment_keys := payment_keys w; transactions := transactions w;
     refunds := refunds w; webhooks := ws; idempotency_keys := idempotency_keys w;
     sequences := sequences w; cache := cache w; queue := queue w; queries := queries w |}.

Definition set_idempotency_keys (m : gmap string IdempotencyKey) (w : World) : World :=
  {| merchants := merchants w; payment_keys := payment_keys w; transactions := transactions w;
     refunds := refunds w; webhooks := webhooks w; idempotency_keys := m;
     sequences := sequences w; cache := cache w; queue := queue w; queries := queries w |}.

Definition set_sequences (s : gmap string Z) (w : World) : World :=
  {| merchants := merchants w; payment_keys := payment_keys w; transactions := transactions w;
     refunds := refunds w; webhooks := webhooks w; idempotency_keys := idempotency_keys w;
     sequences := s; cache := cache w; queue := queue w; queries := queries w |}.

Definition set_cache (c : gmap string value) (w : World) : World :=
  {| merchants := merchants w; payment_keys := payment_keys w; transactions := transactions w;
     refunds := refunds w; webhooks := webhooks w; idempotency_keys := idempotency_keys w;
     sequences := sequences w; cache := c; queue := queue w; queries := queries w |}.

Definition set_queue (q : list Job) (w : World) : World :=
  {| merchants := merchants w; payment_keys := payment_keys w; transactions := transactions w;
     refunds := refunds w; webhooks := webhooks w; idempotency_keys := idempotency_keys w;
     sequences := sequences w; cache := cache w; queue := q; queries := queries w |}.

Definition set_queries (qs : list Query) (w : World) : World :=
  {| merchants := merchants w; payment_keys := payment_keys w; transactions := transactions w;
     refunds := refunds w; webhooks := webhooks w; idempotency_keys := idempotency_keys w;
     sequences := sequences w; cache := cache w; queue := queue w; queries := qs |}.

Definition set_payment_keys (pks : list PaymentKey) (w : World) : World :=
  {| merchants := merchants w; payment_keys := pks; transactions := transactions w;
     refunds := refunds w; webhooks := webhooks w; idempotency_keys := idempotency_keys w;
     sequences := sequences w; cache := cache w; queue := queue w; queries := queries w |}.

(** [task.delay(...)]: the job goes to the end of the queue. *)
Definition delay (j : Job) (w : World) : World := set_queue (queue w ++ [j]) w.

(** The next value of a table's [AutoField] sequence. *)
Definition nextval (table : string) (w : World) : Z * World :=
  let n := default 0 (sequences w !! table) + 1 in
  (n, set_sequences (<[table := n]> (sequences w)) w).

(** [Model.objects.get(id=...)] / [.filter(...).first()] on the tables. *)
Definition get_transaction (id : Z) (w : World) : option Transaction :=
  List.find (fun t => tx_id t =? id) (transactions w).

Definition find_webhook (id : Z) (rows : list Webhook) : option Webhook :=
  List.find (fun wb => webhook_id wb =? id) rows.

Definition get_webhook (id : Z) (w : World) : option Webhook :=
  find_webhook id (webhooks w).

Definition get_merchant (user : Z) (w : World) : option Merchant :=
  List.find (fun m => merchant_user m =? user) (merchants w).

(** [tx.refund]: the refund whose one-to-one key is the transaction. *)
Definition get_refund_of (transaction_id : Z) (w : World) : option Refund :=
  List.find (fun r => refund_transaction r =? transaction_id) (refunds w).

(** ** tasks.py *)

Module Tasks.

(** [random.random()] is [k * 2**-53] for an integer [0 <= k < 2**53]; a draw
    is given by its [k]. The double written [0.2] is
    [3602879701896397 * 2**-54], so [random.random() > 0.2] compares [2 * k]
    with that numerator. *)
Definition random_above_0_2 (k : Z) : bool := 3602879701896397 <? 2 * k.

Definition with_status (s : string) (tx : Transaction) : Transaction :=
  {| tx_id := tx_id tx; tx_merchant := tx_merchant tx; tx_amount := tx_amount tx;
     tx_currency := tx_currency tx; tx_description := tx_description tx;
     tx_status := s; tx_created_at := tx_created_at tx; tx_updated_at := tx_updated_at tx |}.

(** [tx.save()]: the row with the object's primary key takes the object's
    field values, with [updated_at] (an [auto_now] field) set to the clock. *)
Definition pre_save (now : datetime) (tx : Transaction) : Transaction :=
  {| tx_id := tx_id tx; tx_merchant := tx_merchant tx; tx_amount := tx_amount tx;
     tx_currency := tx_currency tx; tx_description := tx_description tx;
     tx_status := tx_status tx; tx_created_at := tx_created_at tx; tx_updated_at := now |}.

Definition save (now : datetime) (tx : Transaction) (w : World) : World :=
  set_transactions
    (map (fun row => if tx_id row =? tx_id tx then pre_save now tx else row) (transactions w)) w.

(** [process_transaction(transaction_id)], with the draw of [random.random()]
    and the clock at [save]. A missing transaction is logged and the task
    returns. *)
Definition process_transaction (transaction_id : Z) (k : Z) (now : datetime) (w : World) : World :=
  match get_transaction transaction_id w with
  | None => w
  | Some tx =>
      let tx := with_status (if random_above_0_2 k then "succeeded" else "failed") tx in
      let w := save now tx w in
      delay (SendWebhooks (tx_id tx)) w
  end.

(** The payload dict built by [send_webhooks]. *)
Definition payload_of (tx : Transaction) : value :=
  PDict [ ("id", PInt (tx_id tx));
          ("status", PStr (tx_status tx));
          ("amount", PStr (str_Decimal (tx_amount tx)));
          ("currency", PStr (tx_currency tx));
          ("description", PStr (tx_description tx));
          ("created_at", PStr (isoformat (tx_created_at tx)));
          ("updated_at", PStr (isoformat (tx_updated_at tx))) ].

(** [send_webhooks(transaction_id)]: one [deliver_webhook] job per webhook
    of the transaction's merchant, all with the same payload. *)
Definition send_webhooks (transaction_id : Z) (w : World) : World :=
  match get_transaction transaction_id w with
  | None => w
  | Some tx =>
      let whs := List.filter (fun wb => webhook_merchant wb =? tx_merchant tx) (webhooks w) in
      match whs with
      | [] => w
      | _ =>
          let payload := payload_of tx in
          fold_left (fun w wb => delay (DeliverWebhook (webhook_id wb) payload) w) whs w
      end
  end.

(** *** Webhook delivery *)

Inductive level := INFO | WARNING | ERROR.

Inductive exception :=
| Webhook_DoesNotExist
| HTTPError (msg : string)              (* a subclass of RequestException *)
| RequestException (msg : string).      (* ConnectionError, Timeout, ... *)

Definition str (e : exception) : string :=
  match e with
  | Webhook_DoesNotExist => "Webhook matching query does not exist."
  | HTTPError msg => msg
  | RequestException msg => msg
  end.

(** What [requests.post(url, json=payload, timeout=10)] does: it returns a
    response with a status code and a reason phrase, or raises (connection
    error, timeout). *)
Inductive post_result :=
| Responded (status_code : Z) (reason : string)
| Raised (msg : string).

(** [Response.raise_for_status()] of [requests]: an [HTTPError] for a status
    code from 400 to 599, nothing otherwise. *)
Definition raise_for_status (status_code : Z) (reason url : string) : option exception :=
  if (400 <=? status_code) && (status_code <? 500) then
    Some (HTTPError (pretty status_code +:+ " Client Error: " +:+ reason +:+ " for url: " +:+ url))
  else if (500 <=? status_code) && (status_code <? 600) then
    Some (HTTPError (pretty status_code +:+ " Server Error: " +:+ reason +:+ " for url: " +:+ url))
  else None.

(** What one execution of the task sees: the webhook table and the network. *)
Record Env := {
  env_webhooks : list Webhook;
  env_post : string -> value -> post_result
}.

Definition delivery_failed (webhook_id retries : Z) (e : exception) : level * string :=
  (WARNING, "Webhook " +:+ pretty webhook_id +:+ " delivery failed (attempt "
              +:+ pretty (retries + 1) +:+ "/3): " +:+ str e).

(** The body of [deliver_webhook], run with [self.request.retries = retries]:
    the exception it raises, if any, and what it logs. *)
Definition deliver_webhook (env : Env) (retries : Z) (webhook_id : Z) (payload : value)
  : option exception * list (level * string) :=
  match find_webhook webhook_id (env_webhooks env) with
  | None =>
      (Some Webhook_DoesNotExist,
       [(ERROR, "Webhook " +:+ pretty webhook_id +:+ " does not exist")])
  | Some wb =>
      let delivering :=
        (INFO, "Delivering webhook " +:+ pretty webhook_id +:+ " to " +:+ webhook_url wb) in
      match env_post env (webhook_url wb) payload with
      | Raised msg =>
          let e := RequestException msg in
          (Some e, [delivering; delivery_failed webhook_id retries e])
      | Responded status_code reason =>
          match raise_for_status status_code reason (webhook_url wb) with
          | Some e => (Some e, [delivering; delivery_failed webhook_id retries e])
          | None =>
              (None, [delivering;
                      (INFO, "Webhook " +:+ pretty webhook_id +:+ " delivered successfully")])
          end
      end
  end.

(** [WebhookTask]: [retry_kwargs = {'max_retries': 2, 'countdown': 3}]. *)
Definition max_retries : nat := 2.
Definition countdown : Z := 3.

(** [WebhookTask.on_failure]. *)
Definition on_failure (exc : exception) : level * string :=
  (ERROR, "Webhook delivery failed permanently: " +:+ str exc).

(** What a worker does for one [deliver_webhook] job. *)
Inductive event :=
| Attempt (retries : nat)               (* the task body starts *)
| Log (record : level * string)
| Retry (countdown : Z)                 (* the job is queued again, to run after the countdown *)
| Success
| Failure (exc : exception).

(** Celery's handling of [autoretry_for = (Exception,)]: any exception of
    the body leads to [self.retry(exc=exc, max_retries=2, countdown=3)], which
    queues the job again unless [self.request.retries + 1 > max_retries]; then
    [exc] is raised, the task fails and [on_failure] runs. [remaining] is
    [max_retries - self.request.retries]; [env n] is what the execution with
    [self.request.retries = n] sees. *)
Fixpoint run_task (remaining : nat) (retries : nat) (env : nat -> Env)
    (webhook_id : Z) (payload : value) : list event :=
  let '(raised, records) := deliver_webhook (env retries) (Z.of_nat retries) webhook_id payload in
  Attempt retries :: map Log records ++
  match raised with
  | None => [Success]
  | Some exc =>
      match remaining with
      | O => [Failure exc; Log (on_failure exc)]
      | S remaining' =>
          Retry countdown :: run_task remaining' (S retries) env webhook_id payload
      end
  end.

Definition run_deliver_webhook (env : nat -> Env) (webhook_id : Z) (payload : value)
  : list event :=
  run_task max_retries 0 env webhook_id payload.

(** Observations on a run. *)
Definition is_attempt (e : event) : bool := match e with Attempt _ => true | _ => false end.
Definition attempts (run : list event) : nat := length (List.filter is_attempt run).
Definition countdowns (run : list event) : list Z :=
  omap (fun e => match e with Retry c => Some c | _ => None end) run.
Definition records (run : list event) : list (level * string) :=
  omap (fun e => match e with Log r => Some r | _ => None end) run.
Definition final (run : list event) : option event := last run.

End Tasks.

(** ** Requests and responses *)

(** A request as the application sees it: method, path, the
    [Idempotency-Key] header, the authenticated user and the parsed body. *)
Record Request (B : Type) := {
  method : string;
  path : string;
  idempotency_key : option string;      (* request.headers.get('Idempotency-Key') *)
  user : Z;                             (* request.user *)
  body : B                              (* request.data *)
}.
Arguments method {B} _.
Arguments path {B} _.
Arguments idempotency_key {B} _.
Arguments user {B} _.
Arguments body {B} _.

(** A DRF [Response(data, status=...)]. *)
Record Response := {
  status_code : Z;
  data : value
}.

(** A view, or the rest of the middleware chain. *)
Definition Handler (B : Type) : Type := Request B -> World -> Response * World.

(** ** middleware.py *)

Module Middleware.

Section IdempotencyMiddleware.

(** [json.dumps] (which raises on what it cannot serialize) and [json.loads]
    (which raises on text that is not JSON). *)
Variable json_dumps : value -> option string.
Variable json_loads : string -> option value.

Context {B : Type}.

(** [key and request.method in ('POST', 'PUT')]: the key when the request is
    guarded. An empty header value is falsy. *)
Definition guarded (request : Request B) : option string :=
  match idempotency_key request with
  | Some key =>
      if negb (String.eqb key "")
         && (String.eqb (method request) "POST" || String.eqb (method request) "PUT")
      then Some key else None
  | None => None
  end.

(** [json.loads(existing.response_body)], falling back on the stored value
    when that raises: on text that does not parse, and on a value that is not
    text. *)
Definition decode (response_body : value) : value :=
  match response_body with
  | PStr s => default response_body (json_loads s)
  | _ => response_body
  end.

(** [Response(data=data, status=existing.response_status)]; without a status
    a response is a 200. *)
Definition cached_response (existing : IdempotencyKey) (response_body : value) : Response :=
  {| status_code := default 200 (ik_response_status existing);
     data := decode response_body |}.

(** The text of [json.dumps({'message': 'Failed to capture response'})]. *)
Definition capture_failed : string :=
  let q := String (ascii_of_N 34) "" in
  "{" +:+ q +:+ "message" +:+ q +:+ ": " +:+ q +:+ "Failed to capture response" +:+ q +:+ "}".

(** The body to store: [json.dumps(response.data)], or the fixed message
    when that raises. *)
Definition capture (response : Response) : string :=
  default capture_failed (json_dumps (data response)).

(** [IdempotencyKey.objects.update_or_create(key=key, defaults={...})]. *)
Definition update_or_create (key : string) (request : Request B) (now : datetime)
    (response : Response) (response_body : string) (w : World) : World :=
  let w := set_queries (queries w ++ [SELECT key]) w in
  match idempotency_keys w !! key with
  | Some row =>
      let row' := {| ik_key := key; ik_method := method request; ik_path := path request;
                     ik_response_status := Some (status_code response);
                     ik_response_body := Some (PStr response_body);
                     ik_created_at := ik_created_at row |} in
      set_queries (queries w ++ [UPDATE key])
        (set_idempotency_keys (<[key := row']> (idempotency_keys w)) w)
  | None =>
      let row' := {| ik_key := key; ik_method := method request; ik_path := path request;
                     ik_response_status := Some (status_code response);
                     ik_response_body := Some (PStr response_body);
                     ik_created_at := now |} in
      set_queries (queries w ++ [INSERT key])
        (set_idempotency_keys (<[key := row']> (idempotency_keys w)) w)
  end.

(** The path with [flag_store_response = True]: the handler runs and its
    response is stored under the key. *)
Definition call_and_store (get_response : Handler B) (now : datetime) (key : string)
    (request : Request B) (w : World) : Response * World :=
  let '(response, w) := get_response request w in
  (response, update_or_create key request now response (capture response) w).

(** [IdempotencyMiddleware.__call__], around [get_response]. *)
Definition __call__ (get_response : Handler B) (now : datetime) (request : Request B) (w : World)
  : Response * World :=
  match guarded request with
  | Some key =>
      (* existing = IdempotencyKey.objects.select_for_update().filter(key=key).first() *)
      let w := set_queries (queries w ++ [SELECT key]) w in
      match idempotency_keys w !! key with
      | Some existing =>
          match ik_response_body existing with
          | Some response_body => (cached_response existing response_body, w)
          | None => call_and_store get_response now key request w
          end
      | None => call_and_store get_response now key request w
      end
  | None => get_response request w
  end.

End IdempotencyMiddleware.

End Middleware.

(** ** Exceptions inside a view

    A view body runs on the world and either returns or raises; what it did to
    the world before raising stays done (the [atomic] blocks of the views
    enclose single statements). *)

Inductive exception :=
| Http404 (msg : string)
| ValidationError (errors : list (string * (string * string)))  (* field, message, code *)
| IntegrityError (msg : string).

Definition M (A : Type) : Type := World -> (exception + A) * World.

Definition ret {A} (a : A) : M A := fun w => (inr a, w).
Definition raise {A} (e : exception) : M A := fun w => (inl e, w).
#[global] Instance M_bind : MBind M := fun A C (k : A -> M C) (c : M A) w =>
  match c w with
  | (inl e, w') => (inl e, w')
  | (inr a, w') => k a w'
  end.
Definition gets {A} (f : World -> A) : M A := fun w => (inr (f w), w).
Definition modify (f : World -> World) : M unit := fun w => (inr tt, f w).


(** [repr] of one entry of the error dict, and [str(e)]. *)
Definition repr_error (err : string * (string * string)) : string :=
  "'" +:+ err.1 +:+ "': [ErrorDetail(string='" +:+ err.2.1 +:+ "', code='" +:+ err.2.2 +:+ "')]".

Definition str (e : exception) : string :=
  match e with
  | Http404 msg => msg
  | ValidationError errors => "{" +:+ String.concat ", " (map repr_error errors) +:+ "}"
  | IntegrityError msg => msg
  end.

(** [get_object_or_404(Merchant, user=request.user)]. *)
Definition merchant_or_404 (user : Z) : M Merchant :=
  found ← gets (get_merchant user);
  match found with
  | Some m => ret m
  | None => raise (Http404 "No Merchant matches the given query.")
  end.

(** [serializer.is_valid(raise_exception=True)] once the field errors are
    collected. *)
Definition raise_if_errors (errors : list (string * (string * string))) : M unit :=
  match errors with
  | [] => ret tt
  | _ => raise (ValidationError errors)
  end.

(** ** serializers.py *)

Module Serializers.

(** DRF's [DateTimeField.to_representation]: [isoformat()], with a UTC
    offset written [Z]. *)
Definition DateTimeField_to_representation (dt : datetime) : string :=
  match utcoffset dt with
  | Some 0 =>
      isoformat {| year := year dt; month := month dt; day := day dt; hour := hour dt;
                   minute := minute dt; second := second dt;
                   microsecond := microsecond dt; utcoffset := None |} +:+ "Z"
  | _ => isoformat dt
  end.

(** [RefundSerializer.validate_amount]. *)
Definition RefundSerializer_validate_amount (value : Z) : option string :=
  if value <=? 0 then Some "Refund amount must be greater than zero" else None.

(** [RefundSerializer(refund).data]: the fields of [Meta.fields]. *)
Definition RefundSerializer_data (r : Refund) : value :=
  PDict [ ("id", PInt (refund_id r));
          ("transaction", PInt (refund_transaction r));
          ("amount", PStr (str_Decimal (refund_amount r)));
          ("reason", PStr (refund_reason r));
          ("status", PStr (refund_status r));
          ("created_at", PStr (DateTimeField_to_representation (refund_created_at r))) ].

(** [TransactionDetailSerializer.validate_amount]. *)
Definition TransactionDetailSerializer_validate_amount (value : Z) : option string :=
  if value <=? 0 then Some "Transaction amount must be greater than zero" else None.

(** [TransactionDetailSerializer.validate_payment_key]: the active key with
    this value, which the method leaves in [self.context]. *)
Definition TransactionDetailSerializer_validate_payment_key (value : string) (w : World)
  : PaymentKey + string :=
  match List.find (fun pk => String.eqb (paymentkey_key pk) value && paymentkey_is_active pk)
                  (payment_keys w) with
  | Some pk => inl pk
  | None => inr "Invalid or inactive payment key"
  end.

(** [TransactionDetailSerializer(tx).data]; [payment_key] is write-only,
    [refund] is the nested [RefundSerializer] or [None]. *)
Definition TransactionDetailSerializer_data (tx : Transaction) (w : World) : value :=
  PDict [ ("id", PInt (tx_id tx));
          ("amount", PStr (str_Decimal (tx_amount tx)));
          ("currency", PStr (tx_currency tx));
          ("description", PStr (tx_description tx));
          ("status", PStr (tx_status tx));
          ("created_at", PStr (DateTimeField_to_representation (tx_created_at tx)));
          ("updated_at", PStr (DateTimeField_to_representation (tx_updated_at tx)));
          ("refund", match get_refund_of (tx_id tx) w with
                     | Some r => RefundSerializer_data r
                     | None => PNone
                     end) ].

(** The body of a refund request after field parsing: the fields have the
    types of their columns (DRF's checks of the decimal format and of the
    length of [reason] belong to the parsing). [status] is what the client
    sent for the read-only field, if anything. *)
Record RefundData := {
  rd_transaction : Z;
  rd_amount : Z;
  rd_reason : option string;
  rd_status : option string
}.

(** [serializer.validated_data] of a [RefundSerializer]: the transaction the
    primary key names, the amount and the reason; read-only fields are left
    out. *)
Record RefundValidated := {
  rv_transaction : Transaction;
  rv_amount : Z;
  rv_reason : option string
}.

Section RefundSerializer.

(** Whether the [transaction] field carries the uniqueness validator that
    [ModelSerializer] derives for a [OneToOneField]. *)
Variable unique_validator : bool.

Definition RefundSerializer_amount_errors (amount : Z) : list (string * (string * string)) :=
  match RefundSerializer_validate_amount amount with
  | Some msg => [("amount", (msg, "invalid"))]
  | None => []
  end.

(** The error of a [PrimaryKeyRelatedField] whose key names no row. *)
Definition does_not_exist (pk : Z) : string * (string * string) :=
  let q := String (ascii_of_N 34) "" in
  ("transaction",
   ("Invalid pk " +:+ q +:+ pretty pk +:+ q +:+ " - object does not exist.", "does_not_exist")).

(** [RefundSerializer(data=request.data).is_valid(raise_exception=True)]:
    the [transaction] field, a primary key among all transactions, then the
    amount; the errors of all fields are raised together. *)
Definition RefundSerializer_is_valid (d : RefundData) : M RefundValidated :=
  found ← gets (get_transaction (rd_transaction d));
  match found with
  | None =>
      raise (ValidationError (does_not_exist (rd_transaction d)
                                :: RefundSerializer_amount_errors (rd_amount d)))
  | Some tx =>
      refunded ← gets (get_refund_of (rd_transaction d));
      let unique_errors :=
        match refunded with
        | Some _ =>
            if unique_validator
            then [("transaction", ("This field must be unique.", "unique"))] else []
        | None => []
        end in
      raise_if_errors (unique_errors ++ RefundSerializer_amount_errors (rd_amount d));;
      ret {| rv_transaction := tx; rv_amount := rd_amount d; rv_reason := rd_reason d |}
  end.

End RefundSerializer.

(** The body of a transaction request after field parsing. *)
Record TransactionData := {
  td_payment_key : string;
  td_amount : Z;
  td_currency : string;
  td_description : option string
}.

(** [TransactionDetailSerializer(data=request.data).is_valid(raise_exception=True)];
    returns the payment key left in the serializer's context. *)
Definition TransactionDetailSerializer_is_valid (d : TransactionData) : M PaymentKey :=
  checked ← gets (TransactionDetailSerializer_validate_payment_key (td_payment_key d));
  let amount_errors :=
    match TransactionDetailSerializer_validate_amount (td_amount d) with
    | Some msg => [("amount", (msg, "invalid"))]
    | None => []
    end in
  match checked with
  | inl pk => raise_if_errors amount_errors;; ret pk
  | inr msg => raise (ValidationError (amount_errors ++ [("payment_key", (msg, "invalid"))]))
  end.

(** [WebhookSerializer.validate_url]. *)
Definition WebhookSerializer_validate_url (value : string) : option string :=
  if String.prefix "http://" value || String.prefix "https://" value then None
  else Some "URL must start with http:// or https://".

(** [WebhookSerializer(wb).data]: [fields = ['id', 'url', 'created_at']]. *)
Definition WebhookSerializer_data (wb : Webhook) : value :=
  PDict [ ("id", PInt (webhook_id wb));
          ("url", PStr (webhook_url wb));
          ("created_at", PStr (DateTimeField_to_representation (webhook_created_at wb))) ].

Section WebhookSerializer.

(** The validators of a [URLField]: Django's [URLValidator] and the length
    limit of the column. *)
Variable URLField_valid : string -> bool.

(** [WebhookSerializer(data=request.data).is_valid(raise_exception=True)];
    [validate_url] runs on a value that passed the field's own validators. *)
Definition WebhookSerializer_is_valid (url : string) : M string :=
  if URLField_valid url then
    match WebhookSerializer_validate_url url with
    | None => ret url
    | Some msg => raise (ValidationError [("url", (msg, "invalid"))])
    end
  else raise (ValidationError [("url", ("Enter a valid URL.", "invalid"))]).

End WebhookSerializer.

(** [PaymentKeySerializer(pk).data]:
    [fields = ['id', 'key', 'is_active', 'created_at']]. *)
Definition PaymentKeySerializer_data (pk : PaymentKey) : value :=
  PDict [ ("id", PInt (paymentkey_id pk));
          ("key", PStr (paymentkey_key pk));
          ("is_active", PBool (paymentkey_is_active pk));
          ("created_at", PStr (DateTimeField_to_representation (paymentkey_created_at pk))) ].

(** [TransactionListSerializer.get_refund]. *)
Definition TransactionListSerializer_get_refund (obj : Transaction) (w : World) : value :=
  match get_refund_of (tx_id obj) w with
  | Some refund =>
      PDict [ ("id", PInt (refund_id refund));
              ("amount", PStr (str_Decimal (refund_amount refund)));
              ("status", PStr (refund_status refund)) ]
  | None => PNone
  end.

(** [TransactionListSerializer(tx).data]:
    [fields = ['id', 'amount', 'currency', 'status', 'created_at', 'refund']]. *)
Definition TransactionListSerializer_data (tx : Transaction) (w : World) : value :=
  PDict [ ("id", PInt (tx_id tx));
          ("amount", PStr (str_Decimal (tx_amount tx)));
          ("currency", PStr (tx_currency tx));
          ("status", PStr (tx_status tx));
          ("created_at", PStr (DateTimeField_to_representation (tx_created_at tx)));
          ("refund", TransactionListSerializer_get_refund tx w) ].

End Serializers.

(** ** views.py *)

Module Views.

Import Serializers.

(** [standard_response(success, data, error, status_code)]. *)
Definition standard_response (success : bool) (data error : value) (status_code : Z)
  : Response :=
  {| status_code := status_code;
     data := PDict [("success", PBool success); ("data", data); ("error", error)] |}.

(** [try: ... except Exception as e: return handler(e)] around a view body. *)
Definition try_except (body : M Response) (handler : exception -> Response)
  : World -> Response * World :=
  fun w => match body w with
           | (inr response, w') => (response, w')
           | (inl e, w') => (handler e, w')
           end.

Definition next_id (table : string) : M Z :=
  fun w => let '(n, w') := nextval table w in (inr n, w').

(** [cache.delete(key)] and django-redis's [cache.delete_pattern(prefix + '*')]. *)
Definition cache_delete (key : string) : M unit :=
  modify (fun w => set_cache (delete key (cache w)) w).

Definition cache_delete_pattern (prefix : string) : M unit :=
  modify (fun w => set_cache (filter (fun kv => String.prefix prefix kv.1 = false) (cache w)) w).

Definition cache_set (key : string) (v : value) : M unit :=
  modify (fun w => set_cache (<[key := v]> (cache w)) w).

Definition merchant_transactions_pattern (m : Merchant) : string :=
  "merchant:" +:+ pretty (merchant_id m) +:+ ":transactions:".

(** *** RefundCreateView *)

Section RefundCreateView.

Variable unique_validator : bool.

(** [get_object_or_404(Transaction, id=..., merchant=merchant)]. *)
Definition transaction_or_404 (id : Z) (merchant : Merchant) : M Transaction :=
  found ← gets (fun w => List.find (fun t => (tx_id t =? id)
                                             && (tx_merchant t =? merchant_id merchant))
                                   (transactions w));
  match found with
  | Some tx => ret tx
  | None => raise (Http404 "No Transaction matches the given query.")
  end.

Definition cannot_exceed (tx : Transaction) : string :=
  "Refund amount cannot exceed transaction amount of " +:+ str_Decimal (tx_amount tx).

(** [RefundCreateView.post]. *)
Definition RefundCreateView_post (now : datetime) (request : Request RefundData)
  : World -> Response * World :=
  try_except
    (merchant ← merchant_or_404 (user request);
     validated ← RefundSerializer_is_valid unique_validator (body request);
     tx ← transaction_or_404 (tx_id (rv_transaction validated)) merchant;
     if negb (String.eqb (tx_status tx) "succeeded") then
       ret (standard_response false PNone
              (PStr "Only succeeded transactions can be refunded") 400)
     else
       existing ← gets (get_refund_of (tx_id tx));
       match existing with
       | Some _ =>
           ret (standard_response false PNone (PStr "Transaction already refunded") 400)
       | None =>
           let refund_amount := rv_amount validated in
           if tx_amount tx <? refund_amount then
             ret (standard_response false PNone (PStr (cannot_exceed tx)) 400)
           else
             id ← next_id "payments_refund";
             let refund := {| refund_id := id;
                              refund_transaction := tx_id tx;
                              refund_amount := refund_amount;
                              refund_reason := default "" (rv_reason validated);
                              refund_status := "succeeded";
                              refund_created_at := now |} in
             modify (fun w => set_refunds (refunds w ++ [refund]) w);;
             cache_delete ("transaction:" +:+ pretty (tx_id tx));;
             cache_delete_pattern (merchant_transactions_pattern merchant);;
             ret (standard_response true (RefundSerializer_data refund) PNone 201)
       end)
    (fun e => standard_response false PNone (PStr (str e)) 400).

End RefundCreateView.

(** *** TransactionCreateView *)

(** The check at the head of [TransactionCreateView.post]: the stored
    response when the request has a key whose record has a truthy
    [response_body]. *)
Definition stored_response (idempotency_key : option string) : M (option Response) :=
  match idempotency_key with
  | Some key =>
      if String.eqb key "" then ret None
      else
        modify (fun w => set_queries (queries w ++ [SELECT key]) w);;
        existing ← gets (fun w => idempotency_keys w !! key);
        ret (row ← existing;
             response_body ← ik_response_body row;
             if truthy response_body
             then Some {| status_code := default 200 (ik_response_status row);
                          data := response_body |}
             else None)
  | None => ret None
  end.

(** [IdempotencyKey.objects.create(key=..., ...)]; [key] is unique. *)
Definition IdempotencyKey_create (row : IdempotencyKey) : M unit :=
  existing ← gets (fun w => idempotency_keys w !! ik_key row);
  match existing with
  | Some _ => raise (IntegrityError "duplicate key value violates unique constraint")
  | None =>
      modify (fun w => set_queries (queries w ++ [INSERT (ik_key row)])
                         (set_idempotency_keys (<[ik_key row := row]> (idempotency_keys w)) w))
  end.

(** [TransactionCreateView.post]. *)
Definition TransactionCreateView_post (now : datetime) (request : Request TransactionData)
  : World -> Response * World :=
  try_except
    (stored ← stored_response (idempotency_key request);
     match stored with
     | Some response => ret response
     | None =>
         merchant ← merchant_or_404 (user request);
         payment_key ← TransactionDetailSerializer_is_valid (body request);
         if negb (paymentkey_merchant payment_key =? merchant_id merchant) then
           ret (standard_response false PNone
                  (PStr "Payment key does not belong to this merchant") 403)
         else
           id ← next_id "payments_transaction";
           let tx := {| tx_id := id;
                        tx_merchant := merchant_id merchant;
                        tx_amount := td_amount (body request);
                        tx_currency := td_currency (body request);
                        tx_description := default "" (td_description (body request));
                        tx_status := "pending";
                        tx_created_at := now;
                        tx_updated_at := now |} in
           modify (fun w => set_transactions (transactions w ++ [tx]) w);;
           modify (delay (ProcessTransaction (tx_id tx)));;
           cache_delete_pattern (merchant_transactions_pattern merchant);;
           serialized ← gets (TransactionDetailSerializer_data tx);
           let res := standard_response true serialized PNone 201 in
           match idempotency_key request with
           | Some key =>
               if String.eqb key "" then ret res
               else
                 IdempotencyKey_create
                   {| ik_key := key; ik_method := "POST"; ik_path := path request;
                      ik_response_status := Some 201;
                      ik_response_body :=
                        Some (PDict [("success", PBool true); ("data", serialized);
                                     ("error", PNone)]);
                      ik_created_at := now |};;
                 ret res
           | None => ret res
           end
     end)
    (fun e => standard_response false PNone (PStr (str e)) 400).

(** *** TransactionDetailView *)

(** [self.get_object()] on [get_queryset()]: the merchant of the user, then
    the transaction with this id among the merchant's. *)
Definition TransactionDetailView_get_object (user id : Z) : M Transaction :=
  merchant ← merchant_or_404 user;
  found ← gets (fun w => List.find (fun t => tx_id t =? id)
                           (List.filter (fun t => tx_merchant t =? merchant_id merchant)
                                        (transactions w)));
  match found with
  | Some tx => ret tx
  | None => raise (Http404 "No Transaction matches the given query.")
  end.

(** [cache.get(key)] followed by [if cached:]. A cache entry stays for its
    30 seconds; the model has the entries that are alive. *)
Definition cache_hit (key : string) : M (option value) :=
  cached ← gets (fun w => cache w !! key);
  ret (match cached with
       | Some v => if truthy v then Some v else None
       | None => None
       end).

(** [TransactionDetailView.retrieve(request, id=pk)]. *)
Definition TransactionDetailView_retrieve (request : Request unit) (pk : Z)
  : World -> Response * World :=
  try_except
    (let cache_key := "transaction:" +:+ pretty pk in
     cached ← cache_hit cache_key;
     match cached with
     | Some hit => ret (standard_response true hit PNone 200)
     | None =>
         instance ← TransactionDetailView_get_object (user request) pk;
         serialized ← gets (TransactionDetailSerializer_data instance);
         cache_set cache_key serialized;;
         ret (standard_response true serialized PNone 200)
     end)
    (fun _ => standard_response false PNone (PStr "Transaction not found") 404).

(** *** WebhookListCreateView *)

Section WebhookListCreateView.

Variable URLField_valid : string -> bool.

(** [WebhookListCreateView.get]. *)
Definition WebhookListCreateView_get (request : Request unit) : World -> Response * World :=
  try_except
    (merchant ← merchant_or_404 (user request);
     whs ← gets (fun w => List.filter (fun wb => webhook_merchant wb =? merchant_id merchant)
                                      (webhooks w));
     ret (standard_response true (PList (map WebhookSerializer_data whs)) PNone 200))
    (fun _ => standard_response false PNone (PStr "Failed to retrieve webhooks") 500).

(** [WebhookListCreateView.post]; [secret] is what [secrets.token_urlsafe(16)]
    returns. *)
Definition WebhookListCreateView_post (now : datetime) (secret : string)
    (request : Request string) : World -> Response * World :=
  try_except
    (merchant ← merchant_or_404 (user request);
     url ← WebhookSerializer_is_valid URLField_valid (body request);
     id ← next_id "payments_webhook";
     let wb := {| webhook_id := id; webhook_merchant := merchant_id merchant;
                  webhook_url := url; webhook_secret := secret;
                  webhook_created_at := now |} in
     modify (fun w => set_webhooks (webhooks w ++ [wb]) w);;
     ret (standard_response true (WebhookSerializer_data wb) PNone 201))
    (fun e => standard_response false PNone (PStr (str e)) 400).

End WebhookListCreateView.

(** *** PaymentKeyView *)

(** [PaymentKey.objects.create(merchant=..., key=..., is_active=True)];
    [key] is unique. *)
Definition PaymentKey_create (merchant : Merchant) (key : string) (now : datetime)
  : M PaymentKey :=
  existing ← gets (fun w => List.find (fun pk => String.eqb (paymentkey_key pk) key)
                                      (payment_keys w));
  match existing with
  | Some _ => raise (IntegrityError "duplicate key value violates unique constraint")
  | None =>
      id ← next_id "payments_paymentkey";
      let pk := {| paymentkey_id := id; paymentkey_merchant := merchant_id merchant;
                   paymentkey_key := key; paymentkey_is_active := true;
                   paymentkey_created_at := now |} in
      modify (fun w => set_payment_keys (payment_keys w ++ [pk]) w);;
      ret pk
  end.

(** [PaymentKeyView.post]; [token] is what [secrets.token_urlsafe(32)]
    returns. *)
Definition PaymentKeyView_post (now : datetime) (token : string) (request : Request unit)
  : World -> Response * World :=
  try_except
    (merchant ← merchant_or_404 (user request);
     let key := "pk_" +:+ token in
     pk ← PaymentKey_create merchant key now;
     ret (standard_response true (PaymentKeySerializer_data pk) PNone 201))
    (fun _ => standard_response false PNone (PStr "Failed to create payment key") 500).

(** *** TransactionListView *)

(** What the paginator hands back: [paginator.page.paginator.count],
    [get_next_link()], [get_previous_link()] and the rows of the page. *)
Record Page := {
  page_count : Z;
  page_next : value;
  page_previous : value;
  page_results : list Transaction
}.

(** Comparison of two items of [query_params.items()], as Python compares
    tuples of strings: by the key, then by the value. *)
Definition item_leb (a b : string * string) : bool :=
  if String.eqb a.1 b.1 then String.leb a.2 b.2 else String.leb a.1 b.1.

Definition item_le (a b : string * string) : Prop := item_leb a b = true.

#[global] Instance item_le_dec (a b : string * string) : Decision (item_le a b).
Proof. unfold item_le. apply _. Defined.

(** [request.query_params.get(name, default)]. *)
Definition query_param (name default : string) (query_params : list (string * string))
  : string :=
  match List.find (fun kv => String.eqb kv.1 name) query_params with
  | Some kv => kv.2
  | None => default
  end.

(** The cache key of a list request:
    [f"merchant:{merchant.id}:transactions:page:{page}:{cache_params}"]. *)
Definition list_cache_key (merchant : Merchant) (query_params : list (string * string))
  : string :=
  let page := query_param "page" "1" query_params in
  let cache_params :=
    String.concat "&" (map (fun kv => kv.1 +:+ "=" +:+ kv.2) (merge_sort item_le query_params)) in
  "merchant:" +:+ pretty (merchant_id merchant) +:+ ":transactions:page:" +:+ page
    +:+ ":" +:+ cache_params.

Section TransactionListView.

(** What the framework and the database do with the queryset, given the
    query parameters: the order of the rows for [order_by('-created_at')], the
    filter backends ([filterset_fields]), and the paginator, which raises on an
    invalid page and returns [None] when no pagination is configured. *)
Variable order_by_created_at_desc : list Transaction -> list Transaction.
Variable filter_queryset : list (string * string) -> list Transaction -> list Transaction.
Variable paginate_queryset :
  list (string * string) -> list Transaction -> exception + option Page.

(** [TransactionListView.get_queryset]. *)
Definition TransactionListView_get_queryset (user : Z) : M (list Transaction) :=
  merchant ← merchant_or_404 user;
  gets (fun w => order_by_created_at_desc
                   (List.filter (fun t => tx_merchant t =? merchant_id merchant)
                                (transactions w))).

(** [TransactionListView.list]; [query_params] are the items of
    [request.query_params]. *)
Definition TransactionListView_list (request : Request unit)
    (query_params : list (string * string)) : World -> Response * World :=
  try_except
    (merchant ← merchant_or_404 (user request);
     let cache_key := list_cache_key merchant query_params in
     cached ← cache_hit cache_key;
     match cached with
     | Some hit => ret (standard_response true hit PNone 200)
     | None =>
         rows ← TransactionListView_get_queryset (user request);
         let queryset := filter_queryset query_params rows in
         match paginate_queryset query_params queryset with
         | inl e => raise e
         | inr (Some page_obj) =>
             results ← gets (fun w => map (fun tx => TransactionListSerializer_data tx w)
                                          (page_results page_obj));
             let paginated_data :=
               PDict [ ("count", PInt (page_count page_obj));
                       ("next", page_next page_obj);
                       ("previous", page_previous page_obj);
                       ("results", PList results) ] in
             cache_set cache_key paginated_data;;
             ret (standard_response true paginated_data PNone 200)
         | inr None =>
             results ← gets (fun w => map (fun tx => TransactionListSerializer_data tx w)
                                          queryset);
             ret (standard_response true (PList results) PNone 200)
         end
     end)
    (fun _ => standard_response false PNone (PStr "Failed to retrieve transactions") 500).

End TransactionListView.

(** *** RefundDetailView *)

(** [Refund.objects.filter(transaction__merchant=merchant)]: the refunds
    whose transaction is the merchant's. *)
Definition refund_of_merchant (merchant : Merchant) (w : World) (r : Refund) : bool :=
  match get_transaction (refund_transaction r) w with
  | Some tx => tx_merchant tx =? merchant_id merchant
  | None => false
  end.

(** [RefundDetailView.retrieve(request, id=pk)]. *)
Definition RefundDetailView_retrieve (request : Request unit) (pk : Z)
  : World -> Response * World :=
  try_except
    (merchant ← merchant_or_404 (user request);
     found ← gets (fun w => List.find (fun r => refund_id r =? pk)
                              (List.filter (refund_of_merchant merchant w) (refunds w)));
     match found with
     | Some instance => ret (standard_response true (RefundSerializer_data instance) PNone 200)
     | None => raise (Http404 "No Refund matches the given query.")
     end)
    (fun _ => standard_response false PNone (PStr "Refund not found") 404).

(** *** WebhookDeleteView *)

(** [WebhookDeleteView.destroy(request, id=pk)]: [perform_destroy] deletes
    the row with the instance's primary key. *)
Definition WebhookDeleteView_destroy (request : Request unit) (pk : Z)
  : World -> Response * World :=
  try_except
    (merchant ← merchant_or_404 (user request);
     found ← gets (fun w => List.find (fun wb => webhook_id wb =? pk)
                              (List.filter (fun wb => webhook_merchant wb =? merchant_id merchant)
                                           (webhooks w)));
     match found with
     | Some instance =>
         modify (fun w => set_webhooks
                            (List.filter (fun wb => negb (webhook_id wb =? webhook_id instance))
                                         (webhooks w)) w);;
         ret (standard_response true
                (PDict [("message", PStr "Webhook deleted successfully")]) PNone 200)
     | None => raise (Http404 "No Webhook matches the given query.")
     end)
    (fun _ => standard_response false PNone (PStr "Webhook not found") 404).

End Views.

(** ** Vocabulary of the properties *)

(** The payload has exactly the seven fields, filled from the transaction,
    and the two dates are written in ISO 8601. *)
Definition snapshot (tx : Transaction) (payload : value) : Prop :=
  keys payload = ["id"; "status"; "amount"; "currency"; "description"; "created_at"; "updated_at"]
  /\ get "id" payload = Some (PInt (tx_id tx))
  /\ get "status" payload = Some (PStr (tx_status tx))
  /\ get "amount" payload = Some (PStr (str_Decimal (tx_amount tx)))
  /\ get "currency" payload = Some (PStr (tx_currency tx))
  /\ get "description" payload = Some (PStr (tx_description tx))
  /\ get "created_at" payload = Some (PStr (isoformat (tx_created_at tx)))
  /\ get "updated_at" payload = Some (PStr (isoformat (tx_updated_at tx)))
  /\ is_iso8601 (isoformat (tx_created_at tx)) = true
  /\ is_iso8601 (isoformat (tx_updated_at tx)) = true.

(** The attempt is a delivery: the webhook exists and the endpoint answered
    with a status that [raise_for_status] lets pass. *)
Definition delivered (env : Tasks.Env) (webhook_id : Z) (payload : value) : Prop :=
  exists wb status_code reason,
    find_webhook webhook_id (Tasks.env_webhooks env) = Some wb
    /\ Tasks.env_post env (webhook_url wb) payload = Tasks.Responded status_code reason
    /\ ~ (400 <= status_code < 600).



(** The transaction [pk] of the user's merchant. *)
Definition owned_transaction (user pk : Z) (w : World) : option Transaction :=
  m ← get_merchant user w;
  List.find (fun t => (tx_id t =? pk) && (tx_merchant t =? merchant_id m)) (transactions w).

(** The preconditions of a refund. *)
Definition refundable (user : Z) (d : Serializers.RefundData) (w : World) : Prop :=
  exists tx, owned_transaction user (Serializers.rd_transaction d) w = Some tx
    /\ tx_status tx = "succeeded"
    /\ get_refund_of (Serializers.rd_transaction d) w = None
    /\ 0 < Serializers.rd_amount d <= tx_amount tx.

(** The request with another value sent for the read-only [status]. *)
Definition with_client_status (s : option string) (request : Request Serializers.RefundData)
  : Request Serializers.RefundData :=
  {| method := method request; path := path request;
     idempotency_key := idempotency_key request; user := user request;
     body := {| Serializers.rd_transaction := Serializers.rd_transaction (body request);
                Serializers.rd_amount := Serializers.rd_amount (body request);
                Serializers.rd_reason := Serializers.rd_reason (body request);
                Serializers.rd_status := s |} |}.

(** The webhook with another secret. *)
Definition with_secret (secret : Webhook -> string) (wb : Webhook) : Webhook :=
  {| webhook_id := webhook_id wb; webhook_merchant := webhook_merchant wb;
     webhook_url := webhook_url wb; webhook_secret := secret wb;
     webhook_created_at := webhook_created_at wb |}.

Definition webhook_fields : list string := ["id"; "url"; "created_at"].

(** ** An implementation of the JSON functions *)

Module Json.

Definition quote : ascii := ascii_of_N 34.
Definition backslash : ascii := ascii_of_N 92.

(** A string literal; the quote and the backslash are escaped, which is
    enough for printable ASCII text. *)
Fixpoint escape (s : string) : string :=
  match s with
  | EmptyString => ""
  | String c s' =>
      if Ascii.eqb c quote || Ascii.eqb c backslash
      then String backslash (String c (escape s'))
      else String c (escape s')
  end.

Definition literal (s : string) : string :=
  String quote (escape s) +:+ String quote "".

(** [json.dumps] with its default separators. *)
Fixpoint dumps (v : value) : string :=
  match v with
  | PNone => "null"
  | PBool true => "true"
  | PBool false => "false"
  | PInt n => pretty n
  | PStr s => literal s
  | PList xs => "[" +:+ String.concat ", " (map dumps xs) +:+ "]"
  | PDict items =>
      "{" +:+ String.concat ", " (map (fun kv => literal kv.1 +:+ ": " +:+ dumps kv.2) items)
        +:+ "}"
  end.

(** A reader for the texts of the given documents. *)
Definition loads (documents : list value) (text : string) : option value :=
  List.find (fun d => String.eqb (dumps d) text) documents.

End Json.

(** ** Sample data *)

Module Sample.

Definition t0 : datetime :=
  {| year := 2024; month := 1; day := 2; hour := 3; minute := 4; second := 5;
     microsecond := 0; utcoffset := Some 0 |}.
Definition t1 : datetime :=
  {| year := 2024; month := 1; day := 2; hour := 3; minute := 4; second := 9;
     microsecond := 120; utcoffset := Some 0 |}.

Definition alice : Merchant := {| merchant_id := 1; merchant_user := 10; merchant_name := "A" |}.
Definition bob : Merchant := {| merchant_id := 2; merchant_user := 20; merchant_name := "B" |}.

Definition tx1 (status : string) : Transaction :=
  {| tx_id := 1; tx_merchant := 1; tx_amount := 10000; tx_currency := "USD";
     tx_description := "Test payment"; tx_status := status;
     tx_created_at := t0; tx_updated_at := t0 |}.

Definition hook1 : Webhook :=
  {| webhook_id := 1; webhook_merchant := 1; webhook_url := "https://a.example/hook";
     webhook_secret := "s3cr3t"; webhook_created_at := t0 |}.

(** Two merchants; the first has an active payment key, one transaction of
    100.00 USD in the given status and one webhook. *)
Definition world (status : string) : World :=
  {| merchants := [alice; bob];
     payment_keys := [ {| paymentkey_id := 1; paymentkey_merchant := 1;
                          paymentkey_key := "pk_a"; paymentkey_is_active := true;
                          paymentkey_created_at := t0 |} ];
     transactions := [tx1 status];
     refunds := [];
     webhooks := [hook1];
     idempotency_keys := ∅;
     sequences := {[ "payments_transaction" := 1; "payments_webhook" := 1 ]};
     cache := ∅;
     queue := [];
     queries := [] |}.

Definition request {B} (m : string) (key : option string) (u : Z) (b : B) : Request B :=
  {| method := m; path := "/api/"; idempotency_key := key; user := u; body := b |}.

(** A payment of 100.00 USD, and one of 200.00 EUR. *)
Definition pay : Serializers.TransactionData :=
  {| Serializers.td_payment_key := "pk_a"; Serializers.td_amount := 10000;
     Serializers.td_currency := "USD"; Serializers.td_description := None |}.
Definition pay_other : Serializers.TransactionData :=
  {| Serializers.td_payment_key := "pk_a"; Serializers.td_amount := 20000;
     Serializers.td_currency := "EUR"; Serializers.td_description := None |}.

(** A refund of the given amount on transaction 1. *)
Definition refund_of (amount : Z) : Serializers.RefundData :=
  {| Serializers.rd_transaction := 1; Serializers.rd_amount := amount;
     Serializers.rd_reason := Some "Customer request"; Serializers.rd_status := None |}.

(** An endpoint that answers every call with the given status. *)
Definition answering (status_code : Z) (reason : string) : nat -> Tasks.Env :=
  fun _ => {| Tasks.env_webhooks := [hook1];
              Tasks.env_post := fun _ _ => Tasks.Responded status_code reason |}.

(** An endpoint that times out twice and then answers 200. *)
Definition recovering : nat -> Tasks.Env :=
  fun n => {| Tasks.env_webhooks := [hook1];
              Tasks.env_post := fun _ _ =>
                if (n <? 2)%nat then Tasks.Raised "Read timed out."
                else Tasks.Responded 200 "OK" |}.

(** A stored response and the record that holds it, as the middleware
    writes it. *)
Definition stored : value :=
  PDict [("success", PBool true); ("data", PDict [("id", PInt 7)]); ("error", PNone)].

Definition record : IdempotencyKey :=
  {| ik_key := "k1"; ik_method := "POST"; ik_path := "/api/";
     ik_response_status := Some 201;
     ik_response_body := Some (PStr (Json.dumps stored));
     ik_created_at := t0 |}.


End Sample.

(** ** Vocabulary of the further properties *)

(** The idempotency key of a request when it is truthy ([if idempotency_key:]). *)
Definition request_key {B} (request : Request B) : option string :=
  match idempotency_key request with
  | Some key => if String.eqb key "" then None else Some key
  | None => None
  end.

(** The world with the [SELECT] of the view's idempotency check recorded,
    when the request has a key. *)
Definition checked {B} (request : Request B) (w : World) : World :=
  match request_key request with
  | Some key => set_queries (queries w ++ [SELECT key]) w
  | None => w
  end.

(** The record of the request's key has a truthy response body. *)
Definition has_stored_response {B} (request : Request B) (w : World) : Prop :=
  exists key row response_body,
    request_key request = Some key
    /\ idempotency_keys w !! key = Some row
    /\ ik_response_body row = Some response_body
    /\ truthy response_body = true.

(** The preconditions of a payment: the user has a merchant, the payment
    key is an active key of that merchant, the amount is positive. *)
Definition payable (user : Z) (d : Serializers.TransactionData) (w : World) : Prop :=
  exists m pk,
    get_merchant user w = Some m
    /\ List.find (fun pk => String.eqb (paymentkey_key pk) (Serializers.td_payment_key d)
                              && paymentkey_is_active pk) (payment_keys w) = Some pk
    /\ paymentkey_merchant pk = merchant_id m
    /\ 0 < Serializers.td_amount d.

(** The transaction a payment creates. *)
Definition new_transaction (m : Merchant) (d : Serializers.TransactionData) (now : datetime)
    (w : World) : Transaction :=
  {| tx_id := default 0 (sequences w !! "payments_transaction") + 1;
     tx_merchant := merchant_id m;
     tx_amount := Serializers.td_amount d;
     tx_currency := Serializers.td_currency d;
     tx_description := default "" (Serializers.td_description d);
     tx_status := "pending";
     tx_created_at := now;
     tx_updated_at := now |}.

(** The request's key, if it has one, has no record yet. *)
Definition fresh_key {B} (request : Request B) (w : World) : Prop :=
  match request_key request with
  | Some key => idempotency_keys w !! key = None
  | None => True
  end.

(** The string has no colon. *)
Fixpoint colon_free (s : string) : bool :=
  match s with
  | EmptyString => true
  | String c s' => negb (Ascii.eqb c ":") && colon_free s'
  end.

(** The refund a refund request creates. *)
Definition new_refund (d : Serializers.RefundData) (now : datetime) (w : World) : Refund :=
  {| refund_id := default 0 (sequences w !! "payments_refund") + 1;
     refund_transaction := Serializers.rd_transaction d;
     refund_amount := Serializers.rd_amount d;
     refund_reason := default "" (Serializers.rd_reason d);
     refund_status := "succeeded";
     refund_created_at := now |}.

(** The cache key of the detail of a transaction. *)
Definition detail_cache_key (pk : Z) : string := "transaction:" +:+ pretty pk.

(** ** The application as a whole *)

(** The functions of the framework and of the libraries that the views and
    the middleware are parameterised by. *)
Record Framework := {
  fw_json_dumps : value -> option string;
  fw_json_loads : string -> option value;
  fw_unique_validator : bool;
  fw_URLField_valid : string -> bool;
  fw_order_by_created_at_desc : list Transaction -> list Transaction;
  fw_filter_queryset : list (string * string) -> list Transaction -> list Transaction;
  fw_paginate_queryset :
    list (string * string) -> list Transaction -> exception + option Views.Page
}.

(** The routes of [urls.py] that are modelled, with what the request carries
    and what the view draws ([token], [secret]). *)
Inductive Call :=
| PostPaymentKey (token : string) (request : Request unit)
| PostTransaction (request : Request Serializers.TransactionData)
| GetTransactions (request : Request unit) (query_params : list (string * string))
| GetTransaction (request : Request unit) (pk : Z)
| PostRefund (request : Request Serializers.RefundData)
| GetRefund (request : Request unit) (pk : Z)
| GetWebhooks (request : Request unit)
| PostWebhook (secret : string) (request : Request string)
| DeleteWebhook (request : Request unit) (pk : Z).

(** A view behind the middleware. *)
Definition behind_middleware {B} (fw : Framework) (now : datetime) (view : Handler B)
  : Handler B :=
  Middleware.__call__ (fw_json_dumps fw) (fw_json_loads fw) view now.

(** The application answering a call at time [now]. *)
Definition serve (fw : Framework) (now : datetime) (c : Call) : World -> Response * World :=
  match c with
  | PostPaymentKey token request =>
      behind_middleware fw now (Views.PaymentKeyView_post now token) request
  | PostTransaction request =>
      behind_middleware fw now (Views.TransactionCreateView_post now) request
  | GetTransactions request query_params =>
      behind_middleware fw now
        (fun request =>
           Views.TransactionListView_list (fw_order_by_created_at_desc fw)
             (fw_filter_queryset fw) (fw_paginate_queryset fw) request query_params)
        request
  | GetTransaction request pk =>
      behind_middleware fw now (fun request => Views.TransactionDetailView_retrieve request pk)
        request
  | PostRefund request =>
      behind_middleware fw now (Views.RefundCreateView_post (fw_unique_validator fw) now) request
  | GetRefund request pk =>
      behind_middleware fw now (fun request => Views.RefundDetailView_retrieve request pk)
        request
  | GetWebhooks request =>
      behind_middleware fw now Views.WebhookListCreateView_get request
  | PostWebhook secret request =>
      behind_middleware fw now
        (Views.WebhookListCreateView_post (fw_URLField_valid fw) now secret) request
  | DeleteWebhook request pk =>
      behind_middleware fw now (fun request => Views.WebhookDeleteView_destroy request pk)
        request
  end.

(** The worker running a job, with the draw of [random.random()] and the
    clock. [deliver_webhook] reads the webhook and posts to its URL; it writes
    nothing. *)
Definition run_job (job : Job) (k : Z) (now : datetime) (w : World) : World :=
  match job with
  | ProcessTransaction transaction_id => Tasks.process_transaction transaction_id k now w
  | SendWebhooks transaction_id => Tasks.send_webhooks transaction_id w
  | DeliverWebhook _ _ => w
  end.

(** What happens to the world: a call is answered, or the worker runs a job
    (any job: a job may be delivered again). *)
Inductive Event :=
| Api (now : datetime) (c : Call)
| Worker (job : Job) (k : Z) (now : datetime).

Definition step (fw : Framework) (ev : Event) (w : World) : World :=
  match ev with
  | Api now c => (serve fw now c w).2
  | Worker job k now => run_job job k now w
  end.

Definition run (fw : Framework) (evs : list Event) (w : World) : World :=
  fold_left (fun w ev => step fw ev w) evs w.

(** The tables of the database. *)
Record Tables := {
  t_merchants : list Merchant;
  t_payment_keys : list PaymentKey;
  t_transactions : list Transaction;
  t_refunds : list Refund;
  t_webhooks : list Webhook;
  t_sequences : gmap string Z
}.

Definition tables (w : World) : Tables :=
  {| t_merchants := merchants w; t_payment_keys := payment_keys w;
     t_transactions := transactions w; t_refunds := refunds w; t_webhooks := webhooks w;
     t_sequences := sequences w |}.

Definition last_id (table : string) (t : Tables) : Z := default 0 (t_sequences t !! table).

(** The changes of the tables, with the merchant whose rows change. *)
Inductive Change (t : Tables) : option Z -> Tables -> Prop :=
| Unchanged (owner : option Z) : Change t owner t
| PaymentKeyAdded (pk : PaymentKey) :
    paymentkey_id pk = last_id "payments_paymentkey" t + 1 ->
    Change t (Some (paymentkey_merchant pk))
      {| t_merchants := t_merchants t; t_payment_keys := t_payment_keys t ++ [pk];
         t_transactions := t_transactions t; t_refunds := t_refunds t;
         t_webhooks := t_webhooks t;
         t_sequences := <["payments_paymentkey" := paymentkey_id pk]> (t_sequences t) |}
| TransactionAdded (tx : Transaction) :
    tx_id tx = last_id "payments_transaction" t + 1 ->
    tx_status tx = "pending" ->
    Change t (Some (tx_merchant tx))
      {| t_merchants := t_merchants t; t_payment_keys := t_payment_keys t;
         t_transactions := t_transactions t ++ [tx]; t_refunds := t_refunds t;
         t_webhooks := t_webhooks t;
         t_sequences := <["payments_transaction" := tx_id tx]> (t_sequences t) |}
| TransactionSettled (tx : Transaction) (status : string) (now : datetime) :
    List.find (fun row => tx_id row =? tx_id tx) (t_transactions t) = Some tx ->
    status = "succeeded" \/ status = "failed" ->
    Change t (Some (tx_merchant tx))
      {| t_merchants := t_merchants t; t_payment_keys := t_payment_keys t;
         t_transactions :=
           map (fun row => if tx_id row =? tx_id tx
                           then Tasks.pre_save now (Tasks.with_status status tx)
                           else row) (t_transactions t);
         t_refunds := t_refunds t; t_webhooks := t_webhooks t;
         t_sequences := t_sequences t |}
| RefundAdded (r : Refund) (tx : Transaction) :
    refund_id r = last_id "payments_refund" t + 1 ->
    refund_status r = "succeeded" ->
    In tx (t_transactions t) -> tx_id tx = refund_transaction r ->
    0 < refund_amount r <= tx_amount tx ->
    List.find (fun r' => refund_transaction r' =? refund_transaction r) (t_refunds t) = None ->
    Change t (Some (tx_merchant tx))
      {| t_merchants := t_merchants t; t_payment_keys := t_payment_keys t;
         t_transactions := t_transactions t; t_refunds := t_refunds t ++ [r];
         t_webhooks := t_webhooks t;
         t_sequences := <["payments_refund" := refund_id r]> (t_sequences t) |}
| WebhookAdded (wb : Webhook) :
    webhook_id wb = last_id "payments_webhook" t + 1 ->
    Change t (Some (webhook_merchant wb))
      {| t_merchants := t_merchants t; t_payment_keys := t_payment_keys t;
         t_transactions := t_transactions t; t_refunds := t_refunds t;
         t_webhooks := t_webhooks t ++ [wb];
         t_sequences := <["payments_webhook" := webhook_id wb]> (t_sequences t) |}
| WebhookDeleted (wb : Webhook) :
    In wb (t_webhooks t) ->
    Change t (Some (webhook_merchant wb))
      {| t_merchants := t_merchants t; t_payment_keys := t_payment_keys t;
         t_transactions := t_transactions t; t_refunds := t_refunds t;
         t_webhooks := List.filter (fun row => negb (webhook_id row =? webhook_id wb))
                                   (t_webhooks t);
         t_sequences := t_sequences t |}.

(** The user of a call, and the merchant of a user, by its id. *)
Definition caller (c : Call) : Z :=
  match c with
  | PostPaymentKey _ request | GetTransactions request _ | GetTransaction request _
  | GetRefund request _ | GetWebhooks request | DeleteWebhook request _ => user request
  | PostTransaction request => user request
  | PostRefund request => user request
  | PostWebhook _ request => user request
  end.

Definition merchant_of (user : Z) (w : World) : option Z :=
  merchant_id <$> get_merchant user w.

(** Primary keys: the ids of a table are distinct and none is above the
    sequence of the table. *)
Definition keyed {A} (id : A -> Z) (table : string) (rows : list A) (t : Tables) : Prop :=
  NoDup (map id rows) /\ Forall (fun row => id row <= last_id table t) rows.

Definition consistent (t : Tables) : Prop :=
  keyed paymentkey_id "payments_paymentkey" (t_payment_keys t) t
  /\ keyed tx_id "payments_transaction" (t_transactions t) t
  /\ keyed refund_id "payments_refund" (t_refunds t) t
  /\ keyed webhook_id "payments_webhook" (t_webhooks t) t.

(** What may become of a transaction: its identity, owner, amount, currency,
    description and creation time stay; it is untouched or its status is that
    of a settlement. *)
Definition evolves (tx tx' : Transaction) : Prop :=
  tx_id tx' = tx_id tx /\ tx_merchant tx' = tx_merchant tx /\ tx_amount tx' = tx_amount tx
  /\ tx_currency tx' = tx_currency tx /\ tx_description tx' = tx_description tx
  /\ tx_created_at tx' = tx_created_at tx
  /\ (tx' = tx \/ tx_status tx' = "succeeded" \/ tx_status tx' = "failed").

(** The ledger after holds the transactions of the ledger before, in their
    places and evolved, followed by the new ones. *)
Definition ledger_grows (t t' : Tables) : Prop :=
  exists rows added,
    t_transactions t' = rows ++ added /\ Forall2 evolves (t_transactions t) rows.

(** Every refund has succeeded, is on a transaction of the ledger for a
    positive amount not above the transaction's, and no transaction has two. *)
Definition sound_refunds (t : Tables) : Prop :=
  NoDup (map refund_transaction (t_refunds t))
  /\ Forall (fun r => refund_status r = "succeeded"
                      /\ exists tx, In tx (t_transactions t) /\ tx_id tx = refund_transaction r
                           /\ 0 < refund_amount r <= tx_amount tx) (t_refunds t).

(** The serialized rows in the data of a list response, paginated or not. *)
Definition results_of (d : value) : list value :=
  match d with
  | PList rows => rows
  | PDict _ => match get "results" d with Some (PList rows) => rows | _ => [] end
  | _ => []
  end.

(** ** A scenario *)

Module Scenario.

(** A framework: JSON as in [Json], a URL check, the rows newest first, a
    filter on [status], and pages of ten with only the first page valid. *)
Definition framework : Framework :=
  {| fw_json_dumps := fun v => Some (Json.dumps v);
     fw_json_loads := Json.loads [Sample.stored];
     fw_unique_validator := true;
     fw_URLField_valid := fun url => negb (String.eqb url "");
     fw_order_by_created_at_desc := @rev Transaction;
     fw_filter_queryset := fun query_params rows =>
       match List.find (fun kv => String.eqb kv.1 "status") query_params with
       | Some kv => List.filter (fun tx => String.eqb (tx_status tx) kv.2) rows
       | None => rows
       end;
     fw_paginate_queryset := fun query_params rows =>
       if String.eqb (Views.query_param "page" "1" query_params) "1"
       then inr (Some {| Views.page_count := Z.of_nat (length rows);
                         Views.page_next := PNone; Views.page_previous := PNone;
                         Views.page_results := take 10 rows |})
       else inl (Http404 "Invalid page.") |}.

(** The sample world with the sequence of every table in place. *)
Definition shop (status : string) : World :=
  set_sequences (<["payments_paymentkey" := 1]> (sequences (Sample.world status)))
    (Sample.world status).


(** The sample world with a cached detail of transaction 1 and a cached list
    page of each merchant. *)
Definition cached (status : string) : World :=
  set_cache {[ detail_cache_key 1 := PDict [("id", PInt 1)];
               Views.list_cache_key Sample.alice [] := PDict [("count", PInt 1)];
               Views.list_cache_key Sample.bob [] := PDict [("count", PInt 0)] ]}
    (Sample.world status).

(** A refund of 50.00 on the given transaction. *)
Definition refund (transaction : Z) : Serializers.RefundData :=
  {| Serializers.rd_transaction := transaction; Serializers.rd_amount := 5000;
     Serializers.rd_reason := None; Serializers.rd_status := None |}.

(** The second merchant gets a payment key; the first pays with a key, the
    payment is settled as succeeded and fanned out, is refunded in part, and
    its settlement job is delivered again with a failing draw; the first
    merchant removes the webhook and lists the transactions. *)
Definition day : list Event :=
  [ Api Sample.t0 (PostPaymentKey "tok" (Sample.request "POST" None 20 tt));
    Api Sample.t0 (PostTransaction (Sample.request "POST" (Some "k1") 10 Sample.pay));
    Worker (ProcessTransaction 2) (2 ^ 52) Sample.t1;
    Worker (SendWebhooks 2) 0 Sample.t1;
    Api Sample.t1 (PostRefund (Sample.request "POST" None 10 (refund 2)));
    Worker (ProcessTransaction 2) 0 Sample.t1;
    Api Sample.t1 (DeleteWebhook (Sample.request "DELETE" None 10 tt) 1);
    Api Sample.t1 (GetTransactions (Sample.request "GET" None 10 tt) [("status", "failed")]) ].

End Scenario.

(** * Properties *)

(** ** Settlement *)

Section Settlement.

Import Tasks.

Lemma find_tx_id (id : Z) (rows : list Transaction) (tx : Transaction) :
  List.find (fun t => tx_id t =? id) rows = Some tx -> tx_id tx = id.
Proof. intros H. apply find_some in H as [_ H]. lia. Qed.

(** Looking up [id] after the rows with key [id'] were replaced by [new]. *)
Lemma find_replaced (id id' : Z) (new : Transaction) (rows : list Transaction) :
  tx_id new = id' ->
  List.find (fun t => tx_id t =? id)
            (map (fun row => if tx_id row =? id' then new else row) rows)
  = if id =? id'
    then match List.find (fun t => tx_id t =? id) rows with
         | Some _ => Some new
         | None => None
         end
    else List.find (fun t => tx_id t =? id) rows.
Proof.
  intros Hnew. induction rows as [|row rows IH]; simpl.
  - by destruct (id =? id').
  - destruct (tx_id row =? id') eqn:Hrow.
    + destruct (id =? id') eqn:Hid.
      * assert ((tx_id new =? id) = true) as -> by lia.
        assert ((tx_id row =? id) = true) as -> by lia. done.
      * assert ((tx_id new =? id) = false) as -> by lia.
        assert ((tx_id row =? id) = false) as -> by lia.
        done.
    + destruct (tx_id row =? id) eqn:Hr.
      * assert ((id =? id') = false) as -> by lia. done.
      * rewrite IH. done.
Qed.

Lemma get_transaction_save (id : Z) (now : datetime) (tx : Transaction) (w : World) :
  get_transaction id (save now tx w)
  = if id =? tx_id tx
    then match get_transaction id w with
         | Some _ => Some (pre_save now tx)
         | None => None
         end
    else get_transaction id w.
Proof. unfold get_transaction, save. simpl. by apply find_replaced. Qed.

Lemma get_transaction_delay (id : Z) (j : Job) (w : World) :
  get_transaction id (delay j w) = get_transaction id w.
Proof. done. Qed.

(** What one execution of the task does to an existing transaction. *)
Lemma process_transaction_found (id k : Z) (now : datetime) (w : World) (tx : Transaction) :
  get_transaction id w = Some tx ->
  let settled := pre_save now (with_status (if random_above_0_2 k then "succeeded" else "failed") tx) in
  get_transaction id (process_transaction id k now w) = Some settled
  /\ queue (process_transaction id k now w) = queue w ++ [SendWebhooks id]
  /\ forall id', id' <> id ->
       get_transaction id' (process_transaction id k now w) = get_transaction id' w.
Proof.
  intros Hget. pose proof (find_tx_id _ _ _ Hget) as Hid.
  unfold process_transaction. rewrite Hget. cbv zeta.
  repeat split.
  - rewrite get_transaction_delay, get_transaction_save. simpl.
    rewrite Hid, Z.eqb_refl, Hget. done.
  - simpl. by rewrite Hid.
  - intros id' Hne. rewrite get_transaction_delay, get_transaction_save. simpl.
    rewrite Hid. by assert ((id' =? id) = false) as -> by lia.
Qed.

(** C1, as amended. [process_transaction] does not look at the status it
    reads: on an existing transaction every execution writes the drawn outcome,
    ['succeeded'] or ['failed'], and queues one [send_webhooks] job; on a
    missing transaction it does nothing. *)
Theorem process_transaction_transition (id k : Z) (now : datetime) (w : World) :
  let w' := process_transaction id k now w in
  match get_transaction id w with
  | Some tx =>
      tx_status <$> get_transaction id w'
        = Some (if random_above_0_2 k then "succeeded" else "failed")
      /\ queue w' = queue w ++ [SendWebhooks id]
  | None => w' = w
  end.
Proof.
  cbv zeta. destruct (get_transaction id w) as [tx|] eqn:Hget.
  - destruct (process_transaction_found id k now w tx Hget) as (-> & -> & _).
    by destruct (random_above_0_2 k).
  - unfold process_transaction. by rewrite Hget.
Qed.

(** C1, as stated, fails: a job delivered for a transaction that has
    succeeded, with a draw of at most 0.2, turns it to failed and queues
    a fan-out. *)
Lemma redelivery_overwrites_terminal_status :
  ~ (forall (id k : Z) (now : datetime) (w : World) (tx : Transaction),
       get_transaction id w = Some tx ->
       tx_status tx <> "pending" ->
       tx_status <$> get_transaction id (process_transaction id k now w) = Some (tx_status tx)
       /\ queue (process_transaction id k now w) = queue w).
Proof.
  intros H.
  destruct (H 1 0 Sample.t1 (Sample.world "succeeded") (Sample.tx1 "succeeded"))
    as [Hstatus _]; [reflexivity | discriminate | discriminate Hstatus].
Qed.

(** A job delivered twice: the first run settles the pending transaction as
    succeeded, the second turns it to failed, and two fan-outs are queued. *)
Example settled_twice :
  let w1 := process_transaction 1 (2 ^ 52) Sample.t0 (Sample.world "pending") in
  let w2 := process_transaction 1 0 Sample.t1 w1 in
  tx_status <$> get_transaction 1 w1 = Some "succeeded"
  /\ tx_status <$> get_transaction 1 w2 = Some "failed"
  /\ queue w2 = [SendWebhooks 1; SendWebhooks 1].
Proof. vm_compute. done. Qed.

(** C8. Settlement leaves [id], [merchant], [amount], [currency],
    [description] and [created_at] of the transaction as they were, and does
    not touch any other transaction. *)
Theorem settlement_frame (id k : Z) (now : datetime) (w : World) (tx : Transaction) :
  get_transaction id w = Some tx ->
  let w' := process_transaction id k now w in
  (exists tx', get_transaction id w' = Some tx'
     /\ tx_id tx' = tx_id tx
     /\ tx_merchant tx' = tx_merchant tx
     /\ tx_amount tx' = tx_amount tx
     /\ tx_currency tx' = tx_currency tx
     /\ tx_description tx' = tx_description tx
     /\ tx_created_at tx' = tx_created_at tx
     /\ tx_updated_at tx' = now)
  /\ (forall id', id' <> id -> get_transaction id' w' = get_transaction id' w)
  /\ merchants w' = merchants w /\ refunds w' = refunds w /\ webhooks w' = webhooks w.
Proof.
  intros Hget. cbv zeta.
  destruct (process_transaction_found id k now w tx Hget) as (Hnew & _ & Hothers).
  split; [|split; [exact Hothers|]].
  - eexists. split; [exact Hnew|]. done.
  - unfold process_transaction. by rewrite Hget.
Qed.

Lemma settlement_frame_witness :
  exists tx', get_transaction 1 (process_transaction 1 (2 ^ 52) Sample.t1 (Sample.world "pending"))
              = Some tx'
    /\ tx_amount tx' = 10000 /\ tx_currency tx' = "USD" /\ tx_status tx' = "succeeded".
Proof.
  destruct (settlement_frame 1 (2 ^ 52) Sample.t1 (Sample.world "pending")
              (Sample.tx1 "pending") eq_refl)
    as [(tx' & Hget & _ & _ & Hamount & Hcurrency & _) _].
  exists tx'. split; [exact Hget|]. split; [exact Hamount|]. split; [exact Hcurrency|].
  vm_compute in Hget. by injection Hget as <-.
Defined.

End Settlement.

(** ** Webhook payload *)

Section Payload.

Import Tasks.

Lemma is_digit_digit (n : Z) : is_digit (digit n) = true.
Proof.
  unfold is_digit, digit.
  assert (0 <= n mod 10 < 10) as Hmod by (apply Z.mod_pos_bound; lia).
  rewrite N_ascii_embedding by lia.
  apply andb_true_intro. split; apply N.leb_le; lia.
Qed.

(** [isoformat()] writes ISO 8601: the digits are computed, the rest is
    literal. *)
Lemma isoformat_iso8601 (dt : datetime) : is_iso8601 (isoformat dt) = true.
Proof.
  unfold is_iso8601, isoformat, format_time, format_offset.
  destruct (microsecond dt =? 0), (utcoffset dt) as [m|]; try destruct (m <? 0);
    cbv -[digit is_digit Z.div Z.modulo Z.abs]; rewrite !is_digit_digit; reflexivity.
Qed.

Lemma payload_of_snapshot (tx : Transaction) : snapshot tx (payload_of tx).
Proof. unfold snapshot. rewrite !isoformat_iso8601. repeat split. Qed.

Lemma queue_fan_out (payload : value) (whs : list Webhook) (w : World) :
  queue (fold_left (fun w wb => delay (DeliverWebhook (webhook_id wb) payload) w) whs w)
  = queue w ++ map (fun wb => DeliverWebhook (webhook_id wb) payload) whs.
Proof.
  revert w. induction whs as [|wb whs IH]; intros w; simpl.
  - by rewrite app_nil_r.
  - rewrite IH. simpl. by rewrite <- app_assoc.
Qed.

(** The jobs [send_webhooks] adds to the queue. *)
Lemma send_webhooks_jobs (id : Z) (w : World) :
  queue (send_webhooks id w)
  = queue w ++
    match get_transaction id w with
    | Some tx =>
        map (fun wb => DeliverWebhook (webhook_id wb) (payload_of tx))
            (List.filter (fun wb => webhook_merchant wb =? tx_merchant tx) (webhooks w))
    | None => []
    end.
Proof.
  unfold send_webhooks. destruct (get_transaction id w) as [tx|]; [|by rewrite app_nil_r].
  destruct (List.filter _ (webhooks w)) as [|wb whs] eqn:Hwhs; [by rewrite app_nil_r|].
  apply queue_fan_out.
Qed.

(** C7. Every job the fan-out queues carries a payload with exactly the
    seven fields, filled from the transaction as [send_webhooks] reads it:
    the amount as a decimal string, the two dates in ISO 8601. *)
Theorem send_webhooks_payload (id : Z) (w : World) :
  exists jobs, queue (send_webhooks id w) = queue w ++ jobs
    /\ Forall (fun j => exists tx wb payload,
                  get_transaction id w = Some tx
                  /\ In wb (webhooks w) /\ webhook_merchant wb = tx_merchant tx
                  /\ j = DeliverWebhook (webhook_id wb) payload
                  /\ snapshot tx payload) jobs.
Proof.
  eexists. split; [apply send_webhooks_jobs|].
  destruct (get_transaction id w) as [tx|]; [|constructor].
  apply Forall_forall. intros j Hj%list_elem_of_In.
  apply in_map_iff in Hj as [wb [<- Hwb]].
  apply filter_In in Hwb as [Hin Hm].
  exists tx, wb, (payload_of tx).
  split; [done|]. split; [done|]. split; [lia|]. split; [done|]. apply payload_of_snapshot.
Qed.

(** The fan-out that settlement queues, run next, reports the outcome just
    written and the time of the write. *)
Lemma fan_out_after_settlement (id k : Z) (now : datetime) (w : World) (tx : Transaction) :
  get_transaction id w = Some tx ->
  let settled :=
    pre_save now (with_status (if random_above_0_2 k then "succeeded" else "failed") tx) in
  queue (send_webhooks id (process_transaction id k now w))
  = (queue w ++ [SendWebhooks id])
      ++ map (fun wb => DeliverWebhook (webhook_id wb) (payload_of settled))
             (List.filter (fun wb => webhook_merchant wb =? tx_merchant tx) (webhooks w)).
Proof.
  intros Hget. cbv zeta. rewrite send_webhooks_jobs.
  destruct (process_transaction_found id k now w tx Hget) as (-> & -> & _).
  f_equal. unfold process_transaction. by rewrite Hget.
Qed.

Example fan_out_payload :
  queue (send_webhooks 1 (process_transaction 1 (2 ^ 52) Sample.t1 (Sample.world "pending")))
  = [ SendWebhooks 1;
      DeliverWebhook 1
        (PDict [ ("id", PInt 1); ("status", PStr "succeeded"); ("amount", PStr "100.00");
                 ("currency", PStr "USD"); ("description", PStr "Test payment");
                 ("created_at", PStr "2024-01-02T03:04:05+00:00");
                 ("updated_at", PStr "2024-01-02T03:04:09.000120+00:00") ]) ].
Proof. vm_compute. reflexivity. Qed.

End Payload.

(** ** Webhook delivery *)

Section Delivery.

Import Tasks.

Variable env : nat -> Env.
Variable webhook_id : Z.
Variable payload : value.

(** What the execution with [self.request.retries = n] raises. *)
Let raised (n : nat) : option exception :=
  (deliver_webhook (env n) (Z.of_nat n) webhook_id payload).1.

Lemma attempts_attempt (n : nat) (rs : list (level * string)) (rest : list event) :
  attempts (Attempt n :: map Log rs ++ rest) = S (attempts rest).
Proof.
  unfold attempts. simpl. f_equal. induction rs as [|r rs IH]; simpl; done.
Qed.

Lemma countdowns_attempt (n : nat) (rs : list (level * string)) (rest : list event) :
  countdowns (Attempt n :: map Log rs ++ rest) = countdowns rest.
Proof. unfold countdowns. simpl. induction rs as [|r rs IH]; simpl; done. Qed.

Lemma final_attempt (n : nat) (rs : list (level * string)) (rest : list event) :
  rest <> [] -> final (Attempt n :: map Log rs ++ rest) = final rest.
Proof.
  intros Hrest. unfold final.
  change (Attempt n :: map Log rs ++ rest) with ((Attempt n :: map Log rs) ++ rest).
  destruct rest as [|e rest]; [done|]. by rewrite last_app_cons.
Qed.

Lemma failure_attempt (exc : exception) (n : nat) (rs : list (level * string))
    (rest : list event) :
  In (Failure exc) (Attempt n :: map Log rs ++ rest) <-> In (Failure exc) rest.
Proof.
  simpl. rewrite in_app_iff, in_map_iff. split; [|tauto].
  intros [|[(r & ? & _)|]]; done.
Qed.

Lemma run_task_not_nil (remaining retries : nat) :
  run_task remaining retries env webhook_id payload <> [].
Proof. destruct remaining; simpl; by destruct (deliver_webhook _ _ _ _). Qed.

(** The policy, for a job that may still be retried [remaining] times. *)
Lemma run_task_policy (remaining retries : nat) :
  let run := run_task remaining retries env webhook_id payload in
  (1 <= attempts run <= S remaining)%nat
  /\ countdowns run = replicate (attempts run - 1) countdown
  /\ (forall n, (n < attempts run - 1)%nat -> raised (retries + n) <> None)
  /\ match raised (retries + (attempts run - 1)) with
     | None => final run = Some Success /\ forall exc, ~ In (Failure exc) run
     | Some exc =>
         attempts run = S remaining
         /\ In (Failure exc) run
         /\ final run = Some (Log (on_failure exc))
     end.
Proof.
  cbv zeta. revert retries. induction remaining as [|remaining IH]; intros retries.
  all: simpl run_task; destruct (deliver_webhook (env retries) _ _ _) as [[e|] l] eqn:Hbody.
  all: rewrite attempts_attempt.
  - change (attempts [Failure e; Log (on_failure e)]) with 0%nat.
    simpl Nat.sub. rewrite Nat.add_0_r. unfold raised at 2. rewrite Hbody. simpl fst.
    rewrite countdowns_attempt.
    split; [lia|]. split; [done|]. split; [lia|].
    split; [done|]. split; [apply failure_attempt; by left|].
    by rewrite final_attempt.
  - change (attempts [Success]) with 0%nat.
    simpl Nat.sub. rewrite Nat.add_0_r. unfold raised at 2. rewrite Hbody. simpl fst.
    rewrite countdowns_attempt.
    split; [lia|]. split; [done|]. split; [lia|].
    split; [by rewrite final_attempt|].
    intros exc [|[]]%failure_attempt; done.
  - specialize (IH (S retries)).
    set (rest := run_task remaining (S retries) env webhook_id payload) in *.
    destruct IH as (Hn & Hc & Hr & Hlast).
    replace (S (attempts (Retry countdown :: rest))) with (S (attempts rest)) by done.
    replace (countdowns (Attempt retries :: map Log l ++ Retry countdown :: rest))
      with (countdown :: countdowns rest) by (by rewrite countdowns_attempt).
    replace (retries + (S (attempts rest) - 1))%nat
      with (S retries + (attempts rest - 1))%nat by lia.
    split; [lia|]. split.
    { rewrite Hc. replace (S (attempts rest) - 1)%nat with (S (attempts rest - 1)) by lia. done. }
    split.
    { intros [|n] Hlt.
      - rewrite Nat.add_0_r. unfold raised. by rewrite Hbody.
      - replace (retries + S n)%nat with (S retries + n)%nat by lia. apply Hr. lia. }
    assert (final (Attempt retries :: map Log l ++ Retry countdown :: rest) = final rest) as Hfinal.
    { rewrite final_attempt by done. unfold final. simpl.
      destruct rest eqn:Hrest; [by destruct (run_task_not_nil remaining (S retries))|done]. }
    assert (forall exc, In (Failure exc) (Attempt retries :: map Log l ++ Retry countdown :: rest)
                        <-> In (Failure exc) rest) as Hfail.
    { intros exc. rewrite failure_attempt. simpl. split; [by intros [|]|tauto]. }
    destruct (raised (S retries + (attempts rest - 1))) as [exc|].
    + destruct Hlast as (Ha & Hin & Hfin). rewrite Hfinal, Hfail, Ha. done.
    + destruct Hlast as (Hfin & Hnone). rewrite Hfinal. split; [done|].
      intros exc. rewrite Hfail. apply Hnone.
  - change (attempts [Success]) with 0%nat.
    simpl Nat.sub. rewrite Nat.add_0_r. unfold raised at 2. rewrite Hbody. simpl fst.
    rewrite countdowns_attempt.
    split; [lia|]. split; [done|]. split; [lia|].
    split; [by rewrite final_attempt|].
    intros exc [|[]]%failure_attempt; done.
Qed.

(** The body raises unless the webhook exists and the endpoint answers with
    a status outside 400..599. *)
Lemma deliver_webhook_raises_iff (e : Env) (retries : Z) :
  (deliver_webhook e retries webhook_id payload).1 = None <-> delivered e webhook_id payload.
Proof.
  unfold deliver_webhook, delivered.
  destruct (find_webhook webhook_id (env_webhooks e)) as [wb|]; simpl.
  2:{ split; [done|]. by intros (? & ? & ? & [=] & _). }
  destruct (env_post e (webhook_url wb) payload) as [status_code reason|msg] eqn:Hpost; simpl.
  2:{ split; [done|]. intros (? & ? & ? & [= <-] & Hp & _). congruence. }
  unfold raise_for_status.
  destruct (Z.leb_spec 400 status_code), (Z.ltb_spec status_code 500),
    (Z.leb_spec 500 status_code), (Z.ltb_spec status_code 600); simpl.
  all: split;
    [ try done; intros _; exists wb, status_code, reason; (split; [done|split; [done|lia]])
    | try done; intros (? & ? & ? & [= <-] & Hp & Hrange);
      rewrite Hpost in Hp; injection Hp as <- <-; lia ].
Qed.

End Delivery.

(** C4, as amended. A delivery is attempted at most three times. Every
    attempt but the last one raised, and each was followed by a retry with a
    countdown of 3. An attempt raises unless the webhook exists and the
    endpoint answers with a status outside 400..599. When the last attempt
    does not raise, the job ends with success and nothing more is attempted;
    when it raises, it was the third, the task fails with that exception and
    [on_failure] logs it. *)
Theorem webhook_retry_policy (env : nat -> Tasks.Env) (webhook_id : Z) (payload : value) :
  let run := Tasks.run_deliver_webhook env webhook_id payload in
  let raised n := (Tasks.deliver_webhook (env n) (Z.of_nat n) webhook_id payload).1 in
  (1 <= Tasks.attempts run <= 3)%nat
  /\ Tasks.countdowns run = replicate (Tasks.attempts run - 1) 3
  /\ Forall (fun n => raised n <> None) (seq 0 (Tasks.attempts run - 1))
  /\ (forall n, raised n = None <-> delivered (env n) webhook_id payload)
  /\ match raised (Tasks.attempts run - 1)%nat with
     | None =>
         Tasks.final run = Some Tasks.Success
         /\ forall exc, ~ In (Tasks.Failure exc) run
     | Some exc =>
         Tasks.attempts run = 3%nat
         /\ In (Tasks.Failure exc) run
         /\ Tasks.final run = Some (Tasks.Log (Tasks.on_failure exc))
     end.
Proof.
  cbv zeta.
  destruct (run_task_policy env webhook_id payload Tasks.max_retries 0)
    as (Hn & Hc & Hr & Hlast).
  split; [exact Hn|]. split; [exact Hc|]. split.
  { apply Forall_forall. intros n Hin%list_elem_of_In. apply in_seq in Hin.
    apply (Hr n). unfold Tasks.run_deliver_webhook in Hin. lia. }
  split; [intros n; apply deliver_webhook_raises_iff|].
  exact Hlast.
Qed.

(** C4, as stated, fails for an answer that is neither 2xx nor an error
    for [raise_for_status]: a 304 is taken as delivered and not retried. *)
Lemma not_modified_is_not_retried :
  ~ (forall (env : nat -> Tasks.Env) (webhook_id : Z) (payload : value) (wb : Webhook)
            (status_code : Z) (reason : string),
       find_webhook webhook_id (Tasks.env_webhooks (env 0%nat)) = Some wb ->
       Tasks.env_post (env 0%nat) (webhook_url wb) payload
         = Tasks.Responded status_code reason ->
       ~ (200 <= status_code < 300) ->
       (2 <= Tasks.attempts (Tasks.run_deliver_webhook env webhook_id payload))%nat).
Proof.
  intros H.
  specialize (H (Sample.answering 304 "Not Modified") 1 PNone Sample.hook1 304
                "Not Modified" eq_refl eq_refl).
  assert (~ 200 <= 304 < 300) as Hrange by lia.
  apply H in Hrange. vm_compute in Hrange. lia.
Qed.

(** An endpoint that answers 500 every time: three attempts, two retries,
    and the permanent failure is logged. *)
Example delivery_fails_permanently :
  let run := Tasks.run_deliver_webhook (Sample.answering 500 "Internal Server Error") 1 PNone in
  Tasks.attempts run = 3%nat
  /\ Tasks.countdowns run = [3; 3]
  /\ Tasks.final run
     = Some (Tasks.Log (Tasks.ERROR,
         "Webhook delivery failed permanently: 500 Server Error: Internal Server Error for url: https://a.example/hook")).
Proof. vm_compute. done. Qed.

(** An endpoint that times out twice and then answers: delivered on the
    third attempt. *)
Example delivery_recovers :
  let run := Tasks.run_deliver_webhook Sample.recovering 1 PNone in
  Tasks.attempts run = 3%nat /\ Tasks.final run = Some Tasks.Success.
Proof. vm_compute. done. Qed.

(** ** Idempotency *)

Section Idempotency.

Import Middleware.

Variable json_dumps : value -> option string.
Variable json_loads : string -> option value.
Context {B : Type}.

Lemma guarded_Some (request : Request B) (key : string) :
  guarded request = Some key <->
  idempotency_key request = Some key /\ key <> ""
  /\ (method request = "POST" \/ method request = "PUT").
Proof.
  unfold guarded. destruct (idempotency_key request) as [k|].
  - destruct (String.eqb_spec k ""), (String.eqb_spec (method request) "POST"),
      (String.eqb_spec (method request) "PUT"); simpl;
      (split; [intros [= <-]; auto | intros ([= <-] & ? & [?|?]); congruence]).
  - split; [discriminate | intros ([=] & _)].
Qed.

Lemma guarded_None (request : Request B) :
  idempotency_key request = None \/ (method request <> "POST" /\ method request <> "PUT") ->
  guarded request = None.
Proof.
  intros H. destruct (guarded request) as [key|] eqn:Hg; [|done].
  apply guarded_Some in Hg as (Hk & _ & Hm).
  destruct H as [H|[H1 H2]]; [congruence | destruct Hm; contradiction].
Qed.

(** C6. Without the header, or with a method other than POST and PUT, the
    middleware is the handler: same response, same world after, and so no
    query on the [IdempotencyKey] table of its own. *)
Theorem unguarded_request_passes_through (get_response : Handler B) (now : datetime)
    (request : Request B) (w : World) :
  idempotency_key request = None \/ (method request <> "POST" /\ method request <> "PUT") ->
  __call__ json_dumps json_loads get_response now request w = get_response request w.
Proof. intros H. unfold __call__. by rewrite guarded_None. Qed.

(** A guarded request whose key has a populated record. *)
Lemma call_populated (get_response : Handler B) (now : datetime) (request : Request B)
    (w : World) (key : string) (row : IdempotencyKey) (response_body : value) :
  guarded request = Some key ->
  idempotency_keys w !! key = Some row ->
  ik_response_body row = Some response_body ->
  __call__ json_dumps json_loads get_response now request w
  = ({| status_code := default 200 (ik_response_status row);
        data := decode json_loads response_body |},
     set_queries (queries w ++ [SELECT key]) w).
Proof. intros Hg Hrow Hbody. unfold __call__. rewrite Hg. simpl. by rewrite Hrow, Hbody. Qed.

(** A guarded request whose key has no record, or one without a body. *)
Lemma call_fresh (get_response : Handler B) (now : datetime) (request : Request B)
    (w : World) (key : string) :
  guarded request = Some key ->
  (idempotency_keys w !! key) ≫= ik_response_body = None ->
  __call__ json_dumps json_loads get_response now request w
  = call_and_store json_dumps get_response now key request
      (set_queries (queries w ++ [SELECT key]) w).
Proof.
  intros Hg Hfresh. unfold __call__. rewrite Hg. simpl.
  destruct (idempotency_keys w !! key) as [row|]; [|done].
  simpl in Hfresh. by rewrite Hfresh.
Qed.


(** What the storing path leaves under the key, whatever was there. *)
Lemma update_or_create_row (key : string) (request : Request B) (now : datetime)
    (response : Response) (text : string) (w : World) :
  exists created,
    idempotency_keys (update_or_create key request now response text w) !! key
    = Some {| ik_key := key; ik_method := method request; ik_path := path request;
              ik_response_status := Some (status_code response);
              ik_response_body := Some (PStr text);
              ik_created_at := created |}.
Proof.
  unfold update_or_create. simpl.
  destruct (idempotency_keys w !! key) as [row|]; eexists; simpl; apply lookup_insert_eq.
Qed.

(** The response a first request got is the one later requests with the key
    get, when [json.loads] reads back what [json.dumps] wrote. *)
Lemma first_response_replayed (h1 h2 : Handler B) (t1 t2 : datetime)
    (request1 request2 : Request B) (w : World) (key text : string) :
  guarded request1 = Some key -> guarded request2 = Some key ->
  (idempotency_keys w !! key) ≫= ik_response_body = None ->
  let '(response, w1) := __call__ json_dumps json_loads h1 t1 request1 w in
  json_dumps (data response) = Some text ->
  json_loads text = Some (data response) ->
  (__call__ json_dumps json_loads h2 t2 request2 w1).1 = response.
Proof.
  intros Hg1 Hg2 Hfresh. rewrite (call_fresh _ _ _ _ key) by done.
  unfold call_and_store. destruct (h1 request1 _) as [response w1].
  intros Hdumps Hloads.
  destruct (update_or_create_row key request1 t1 response (capture json_dumps response) w1)
    as [created Hrow].
  erewrite call_populated; [|done|exact Hrow|done]. simpl.
  unfold capture. rewrite Hdumps. simpl. rewrite Hloads. simpl. by destruct response.
Qed.

End Idempotency.

(** The view's own check does the same for a record with a truthy body. *)
Lemma TransactionCreateView_post_replay (now : datetime)
    (request : Request Serializers.TransactionData) (w : World) (key : string)
    (row : IdempotencyKey) (response_body : value) :
  idempotency_key request = Some key -> key <> "" ->
  idempotency_keys w !! key = Some row ->
  ik_response_body row = Some response_body -> truthy response_body = true ->
  Views.TransactionCreateView_post now request w
  = ({| status_code := default 200 (ik_response_status row); data := response_body |},
     set_queries (queries w ++ [SELECT key]) w).
Proof.
  intros Hkey Hne Hrow Hbody Htruthy.
  cbv beta iota zeta delta [Views.TransactionCreateView_post Views.try_except
    Views.stored_response mbind M_bind gets modify ret].
  rewrite Hkey. apply String.eqb_neq in Hne. rewrite Hne. simpl.
  rewrite Hrow. simpl. rewrite Hbody. simpl. by rewrite Htruthy.
Qed.


Example first_request_queries (json_dumps : value -> option string)
    (json_loads : string -> option value) :
  queries (Middleware.__call__ json_dumps json_loads (Views.TransactionCreateView_post Sample.t1)
             Sample.t1 (Sample.request "POST" (Some "k1") 10 Sample.pay)
             (Sample.world "pending")).2
  = [SELECT "k1"; SELECT "k1"; INSERT "k1"; SELECT "k1"; UPDATE "k1"].
Proof. vm_compute. reflexivity. Qed.

Lemma unguarded_request_passes_through_witness :
  Middleware.__call__ (fun v => Some (Json.dumps v)) (Json.loads [Sample.stored])
    (Views.TransactionCreateView_post Sample.t1) Sample.t1
    (Sample.request "POST" None 10 Sample.pay) (Sample.world "pending")
  = Views.TransactionCreateView_post Sample.t1
      (Sample.request "POST" None 10 Sample.pay) (Sample.world "pending").
Proof. apply unguarded_request_passes_through. left. reflexivity. Defined.


(** Two requests with one key and different bodies, through the middleware
    and the view: one transaction, and the second response is the first. *)
Example same_key_same_response :
  let gate := Middleware.__call__ (fun v => Some (Json.dumps v))
                (Json.loads [Sample.stored;
                             data (Views.standard_response true
                                     (Serializers.TransactionDetailSerializer_data
                                        {| tx_id := 2; tx_merchant := 1; tx_amount := 10000;
                                           tx_currency := "USD"; tx_description := "";
                                           tx_status := "pending"; tx_created_at := Sample.t1;
                                           tx_updated_at := Sample.t1 |}
                                        (Sample.world "pending"))
                                     PNone 201)])
                (Views.TransactionCreateView_post Sample.t1) Sample.t1 in
  let first := gate (Sample.request "POST" (Some "k1") 10 Sample.pay) (Sample.world "pending") in
  let second := gate (Sample.request "POST" (Some "k1") 10 Sample.pay_other) first.2 in
  status_code first.1 = 201
  /\ second.1 = first.1
  /\ length (transactions second.2) = 2%nat.
Proof. vm_compute. done. Qed.

(** ** Refunds *)

Section Refunds.

Import Serializers Views.

Variable unique_validator : bool.

Ltac run := cbv beta iota zeta delta [RefundCreateView_post try_except mbind M_bind merchant_or_404
  RefundSerializer_is_valid transaction_or_404 raise_if_errors next_id nextval
  cache_delete cache_delete_pattern gets modify ret raise].

Lemma find_weaken {A} (p q : A -> bool) (l : list A) (x : A) :
  List.find (fun a => p a && q a) l = Some x -> is_Some (List.find p l).
Proof.
  induction l as [|a l IH]; simpl; [done|].
  destruct (p a); simpl; [by eexists|]. apply IH.
Qed.

Lemma owned_transaction_Some (user pk : Z) (w : World) (tx : Transaction) :
  owned_transaction user pk w = Some tx <->
  exists m, get_merchant user w = Some m
    /\ List.find (fun t => (tx_id t =? pk) && (tx_merchant t =? merchant_id m))
                 (transactions w) = Some tx.
Proof.
  unfold owned_transaction. destruct (get_merchant user w) as [m|]; simpl.
  - split; [by exists m | by intros (? & [= <-] & ?)].
  - split; [done | by intros (? & [=] & _)].
Qed.

Ltac reject Hm :=
  right; split;
  [ intros (tx1 & (m1 & Hm1 & Hfind1)%owned_transaction_Some & Hst1 & Hnone1 & Hamt1);
    rewrite Hm in Hm1; injection Hm1 as <-
  | split; [done | split; [done | eexists; split;
      [done | intros tx1 (m1 & Hm1 & Hfind1)%owned_transaction_Some Hst1 Hnone1 Hpos1 Hgt1;
              rewrite Hm in Hm1; injection Hm1 as <-]]]].

(** The two ways [RefundCreateView.post] ends. *)
Lemma RefundCreateView_post_cases (now : datetime) (request : Request RefundData) (w : World) :
  let d := body request in
  let '(response, w') := RefundCreateView_post unique_validator now request w in
  (refundable (user request) d w
   /\ status_code response = 201
   /\ exists r, refunds w' = refunds w ++ [r]
        /\ refund_transaction r = rd_transaction d
        /\ refund_amount r = rd_amount d
        /\ refund_status r = "succeeded"
        /\ data response = PDict [("success", PBool true); ("data", RefundSerializer_data r);
                                  ("error", PNone)])
  \/ (~ refundable (user request) d w
      /\ status_code response = 400
      /\ w' = w
      /\ exists msg,
           data response = PDict [("success", PBool false); ("data", PNone);
                                  ("error", PStr msg)]
           /\ forall tx, owned_transaction (user request) (rd_transaction d) w = Some tx ->
                 tx_status tx = "succeeded" ->
                 get_refund_of (rd_transaction d) w = None ->
                 0 < rd_amount d -> tx_amount tx < rd_amount d ->
                 msg = "Refund amount cannot exceed transaction amount of "
                         +:+ str_Decimal (tx_amount tx)).
Proof.
  cbv zeta. run.
  destruct (get_merchant (user request) w) as [m|] eqn:Hm.
  2:{ right. split; [|split; [done|split; [done|]]].
      - intros (tx & (m & Hm' & _)%owned_transaction_Some & _). congruence.
      - eexists. split; [done|].
        intros tx (m & Hm' & _)%owned_transaction_Some. congruence. }
  destruct (get_transaction (rd_transaction (body request)) w) as [tx0|] eqn:Htx0.
  2:{ right. split; [|split; [done|split; [done|]]].
      - intros (tx & (m' & _ & Hfind)%owned_transaction_Some & _).
        apply find_weaken in Hfind as [? Hfind]. unfold get_transaction in Htx0. congruence.
      - eexists. split; [done|].
        intros tx (m' & _ & Hfind)%owned_transaction_Some.
        apply find_weaken in Hfind as [? Hfind]. unfold get_transaction in Htx0. congruence. }
  assert (tx_id tx0 = rd_transaction (body request)) as Hid0.
  { apply find_some in Htx0 as [_ ?]. lia. }
  unfold RefundSerializer_amount_errors, RefundSerializer_validate_amount.
  destruct (rd_amount (body request) <=? 0) eqn:Hpos0.
  { destruct (get_refund_of _ w), unique_validator; simpl; reject Hm; lia. }
  destruct (get_refund_of (rd_transaction (body request)) w) as [r0|] eqn:Href.
  { destruct unique_validator; simpl.
    - reject Hm; congruence.
    - rewrite Hid0.
      destruct (List.find _ (transactions w)) as [tx|] eqn:Hfind'; [|reject Hm; congruence].
      assert (tx_id tx = rd_transaction (body request)) as Hid.
      { apply find_some in Hfind' as [_ ?]. lia. }
      destruct (tx_status tx =? "succeeded")%string eqn:Hst'; simpl; [|reject Hm; congruence].
      rewrite Hid, Href. reject Hm; congruence. }
  simpl. rewrite Hid0.
  destruct (List.find _ (transactions w)) as [tx|] eqn:Hfind'; [|reject Hm; congruence].
  assert (tx_id tx = rd_transaction (body request)) as Hid.
  { apply find_some in Hfind' as [_ ?]. lia. }
  destruct (String.eqb_spec (tx_status tx) "succeeded") as [Hst'|Hst']; simpl;
    [|reject Hm; congruence].
  rewrite Hid, Href.
  destruct (tx_amount tx <? rd_amount (body request)) eqn:Hgt'.
  { reject Hm.
    - assert (tx = tx1) as <- by congruence. lia.
    - assert (tx = tx1) as <- by congruence. done. }
  left. split.
  { exists tx. split; [apply owned_transaction_Some; by exists m|].
    repeat split; try done; lia. }
  split; [done|]. eexists. split; [done|]. done.
Qed.


(** C9. Whatever the request, a refund the view adds has status
    ['succeeded'], and a [status] sent by the client changes nothing. *)
Theorem refund_status_succeeded (now : datetime) (request : Request RefundData) (w : World) :
  let '(response, w') := RefundCreateView_post unique_validator now request w in
  (refunds w' = refunds w
   \/ exists r, refunds w' = refunds w ++ [r] /\ refund_status r = "succeeded")
  /\ forall client_status,
       RefundCreateView_post unique_validator now (with_client_status client_status request) w
       = (response, w').
Proof.
  pose proof (RefundCreateView_post_cases now request w) as H. cbv zeta in *.
  destruct (RefundCreateView_post unique_validator now request w) as [response w'] eqn:Hpost.
  split.
  - destruct H as [(_ & _ & r & Hr & _ & _ & Hst & _) | (_ & _ & -> & _)]; [right|by left].
    by exists r.
  - intros client_status. rewrite <- Hpost. by destruct request as [? ? ? ? []].
Qed.

End Refunds.

(** The refund cases of the test suite: 150.00 on a transaction of 100.00,
    then 50.00, then a second refund; and a refund on a pending transaction. *)
Example refund_cases :
  let post amount w :=
    Views.RefundCreateView_post true Sample.t1
      (Sample.request "POST" None 10 (Sample.refund_of amount)) w in
  let w := Sample.world "succeeded" in
  Py.get "error" (data (post 15000 w).1)
    = Some (PStr "Refund amount cannot exceed transaction amount of 100.00")
  /\ status_code (post 15000 w).1 = 400
  /\ status_code (post 5000 w).1 = 201
  /\ status_code (post 3000 (post 5000 w).2).1 = 400
  /\ status_code (post 5000 (Sample.world "pending")).1 = 400.
Proof. vm_compute. done. Qed.

(** ** Webhook registration *)

Section Webhooks.

Import Serializers Views.

Variable URLField_valid : string -> bool.

Ltac run := cbv beta iota zeta delta [WebhookListCreateView_post WebhookListCreateView_get
  try_except mbind M_bind merchant_or_404 WebhookSerializer_is_valid next_id nextval
  gets modify ret raise].

Lemma filter_with_secret (secret : Webhook -> string) (m : Z) (rows : list Webhook) :
  List.filter (fun wb => webhook_merchant wb =? m) (map (with_secret secret) rows)
  = map (with_secret secret) (List.filter (fun wb => webhook_merchant wb =? m) rows).
Proof.
  induction rows as [|wb rows IH]; simpl; [done|].
  destruct (webhook_merchant wb =? m); simpl; by rewrite IH.
Qed.

(** C10. The responses to creating and to listing webhooks do not depend
    on any secret, the one just generated (and stored with the new row) or the
    stored ones, and every webhook in them has the fields [id], [url],
    [created_at] and no other. *)
Theorem webhook_secret_not_disclosed (now : datetime) (create : Request string)
    (list : Request unit) (w : World) :
  (forall secret secret',
     (WebhookListCreateView_post URLField_valid now secret create w).1
     = (WebhookListCreateView_post URLField_valid now secret' create w).1)
  /\ (forall secret,
        (WebhookListCreateView_get list (set_webhooks (map (with_secret secret) (webhooks w)) w)).1
        = (WebhookListCreateView_get list w).1)
  /\ (forall secret,
        let '(response, w') := WebhookListCreateView_post URLField_valid now secret create w in
        (status_code response = 201
         /\ (exists wb, webhooks w' = webhooks w ++ [wb] /\ webhook_secret wb = secret)
         /\ exists d, data response = PDict [("success", PBool true); ("data", d); ("error", PNone)]
              /\ keys d = webhook_fields)
        \/ (status_code response = 400
            /\ exists msg, data response = PDict [("success", PBool false); ("data", PNone);
                                                  ("error", PStr msg)]))
  /\ (let response := (WebhookListCreateView_get list w).1 in
      (status_code response = 200
       /\ exists ds, data response = PDict [("success", PBool true); ("data", PList ds);
                                            ("error", PNone)]
            /\ Forall (fun d => keys d = webhook_fields) ds)
      \/ (status_code response = 500
          /\ data response = PDict [("success", PBool false); ("data", PNone);
                                    ("error", PStr "Failed to retrieve webhooks")])).
Proof.
  split; [|split; [|split]].
  - intros secret secret'. run.
    destruct (get_merchant (user create) w); [|done].
    destruct (URLField_valid (body create)); [|done].
    by destruct (WebhookSerializer_validate_url (body create)).
  - intros secret. run. unfold get_merchant. simpl.
    destruct (List.find _ (merchants w)) as [m|]; [|done]. simpl.
    rewrite filter_with_secret, map_map. done.
  - intros secret. run.
    destruct (get_merchant (user create) w); [|right; split; [done|by eexists]].
    destruct (URLField_valid (body create)); [|right; split; [done|by eexists]].
    destruct (WebhookSerializer_validate_url (body create)); [right; split; [done|by eexists]|].
    left. split; [done|]. split; [by eexists|]. by eexists.
  - run. destruct (get_merchant (user list) w) as [m|]; [|by right].
    left. split; [done|]. eexists. split; [done|].
    apply Forall_forall. intros d Hd%list_elem_of_In.
    apply in_map_iff in Hd as (wb & <- & _). done.
Qed.

End Webhooks.

(** ** Ownership on the detail path *)

Section Ownership.

Import Serializers Views.

(** A live cache entry for the transaction is served to whoever asks. *)
Lemma detail_cache_hit (request : Request unit) (pk : Z) (w : World) (hit : value) :
  cache w !! ("transaction:" +:+ pretty pk) = Some hit -> truthy hit = true ->
  TransactionDetailView_retrieve request pk w = (standard_response true hit PNone 200, w).
Proof.
  intros Hhit Htruthy.
  cbv beta iota zeta delta [TransactionDetailView_retrieve try_except mbind M_bind cache_hit
    gets ret].
  by rewrite Hhit, Htruthy.
Qed.

Lemma find_filter {A} (p q : A -> bool) (l : list A) :
  List.find p (List.filter q l) = List.find (fun a => p a && q a) l.
Proof.
  induction l as [|a l IH]; simpl; [done|].
  destruct (q a); simpl; [|by rewrite andb_false_r].
  rewrite andb_true_r. by destruct (p a).
Qed.

(** Without a cache entry the lookup is among the merchant's transactions. *)
Lemma detail_cache_miss (request : Request unit) (pk : Z) (w : World) :
  cache w !! ("transaction:" +:+ pretty pk) = None ->
  owned_transaction (user request) pk w = None ->
  (TransactionDetailView_retrieve request pk w).1
  = standard_response false PNone (PStr "Transaction not found") 404.
Proof.
  intros Hmiss Hnone.
  cbv beta iota zeta delta [TransactionDetailView_retrieve TransactionDetailView_get_object
    try_except mbind M_bind cache_hit merchant_or_404 cache_set gets modify ret raise].
  rewrite Hmiss. unfold owned_transaction in Hnone.
  destruct (get_merchant (user request) w) as [m|]; [|done]. simpl in Hnone.
  by rewrite find_filter, Hnone.
Qed.

(** C5 fails on the cached detail path. The merchant of user 20 does not
    own transaction 1 and gets a 404 for it; once the owner, user 10, has read
    it, the same request of user 20 is answered from the cache with the
    owner's transaction. *)
Theorem cached_transaction_served_to_other_merchant :
  let w := Sample.world "succeeded" in
  let owner := Sample.request "GET" None 10 tt in
  let other := Sample.request "GET" None 20 tt in
  (TransactionDetailView_retrieve other 1 w).1
  = standard_response false PNone (PStr "Transaction not found") 404
  /\ (TransactionDetailView_retrieve other 1 (TransactionDetailView_retrieve owner 1 w).2).1
     = standard_response true (TransactionDetailSerializer_data (Sample.tx1 "succeeded") w)
         PNone 200.
Proof. split; vm_compute; reflexivity. Qed.

End Ownership.

(** * Further properties *)

(** ** Fan-out *)

Section FanOut.

Import Tasks.

(** X1. [send_webhooks] queues one [deliver_webhook] job for each webhook of
    the transaction's merchant, in the order of the table, and none for a
    webhook of another merchant; for an unknown transaction it queues
    nothing. It changes nothing but the queue. *)
Theorem send_webhooks_fan_out (id : Z) (w : World) :
  set_queue (queue w) (send_webhooks id w) = w
  /\ queue (send_webhooks id w)
     = queue w ++
       match get_transaction id w with
       | Some tx =>
           map (fun wb => DeliverWebhook (webhook_id wb) (payload_of tx))
               (List.filter (fun wb => webhook_merchant wb =? tx_merchant tx) (webhooks w))
       | None => []
       end.
Proof.
  split; [|apply send_webhooks_jobs].
  unfold send_webhooks. destruct (get_transaction id w) as [tx|]; [|by destruct w].
  destruct (List.filter _ (webhooks w)) as [|wb whs]; [by destruct w|].
  generalize (wb :: whs). clear wb whs. intros whs.
  assert (forall w0, set_queue (queue w) w0 = w ->
            set_queue (queue w)
              (fold_left (fun w1 wb => delay (DeliverWebhook (webhook_id wb) (payload_of tx)) w1)
                         whs w0) = w) as H; [|apply H; by destruct w].
  induction whs as [|wb whs IH]; intros w0 Hw0; simpl; [done|].
  apply IH. rewrite <- Hw0. by destruct w0.
Qed.

End FanOut.

(** ** Webhook registration and removal *)

Section WebhookLifecycle.

Import Serializers Views.

Variable URLField_valid : string -> bool.

Ltac run_view := cbv beta iota zeta delta [WebhookListCreateView_post WebhookListCreateView_get
  WebhookDeleteView_destroy try_except mbind M_bind merchant_or_404
  WebhookSerializer_is_valid next_id nextval gets modify ret raise].


(** X3. After a webhook is registered, the list of the same user is the
    list before with the new webhook at its end. *)
Theorem webhook_create_then_list (now : datetime) (secret : string) (create : Request string)
    (list : Request unit) (w : World) :
  user list = user create ->
  let '(response, w') := WebhookListCreateView_post URLField_valid now secret create w in
  status_code response = 201 ->
  exists before d,
    data (WebhookListCreateView_get list w).1
      = PDict [("success", PBool true); ("data", PList before); ("error", PNone)]
    /\ data response = PDict [("success", PBool true); ("data", d); ("error", PNone)]
    /\ data (WebhookListCreateView_get list w').1
       = PDict [("success", PBool true); ("data", PList (before ++ [d])); ("error", PNone)].
Proof.
  intros Huser. run_view. rewrite Huser. unfold get_merchant. simpl.
  destruct (List.find _ (merchants w)) as [m|] eqn:Hm; [|by intros [=]].
  destruct (URLField_valid (body create)); [|by intros [=]].
  destruct (WebhookSerializer_validate_url (body create)); [by intros [=]|].
  intros _. simpl. rewrite Hm. simpl. eexists _, _. split; [done|]. split; [done|].
  rewrite List.filter_app, map_app. simpl. by rewrite Z.eqb_refl.
Qed.

(** X4. A webhook is deleted only by a user whose merchant owns a webhook
    with that id: then the rows with the id are removed and nothing else
    changes. Otherwise, and so for a webhook of another merchant, the answer is
    404 and nothing changes. *)
Theorem webhook_delete_scoped (request : Request unit) (pk : Z) (w : World) :
  let owned :=
    exists m wb, get_merchant (user request) w = Some m /\ In wb (webhooks w)
      /\ webhook_id wb = pk /\ webhook_merchant wb = merchant_id m in
  let '(response, w') := WebhookDeleteView_destroy request pk w in
  (owned /\ status_code response = 200
   /\ w' = set_webhooks (List.filter (fun wb => negb (webhook_id wb =? pk)) (webhooks w)) w)
  \/ (~ owned /\ status_code response = 404 /\ w' = w).
Proof.
  cbv zeta. run_view.
  destruct (get_merchant (user request) w) as [m|] eqn:Hm.
  2:{ right. split; [|done]. by intros (? & ? & [=] & _). }
  rewrite find_filter.
  destruct (List.find _ (webhooks w)) as [wb|] eqn:Hfind.
  - apply find_some in Hfind as [Hin [Hid Hmerchant]%andb_prop].
    left. split; [exists m, wb; repeat split; try done; lia|]. split; [done|].
    assert (webhook_id wb = pk) as -> by lia. done.
  - right. split; [|done]. intros (m' & wb & [= <-] & Hin & Hid & Hmerchant).
    eapply (find_none _ _ Hfind) in Hin. simpl in Hin. lia.
Qed.

End WebhookLifecycle.

(** X5. Once its webhook is deleted, a delivery job still in the queue
    finds no row at any of its three attempts, whatever the network would
    answer, and ends as a permanent failure. *)
Theorem delivery_after_delete (request : Request unit) (pk : Z) (w : World)
    (post : nat -> string -> value -> Tasks.post_result) (payload : value) :
  let '(response, w') := Views.WebhookDeleteView_destroy request pk w in
  status_code response = 200 ->
  let run :=
    Tasks.run_deliver_webhook
      (fun n => {| Tasks.env_webhooks := webhooks w'; Tasks.env_post := post n |}) pk payload in
  Tasks.attempts run = 3%nat
  /\ Tasks.countdowns run = [3; 3]
  /\ Tasks.final run = Some (Tasks.Log (Tasks.on_failure Tasks.Webhook_DoesNotExist)).
Proof.
  cbv beta iota zeta delta [Views.WebhookDeleteView_destroy Views.try_except mbind M_bind
    merchant_or_404 gets modify ret raise].
  destruct (get_merchant (user request) w) as [m|]; [|by intros [=]].
  rewrite find_filter.
  destruct (List.find _ (webhooks w)) as [wb|] eqn:Hfind; [|by intros [=]].
  apply find_some in Hfind as [_ [Hid _]%andb_prop]. intros _. simpl webhooks.
  assert (webhook_id wb = pk) as -> by lia.
  assert (find_webhook pk (List.filter (fun wb => negb (webhook_id wb =? pk)) (webhooks w))
          = None) as Hgone.
  { unfold find_webhook. rewrite find_filter.
    induction (webhooks w) as [|row rows IH]; simpl; [done|].
    by destruct (webhook_id row =? pk). }
  unfold Tasks.run_deliver_webhook, Tasks.max_retries. simpl Tasks.run_task.
  unfold Tasks.deliver_webhook. simpl Tasks.env_webhooks. rewrite Hgone.
  vm_compute. done.
Qed.

(** ** Payments *)

Section Payments.

Import Serializers Views.

Ltac run_view := cbv beta iota zeta delta [TransactionCreateView_post try_except mbind M_bind
  stored_response merchant_or_404 TransactionDetailSerializer_is_valid
  TransactionDetailSerializer_validate_payment_key TransactionDetailSerializer_validate_amount
  raise_if_errors IdempotencyKey_create next_id nextval cache_delete_pattern
  gets modify ret raise option_bind option_ret].

Ltac proj :=
  cbn [merchants payment_keys transactions refunds webhooks idempotency_keys sequences cache
       queue queries set_transactions set_refunds set_webhooks set_idempotency_keys
       set_sequences set_cache set_queue set_queries set_payment_keys delay fst snd].

(** The part of [TransactionCreateView.post] after the idempotency check,
    once the goal is unfolded; [ns] proves that no response is stored. *)
Ltac pay_tail w request ns :=
  let m := fresh "m" in let Hm := fresh "Hm" in
  let pk := fresh "pk" in let Hpk := fresh "Hpk" in
  let Hamount := fresh "Hamount" in let Hown := fresh "Hown" in
  destruct (List.find _ (merchants w)) as [m|] eqn:Hm; cbv beta iota; proj;
  [| right; left; split; [ns|]; split; [by intros (? & ? & [=] & _)|]; split; [done|];
     left; split; [done|]; by intros (? & ? & [=] & _) ];
  destruct (List.find _ (payment_keys w)) as [pk|] eqn:Hpk; cbv beta iota; proj;
  [| right; left; split; [ns|]; split; [by intros (? & ? & _ & [=] & _)|]; split; [done|];
     left; split; [done|]; by intros (? & ? & _ & [=] & _) ];
  destruct (Serializers.td_amount (body request) <=? 0) eqn:Hamount; cbv beta iota; proj;
  [ right; left; split; [ns|]; split; [intros (? & ? & _ & _ & _ & ?); lia|]; split; [done|];
    left; split; [done|]; intros (? & ? & _ & _ & ?); lia |];
  destruct (Z.eqb_spec (paymentkey_merchant pk) (merchant_id m)) as [Hown|Hown]; cbn [negb];
  cbv beta iota; proj;
  [ try (destruct (idempotency_keys w !! _) eqn:?; cbv beta iota; proj);
    (right; right; split; [ns|]; split; [exists m, pk; repeat split; try done; lia|];
     exists m; split; [done|])
  | right; left; split; [ns|]; split; [intros (? & ? & ? & ? & ? & _); congruence|];
    split; [done|]; right; split; [done|]; exists m, pk; repeat split; try done; lia ].

(** The three ways [TransactionCreateView.post] ends: with the stored
    response, with a refusal, or after creating the transaction. *)
Lemma TransactionCreateView_post_cases (now : datetime) (request : Request TransactionData)
    (w : World) :
  let d := body request in
  let '(response, w') := TransactionCreateView_post now request w in
  (has_stored_response request w
   /\ (exists key row response_body,
         request_key request = Some key
         /\ idempotency_keys w !! key = Some row
         /\ ik_response_body row = Some response_body
         /\ response = {| status_code := default 200 (ik_response_status row);
                          data := response_body |})
   /\ w' = checked request w)
  \/ (~ has_stored_response request w
      /\ ~ payable (user request) d w
      /\ w' = checked request w
      /\ ((status_code response = 400
           /\ ~ exists m pk, get_merchant (user request) w = Some m
                 /\ List.find (fun pk => String.eqb (paymentkey_key pk) (td_payment_key d)
                                           && paymentkey_is_active pk) (payment_keys w)
                    = Some pk
                 /\ 0 < td_amount d)
          \/ (response = standard_response false PNone
                           (PStr "Payment key does not belong to this merchant") 403
              /\ exists m pk, get_merchant (user request) w = Some m
                   /\ List.find (fun pk => String.eqb (paymentkey_key pk) (td_payment_key d)
                                             && paymentkey_is_active pk) (payment_keys w)
                      = Some pk
                   /\ 0 < td_amount d
                   /\ paymentkey_merchant pk <> merchant_id m)))
  \/ (~ has_stored_response request w
      /\ payable (user request) d w
      /\ exists m, get_merchant (user request) w = Some m
         /\ let tx := new_transaction m d now w in
            transactions w' = transactions w ++ [tx]
            /\ queue w' = queue w ++ [ProcessTransaction (tx_id tx)]
            /\ cache w' = filter (fun kv => String.prefix (merchant_transactions_pattern m) kv.1
                                            = false) (cache w)
            /\ merchants w' = merchants w /\ payment_keys w' = payment_keys w
            /\ refunds w' = refunds w /\ webhooks w' = webhooks w
            /\ sequences w' = <["payments_transaction" := tx_id tx]> (sequences w)
            /\ match request_key request with
               | Some key =>
                   match idempotency_keys w !! key with
                   | Some _ =>
                       status_code response = 400
                       /\ idempotency_keys w' = idempotency_keys w
                   | None =>
                       response = standard_response true (TransactionDetailSerializer_data tx w)
                                    PNone 201
                       /\ idempotency_keys w'
                          = <[key := {| ik_key := key; ik_method := "POST";
                                        ik_path := path request;
                                        ik_response_status := Some 201;
                                        ik_response_body := Some (data response);
                                        ik_created_at := now |}]> (idempotency_keys w)
                   end
               | None =>
                   response = standard_response true (TransactionDetailSerializer_data tx w)
                                PNone 201
                   /\ idempotency_keys w' = idempotency_keys w
               end).
Proof.
  cbv zeta. unfold has_stored_response, checked, payable, request_key, new_transaction.
  run_view. unfold get_merchant.
  destruct (idempotency_key request) as [key|] eqn:Hraw;
    [destruct (String.eqb key "") eqn:Hne|].
  2:{ proj.
      assert (~ (exists key0 row response_body,
                   Some key = Some key0 /\ idempotency_keys w !! key0 = Some row
                   /\ ik_response_body row = Some response_body
                   /\ truthy response_body = true)
              \/ exists row response_body,
                   idempotency_keys w !! key = Some row
                   /\ ik_response_body row = Some response_body
                   /\ truthy response_body = true) as [Hfresh|(row & b & Hrow & Hb & Ht)].
      { destruct (idempotency_keys w !! key) as [row|] eqn:Hrow;
          [destruct (ik_response_body row) as [b|] eqn:Hb; [destruct (truthy b) eqn:Ht|]|].
        - right. by exists row, b.
        - left. intros (? & ? & ? & [= <-] & ? & ? & ?). congruence.
        - left. intros (? & ? & ? & [= <-] & ? & ? & ?). congruence.
        - left. intros (? & ? & ? & [= <-] & ? & ? & ?). congruence. }
      2:{ rewrite Hrow, Hb, Ht. left. split; [by exists key, row, b|].
          split; [by exists key, row, b|done]. }
      assert (match idempotency_keys w !! key with
              | Some x =>
                  match ik_response_body x with
                  | Some x0 =>
                      if truthy x0
                      then Some {| status_code := default 200 (ik_response_status x);
                                   data := x0 |}
                      else None
                  | None => None
                  end
              | None => None
              end = None) as ->.
      { destruct (idempotency_keys w !! key) as [row|] eqn:Hrow; [|done].
        destruct (ik_response_body row) as [b|] eqn:Hb; [|done].
        destruct (truthy b) eqn:Ht; [|done].
        exfalso. apply Hfresh. by exists key, row, b. }
      proj. pay_tail w request ltac:(exact Hfresh).
      all: rewrite ?Hne; proj; repeat split; try done. }
  all: pay_tail w request ltac:(by intros (? & ? & ? & [=] & _)).
  all: done.
Qed.

Lemma find_app {A} (p : A -> bool) (l l' : list A) :
  List.find p (l ++ l') = match List.find p l with Some x => Some x | None => List.find p l' end.
Proof. induction l as [|a l IH]; simpl; [done|]. by destruct (p a). Qed.

Lemma fresh_key_no_stored_response {B} (request : Request B) (w : World) :
  fresh_key request w -> ~ has_stored_response request w.
Proof.
  unfold fresh_key. intros Hfresh (key & row & b & Hkey & Hrow & _).
  rewrite Hkey in Hfresh. congruence.
Qed.



(** X8. The view's own idempotency: once a payment with a key was accepted,
    every later request with that key, whatever its body and whoever sends
    it, gets the first response again and creates nothing. *)
Theorem payment_key_replayed (now1 now2 : datetime)
    (request1 request2 : Request TransactionData) (w : World) (key : string) :
  request_key request1 = Some key -> request_key request2 = Some key ->
  idempotency_keys w !! key = None ->
  let '(response1, w1) := TransactionCreateView_post now1 request1 w in
  status_code response1 = 201 ->
  TransactionCreateView_post now2 request2 w1 = (response1, checked request2 w1).
Proof.
  intros Hkey1 Hkey2 Hfresh.
  assert (fresh_key request1 w) as Hfresh1 by (unfold fresh_key; by rewrite Hkey1).
  pose proof (fresh_key_no_stored_response _ _ Hfresh1) as Hnone.
  pose proof (TransactionCreateView_post_cases now1 request1 w) as H. cbv zeta in *.
  destruct (TransactionCreateView_post now1 request1 w) as [response1 w1].
  intros Hstatus.
  destruct H as [(Hstored & _)|[(_ & _ & _ & Hrefused)|(_ & _ & m & _ & H)]].
  - contradiction.
  - destruct Hrefused as [[? _]|[-> _]]; [lia|discriminate Hstatus].
  - destruct H as (_ & _ & _ & _ & _ & _ & _ & _ & Hrecord).
    rewrite Hkey1, Hfresh in Hrecord. destruct Hrecord as [Hresponse Hkeys].
    unfold request_key in Hkey2.
    destruct (idempotency_key request2) as [key2|] eqn:Hraw; [|done].
    destruct (String.eqb_spec key2 "") as [|Hne]; [done|]. injection Hkey2 as ->.
    rewrite (TransactionCreateView_post_replay now2 request2 w1 key
               {| ik_key := key; ik_method := "POST"; ik_path := path request1;
                  ik_response_status := Some 201;
                  ik_response_body := Some (data response1); ik_created_at := now1 |}
               (data response1)); try done.
    + unfold checked, request_key. rewrite Hraw.
      apply String.eqb_neq in Hne. rewrite Hne. f_equal. simpl.
      rewrite Hresponse. done.
    + rewrite Hkeys. apply lookup_insert_eq.
    + by rewrite Hresponse.
Qed.

End Payments.

(** ** Payment keys *)

Section PaymentKeys.

Import Serializers Views.

Ltac run_view := cbv beta iota zeta delta [PaymentKeyView_post PaymentKey_create try_except
  mbind M_bind merchant_or_404 next_id nextval gets modify ret raise].

(** The two ways [PaymentKeyView.post] ends. *)
Lemma PaymentKeyView_post_cases (now : datetime) (token : string) (request : Request unit)
    (w : World) :
  let key := "pk_" +:+ token in
  let '(response, w') := PaymentKeyView_post now token request w in
  (exists m pk, get_merchant (user request) w = Some m
     /\ List.find (fun pk => String.eqb (paymentkey_key pk) key) (payment_keys w) = None
     /\ pk = {| paymentkey_id := default 0 (sequences w !! "payments_paymentkey") + 1;
                paymentkey_merchant := merchant_id m; paymentkey_key := key;
                paymentkey_is_active := true; paymentkey_created_at := now |}
     /\ response = standard_response true (PaymentKeySerializer_data pk) PNone 201
     /\ w' = set_payment_keys (payment_keys w ++ [pk])
               (set_sequences (<["payments_paymentkey" := paymentkey_id pk]> (sequences w)) w))
  \/ ((get_merchant (user request) w = None
       \/ is_Some (List.find (fun pk => String.eqb (paymentkey_key pk) key) (payment_keys w)))
      /\ response = standard_response false PNone (PStr "Failed to create payment key") 500
      /\ w' = w).
Proof.
  cbv zeta. run_view.
  destruct (get_merchant (user request) w) as [m|] eqn:Hm; [|right; split; [by left|done]].
  destruct (List.find _ (payment_keys w)) as [pk|] eqn:Hpk.
  - right. split; [by right|done].
  - left. by eexists m, _.
Qed.

(** X9. A payment key is issued, with a 201, when the user has a merchant
    and the generated value [pk_<token>] is not taken: the key is added,
    active, for that merchant, and nothing else changes but the sequence of
    the table. A user without a merchant and a value already taken are both
    answered 500, and nothing changes. *)
Theorem payment_key_issued (now : datetime) (token : string) (request : Request unit)
    (w : World) :
  let taken := is_Some (List.find (fun pk => String.eqb (paymentkey_key pk) ("pk_" +:+ token))
                                  (payment_keys w)) in
  let '(response, w') := PaymentKeyView_post now token request w in
  (status_code response = 201 /\ ~ taken
   /\ exists m pk, get_merchant (user request) w = Some m
        /\ payment_keys w' = payment_keys w ++ [pk]
        /\ paymentkey_key pk = "pk_" +:+ token
        /\ paymentkey_is_active pk = true
        /\ paymentkey_merchant pk = merchant_id m
        /\ data response = PDict [("success", PBool true); ("data", PaymentKeySerializer_data pk);
                                  ("error", PNone)]
        /\ set_payment_keys (payment_keys w) (set_sequences (sequences w) w') = w)
  \/ (status_code response = 500 /\ (get_merchant (user request) w = None \/ taken)
      /\ w' = w).
Proof.
  pose proof (PaymentKeyView_post_cases now token request w) as H. cbv zeta in *.
  destruct (PaymentKeyView_post now token request w) as [response w'].
  destruct H as [(m & pk & Hm & Hfree & Hpk & -> & ->)|(Hwhy & -> & ->)]; [left|by right].
  split; [done|]. split; [rewrite Hfree; by intros [? [=]]|].
  exists m, pk. rewrite Hpk. repeat split; try done. by destruct w.
Qed.



End PaymentKeys.

(** ** From the payment to the deliveries *)

Section Pipeline.

Import Serializers Views.

(** X11. The way of a payment. An accepted payment queues its settlement;
    that job, run with a draw, settles the new transaction and queues the
    fan-out; the fan-out, run next, queues one delivery for each webhook of the
    paying merchant, with the drawn status, the amount and the currency of the
    request, and the time of the settlement. No transaction has an id above
    the sequence. *)
Theorem payment_reaches_webhooks (now settled_at : datetime) (k : Z)
    (request : Request TransactionData) (w : World) :
  fresh_key request w ->
  Forall (fun row => tx_id row <= default 0 (sequences w !! "payments_transaction"))
         (transactions w) ->
  let '(response, w1) := TransactionCreateView_post now request w in
  status_code response = 201 ->
  exists m, get_merchant (user request) w = Some m
    /\ let tx := new_transaction m (body request) now w in
       let settled :=
         Tasks.pre_save settled_at
           (Tasks.with_status (if Tasks.random_above_0_2 k then "succeeded" else "failed") tx) in
       let w2 := run_job (ProcessTransaction (tx_id tx)) k settled_at w1 in
       let w3 := run_job (SendWebhooks (tx_id tx)) k settled_at w2 in
       queue w1 = queue w ++ [ProcessTransaction (tx_id tx)]
       /\ get_transaction (tx_id tx) w2 = Some settled
       /\ queue w2 = queue w1 ++ [SendWebhooks (tx_id tx)]
       /\ queue w3
          = queue w2
            ++ map (fun wb => DeliverWebhook (webhook_id wb) (Tasks.payload_of settled))
                   (List.filter (fun wb => webhook_merchant wb =? merchant_id m) (webhooks w)).
Proof.
  intros Hfresh Hids. pose proof (fresh_key_no_stored_response _ _ Hfresh) as Hnone.
  pose proof (TransactionCreateView_post_cases now request w) as H. cbv zeta in *.
  destruct (TransactionCreateView_post now request w) as [response w1].
  intros Hstatus.
  destruct H as [(Hstored & _)|[(_ & _ & _ & Hrefused)|(_ & _ & m & Hm & H)]].
  - contradiction.
  - destruct Hrefused as [[? _]|[-> _]]; [lia|discriminate Hstatus].
  - exists m. split; [done|].
    destruct H as (Htxs & Hqueue & _ & _ & _ & _ & Hwebhooks & _).
    set (tx := new_transaction m (body request) now w) in *.
    assert (get_transaction (tx_id tx) w1 = Some tx) as Hget.
    { unfold get_transaction. rewrite Htxs, find_app.
      destruct (List.find _ (transactions w)) as [row|] eqn:Hfind.
      - apply find_some in Hfind as [Hin Hid]. rewrite List.Forall_forall in Hids.
        apply Hids in Hin. simpl in Hid. lia.
      - simpl. by rewrite Z.eqb_refl. }
    destruct (process_transaction_found (tx_id tx) k settled_at w1 tx Hget) as (Hnew & Hq & _).
    split; [done|]. split; [exact Hnew|]. split; [exact Hq|].
    cbn [run_job]. rewrite send_webhooks_jobs, Hnew. f_equal.
    unfold Tasks.process_transaction. rewrite Hget. simpl. by rewrite Hwebhooks.
Qed.

End Pipeline.

(** ** What the middleware stores *)

Section Storing.

Import Middleware.

Variable json_dumps : value -> option string.
Variable json_loads : string -> option value.
Context {B : Type}.

(** X12. On a guarded request whose key has no stored body the handler runs
    once, in the world with the lookup recorded, and its response is returned
    as it is. Afterwards the record of the key holds the status of that
    response, whatever it is, and the text of its data (or the fixed message
    when the data cannot be serialized), with the method and path of the
    request; the records of other keys and the rest of the world are as the
    handler left them. *)
Theorem first_response_stored (get_response : Handler B) (now : datetime)
    (request : Request B) (w : World) (key : string) :
  guarded request = Some key ->
  (idempotency_keys w !! key) ≫= ik_response_body = None ->
  let '(response, w1) := get_response request (set_queries (queries w ++ [SELECT key]) w) in
  let '(response', w') := __call__ json_dumps json_loads get_response now request w in
  response' = response
  /\ (exists row, idempotency_keys w' !! key = Some row
        /\ ik_response_status row = Some (status_code response)
        /\ ik_response_body row
           = Some (PStr (default capture_failed (json_dumps (data response))))
        /\ ik_method row = method request /\ ik_path row = path request)
  /\ (forall k, k <> key -> idempotency_keys w' !! k = idempotency_keys w1 !! k)
  /\ set_idempotency_keys (idempotency_keys w1) (set_queries (queries w1) w') = w1.
Proof.
  intros Hg Hfresh. rewrite (call_fresh _ _ _ _ _ _ key) by done.
  unfold call_and_store.
  destruct (get_response request _) as [response w1].
  split; [done|]. unfold update_or_create, capture. simpl.
  destruct (idempotency_keys w1 !! key) as [row|]; simpl.
  - split; [eexists; split; [apply lookup_insert_eq|done]|].
    split; [intros k Hk; by apply lookup_insert_ne|by destruct w1].
  - split; [eexists; split; [apply lookup_insert_eq|done]|].
    split; [intros k Hk; by apply lookup_insert_ne|by destruct w1].
Qed.



End Storing.

(** ** The cache *)

Section Caching.

Import Serializers Views.

Lemma colon_free_pretty_N_go (x : N) (s : string) :
  colon_free s = true -> colon_free (pretty_N_go x s) = true.
Proof.
  revert s. induction (N.lt_wf_0 x) as [x _ IH]; intros s Hs.
  assert (x = 0 \/ 0 < x)%N as [->|Hpos] by lia; [by rewrite pretty_N_go_0|].
  rewrite pretty_N_go_step by done. apply IH; [by apply N.div_lt|].
  simpl. rewrite Hs. unfold pretty_N_char. by repeat case_match.
Qed.

Lemma colon_free_pretty (z : Z) : colon_free (pretty z) = true.
Proof.
  assert (forall p : positive, colon_free (pretty p) = true) as Hpos.
  { intros p. unfold pretty, pretty_positive, pretty, pretty_N.
    case_decide; [done|]. by apply colon_free_pretty_N_go. }
  destruct z as [|p|p]; [done|apply Hpos|].
  unfold pretty, pretty_Z. simpl. apply Hpos.
Qed.

Lemma prefix_append (a b c : string) :
  String.prefix (a +:+ b) (a +:+ c) = String.prefix b c.
Proof.
  induction a as [|x a IH]; simpl; [done|]. by destruct (ascii_dec x x).
Qed.

Lemma prefix_cons (c c' : ascii) (s s' : string) :
  String.prefix (String c s) (String c' s')
  = if Ascii.eqb c c' then String.prefix s s' else false.
Proof.
  cbn [String.prefix]. by destruct (ascii_dec c c'), (Ascii.eqb_spec c c').
Qed.

Lemma append_cons (c : ascii) (a s : string) : String c a +:+ s = String c (a +:+ s).
Proof. reflexivity. Qed.

Lemma append_nil (s : string) : "" +:+ s = s.
Proof. reflexivity. Qed.

Lemma prefix_colon (a b x y : string) :
  colon_free a = true -> colon_free b = true -> a <> b ->
  String.prefix (a +:+ String ":" x) (b +:+ String ":" y) = false.
Proof.
  revert b. induction a as [|c a IH]; intros [|c' b] Ha Hb Hne;
    cbn [colon_free] in *; rewrite ?append_cons, ?append_nil; [done|rewrite prefix_cons..].
  - apply andb_prop in Hb as [Hb _]. rewrite Ascii.eqb_sym. by destruct (Ascii.eqb c' ":").
  - apply andb_prop in Ha as [Ha _]. by destruct (Ascii.eqb c ":").
  - destruct (Ascii.eqb_spec c c') as [<-|]; [|done].
    apply andb_prop in Ha as [_ Ha]. apply andb_prop in Hb as [_ Hb].
    apply IH; [done|done|congruence].
Qed.

Lemma list_key_own (m : Merchant) (query_params : list (string * string)) :
  String.prefix (merchant_transactions_pattern m) (list_cache_key m query_params) = true.
Proof.
  unfold merchant_transactions_pattern, list_cache_key. cbv zeta.
  rewrite !prefix_append. done.
Qed.

Lemma list_key_other (m m' : Merchant) (query_params : list (string * string)) :
  merchant_id m <> merchant_id m' ->
  String.prefix (merchant_transactions_pattern m) (list_cache_key m' query_params) = false.
Proof.
  intros Hne. unfold merchant_transactions_pattern, list_cache_key. cbv zeta.
  rewrite prefix_append. apply prefix_colon; [apply colon_free_pretty..|].
  intros Heq. by apply (inj pretty) in Heq.
Qed.

Lemma detail_key_kept (m : Merchant) (pk : Z) :
  String.prefix (merchant_transactions_pattern m) ("transaction:" +:+ pretty pk) = false.
Proof. done. Qed.

(** X15. The cache key of a list request names the merchant: requests of
    two merchants never share a key, whatever their query parameters. *)
Theorem list_cache_key_scoped (m m' : Merchant) (query_params query_params' : list (string * string)) :
  merchant_id m <> merchant_id m' ->
  list_cache_key m query_params <> list_cache_key m' query_params'.
Proof.
  intros Hne Heq. pose proof (list_key_own m query_params) as Hown.
  rewrite Heq, list_key_other in Hown; done.
Qed.

Lemma append_inj (s a b : string) : s +:+ a = s +:+ b -> a = b.
Proof. induction s as [|c s IH]; [done|]. rewrite !append_cons. intros [=]. auto. Qed.

Lemma detail_cache_key_inj (pk pk' : Z) : detail_cache_key pk = detail_cache_key pk' -> pk = pk'.
Proof. intros Heq%append_inj. by apply (inj pretty) in Heq. Qed.

Lemma detail_key_not_list_key (pk : Z) (m : Merchant) (query_params : list (string * string)) :
  detail_cache_key pk <> list_cache_key m query_params.
Proof. intros Heq. apply (f_equal (String.get 0)) in Heq. discriminate Heq. Qed.

Lemma lookup_delete_pattern (prefix key : string) (c : gmap string value) :
  filter (fun kv => String.prefix prefix kv.1 = false) c !! key
  = if String.prefix prefix key then None else c !! key.
Proof.
  rewrite map_lookup_filter. destruct (c !! key) as [v|]; simpl; [|by destruct (String.prefix _ _)].
  destruct (String.prefix prefix key); by case_guard.
Qed.

(** X16. A payment that is accepted drops every cached list page of its
    merchant, and nothing else from the cache: the list pages of the other
    merchants and the cached details stay. *)
Theorem payment_invalidates_list_pages (now : datetime) (request : Request TransactionData)
    (w : World) :
  ~ has_stored_response request w ->
  let '(response, w') := TransactionCreateView_post now request w in
  status_code response = 201 ->
  exists m, get_merchant (user request) w = Some m
    /\ (forall query_params, cache w' !! list_cache_key m query_params = None)
    /\ (forall m' query_params, merchant_id m' <> merchant_id m ->
          cache w' !! list_cache_key m' query_params = cache w !! list_cache_key m' query_params)
    /\ (forall pk, cache w' !! detail_cache_key pk = cache w !! detail_cache_key pk).
Proof.
  intros Hnone.
  pose proof (TransactionCreateView_post_cases now request w) as H. cbv zeta in *.
  destruct (TransactionCreateView_post now request w) as [response w'].
  intros Hstatus.
  destruct H as [(Hstored & _)|[(_ & _ & _ & Hrefused)|(_ & _ & m & Hm & H)]].
  - contradiction.
  - destruct Hrefused as [[? _]|[-> _]]; [lia|discriminate Hstatus].
  - exists m. split; [done|]. destruct H as (_ & _ & -> & _).
    split; [|split].
    + intros query_params. by rewrite lookup_delete_pattern, list_key_own.
    + intros m' query_params Hne. rewrite lookup_delete_pattern, list_key_other; [done|congruence].
    + intros pk. by rewrite lookup_delete_pattern.
Qed.

(** Without a live cache entry, the detail of an owned transaction is
    computed and cached. *)
Lemma detail_cache_miss_owned (request : Request unit) (pk : Z) (w : World) (tx : Transaction) :
  cache w !! detail_cache_key pk = None ->
  owned_transaction (user request) pk w = Some tx ->
  TransactionDetailView_retrieve request pk w
  = (standard_response true (TransactionDetailSerializer_data tx w) PNone 200,
     set_cache (<[detail_cache_key pk := TransactionDetailSerializer_data tx w]> (cache w)) w).
Proof.
  unfold detail_cache_key. intros Hmiss Howned.
  cbv beta iota zeta delta [TransactionDetailView_retrieve TransactionDetailView_get_object
    try_except mbind M_bind cache_hit merchant_or_404 cache_set gets modify ret raise].
  rewrite Hmiss. unfold owned_transaction in Howned.
  destruct (get_merchant (user request) w) as [m|]; [|done]. simpl in Howned.
  by rewrite find_filter, Howned.
Qed.

(** X17. Without a live cache entry for the transaction, the detail view
    answers for a transaction of the user's merchant only: it returns the
    serialized transaction with a 200 and caches it under [transaction:<id>];
    for any other id it answers 404 and changes nothing. *)
Theorem detail_lookup_scoped (request : Request unit) (pk : Z) (w : World) :
  cache w !! detail_cache_key pk = None ->
  let '(response, w') := TransactionDetailView_retrieve request pk w in
  match owned_transaction (user request) pk w with
  | Some tx =>
      response = standard_response true (TransactionDetailSerializer_data tx w) PNone 200
      /\ tx_id tx = pk
      /\ (exists m, get_merchant (user request) w = Some m /\ tx_merchant tx = merchant_id m)
      /\ w' = set_cache (<[detail_cache_key pk := TransactionDetailSerializer_data tx w]>
                           (cache w)) w
  | None =>
      response = standard_response false PNone (PStr "Transaction not found") 404 /\ w' = w
  end.
Proof.
  intros Hmiss. destruct (owned_transaction (user request) pk w) as [tx|] eqn:Howned.
  - rewrite (detail_cache_miss_owned request pk w tx) by done.
    apply owned_transaction_Some in Howned as (m & Hm & Hfind).
    apply find_some in Hfind as [_ [Hid Hmerchant]%andb_prop].
    split; [done|]. split; [lia|]. split; [|done]. exists m. split; [done|lia].
  - pose proof (detail_cache_miss request pk w Hmiss Howned) as Hresponse.
    destruct (TransactionDetailView_retrieve request pk w) as [response w'] eqn:Hrun.
    split; [done|].
    revert Hrun. unfold detail_cache_key in Hmiss.
    cbv beta iota zeta delta [TransactionDetailView_retrieve TransactionDetailView_get_object
      try_except mbind M_bind cache_hit merchant_or_404 cache_set gets modify ret raise].
    rewrite Hmiss. unfold owned_transaction in Howned.
    destruct (get_merchant (user request) w) as [m|]; [|by intros [= _ <-]].
    simpl in Howned. rewrite find_filter, Howned. by intros [= _ <-].
Qed.

(** X18. Settlement does not touch the cache: once a detail was answered
    with a 200, the same detail request after [process_transaction] ran, on
    this or any transaction, gets the response from before the settlement, for
    as long as the entry lives. *)
Theorem cached_detail_survives_settlement (request request' : Request unit) (pk id k : Z)
    (now : datetime) (w : World) :
  let '(response, w1) := TransactionDetailView_retrieve request pk w in
  status_code response = 200 ->
  let w2 := Tasks.process_transaction id k now w1 in
  TransactionDetailView_retrieve request' pk w2 = (response, w2).
Proof.
  assert (forall w0, cache (Tasks.process_transaction id k now w0) = cache w0) as Hcache.
  { intros w0. unfold Tasks.process_transaction. by destruct (get_transaction id w0). }
  destruct (TransactionDetailView_retrieve request pk w) as [response w1] eqn:Hrun.
  intros Hstatus. cbv zeta.
  assert (exists hit, cache w1 !! detail_cache_key pk = Some hit /\ truthy hit = true
                      /\ response = standard_response true hit PNone 200) as (hit & Hhit & Ht & ->).
  { revert Hrun. unfold detail_cache_key.
    cbv beta iota zeta delta [TransactionDetailView_retrieve TransactionDetailView_get_object
      try_except mbind M_bind cache_hit merchant_or_404 cache_set gets modify ret raise].
    destruct (cache w !! _) as [v|] eqn:Hv.
    - destruct (truthy v) eqn:Hv'; [intros [= <- <-]; by exists v|].
      destruct (get_merchant (user request) w) as [m|]; [|intros [= <- _]; done].
      destruct (List.find _ _) as [tx|]; [|intros [= <- _]; done].
      intros [= <- <-]. eexists. split; [apply lookup_insert_eq|done].
    - destruct (get_merchant (user request) w) as [m|]; [|intros [= <- _]; done].
      destruct (List.find _ _) as [tx|]; [|intros [= <- _]; done].
      intros [= <- <-]. eexists. split; [apply lookup_insert_eq|done]. }
  apply detail_cache_hit; [|done]. fold (detail_cache_key pk). by rewrite Hcache.
Qed.

Section Refunded.

Variable unique_validator : bool.

(** A refundable request, run. *)
Lemma RefundCreateView_post_created (now : datetime) (request : Request RefundData) (w : World) :
  let d := body request in
  refundable (user request) d w ->
  exists m, get_merchant (user request) w = Some m
    /\ RefundCreateView_post unique_validator now request w
       = (standard_response true (RefundSerializer_data (new_refund d now w)) PNone 201,
          set_cache (filter (fun kv => String.prefix (merchant_transactions_pattern m) kv.1 = false)
                            (delete (detail_cache_key (rd_transaction d)) (cache w)))
            (set_refunds (refunds w ++ [new_refund d now w])
               (set_sequences (<["payments_refund" := refund_id (new_refund d now w)]>
                                 (sequences w)) w))).
Proof.
  cbv zeta. intros (tx & (m & Hm & Hfind)%owned_transaction_Some & Hstatus & Hnone & Hamount).
  exists m. split; [done|].
  cbv beta iota zeta delta [RefundCreateView_post try_except mbind M_bind merchant_or_404
    RefundSerializer_is_valid transaction_or_404 raise_if_errors next_id nextval
    cache_delete cache_delete_pattern gets modify ret raise].
  rewrite Hm.
  destruct (find_weaken _ _ _ _ Hfind) as [tx0 Htx0].
  unfold get_transaction at 1. rewrite Htx0.
  assert (tx_id tx0 = rd_transaction (body request)) as Hid0.
  { apply find_some in Htx0 as [_ ?]. lia. }
  assert (tx_id tx = rd_transaction (body request)) as Hid.
  { apply find_some in Hfind as [_ [? _]%andb_prop]. lia. }
  rewrite Hnone. unfold RefundSerializer_amount_errors, RefundSerializer_validate_amount.
  destruct (Z.leb_spec (rd_amount (body request)) 0) as [|_]; [lia|]. simpl.
  rewrite Hid0, Hfind, Hstatus. simpl. rewrite Hid, Hnone.
  destruct (Z.ltb_spec (tx_amount tx) (rd_amount (body request))) as [|_]; [lia|].
  done.
Qed.

(** X19. A refund that is created drops the cached detail of its
    transaction and every cached list page of its merchant, and nothing else
    from the cache. *)
Theorem refund_invalidates_cache (now : datetime) (request : Request RefundData) (w : World) :
  let d := body request in
  let '(response, w') := RefundCreateView_post unique_validator now request w in
  status_code response = 201 ->
  exists m, get_merchant (user request) w = Some m
    /\ cache w' !! detail_cache_key (rd_transaction d) = None
    /\ (forall query_params, cache w' !! list_cache_key m query_params = None)
    /\ (forall pk, pk <> rd_transaction d ->
          cache w' !! detail_cache_key pk = cache w !! detail_cache_key pk)
    /\ (forall m' query_params, merchant_id m' <> merchant_id m ->
          cache w' !! list_cache_key m' query_params = cache w !! list_cache_key m' query_params).
Proof.
  pose proof (RefundCreateView_post_cases unique_validator now request w) as H.
  pose proof (RefundCreateView_post_created now request w) as Hcreated. cbv zeta in *.
  destruct (RefundCreateView_post unique_validator now request w) as [response w'].
  intros Hstatus. destruct H as [(Hok & _)|(_ & ? & _)]; [|lia].
  destruct (Hcreated Hok) as (m & Hm & [= _ ->]). exists m. split; [done|]. simpl.
  split; [|split; [|split]].
  - rewrite lookup_delete_pattern. unfold detail_cache_key at 1.
    rewrite detail_key_kept. apply lookup_delete_eq.
  - intros query_params. by rewrite lookup_delete_pattern, list_key_own.
  - intros pk Hpk. rewrite lookup_delete_pattern. unfold detail_cache_key at 1.
    rewrite detail_key_kept. apply lookup_delete_ne.
    intros Heq. apply detail_cache_key_inj in Heq. congruence.
  - intros m' query_params Hne. rewrite lookup_delete_pattern, list_key_other by congruence.
    apply lookup_delete_ne. apply detail_key_not_list_key.
Qed.

(** X20. After a refund is created, the detail of its transaction, asked by
    the same user, is computed anew and carries the refund, the one the refund
    response shows. *)
Theorem refund_shown_in_detail (now : datetime) (request : Request RefundData)
    (detail : Request unit) (w : World) :
  user detail = user request ->
  let d := body request in
  let '(response, w') := RefundCreateView_post unique_validator now request w in
  status_code response = 201 ->
  exists tx r,
    owned_transaction (user request) (rd_transaction d) w = Some tx
    /\ response = standard_response true (RefundSerializer_data r) PNone 201
    /\ (TransactionDetailView_retrieve detail (rd_transaction d) w').1
       = standard_response true (TransactionDetailSerializer_data tx w') PNone 200
    /\ get "refund" (TransactionDetailSerializer_data tx w') = Some (RefundSerializer_data r).
Proof.
  intros Huser.
  pose proof (RefundCreateView_post_cases unique_validator now request w) as H.
  pose proof (RefundCreateView_post_created now request w) as Hcreated.
  cbv zeta in *.
  destruct (RefundCreateView_post unique_validator now request w) as [response w'].
  intros Hstatus. destruct H as [(Hok & _)|(_ & ? & _)]; [|lia].
  destruct (Hcreated Hok) as (m & Hm & [= -> ->]).
  set (w' := set_cache _ _).
  destruct Hok as (tx & Howned & _ & Hnone & _).
  exists tx, (new_refund (body request) now w). split; [done|]. split; [done|].
  assert (tx_id tx = rd_transaction (body request)) as Hid.
  { apply owned_transaction_Some in Howned as (? & _ & Hfind).
    apply find_some in Hfind as [_ [? _]%andb_prop]. lia. }
  assert (get_refund_of (tx_id tx) w' = Some (new_refund (body request) now w)) as Hrefund.
  { rewrite Hid. unfold get_refund_of in *. simpl.
    rewrite find_app, Hnone. simpl. by rewrite Z.eqb_refl. }
  split.
  - rewrite (detail_cache_miss_owned detail _ w' tx); [done| |].
    + simpl. rewrite lookup_delete_pattern.
      unfold detail_cache_key at 1. rewrite detail_key_kept. apply lookup_delete_eq.
    + rewrite Huser. exact Howned.
  - simpl. by rewrite Hrefund.
Qed.

End Refunded.

End Caching.

(** ** The invariants of the database *)

Section Invariants.

Import Serializers Views.

Variable fw : Framework.

Lemma Change_to (t t1 t2 : Tables) (o1 o2 : option Z) :
  Change t o1 t1 -> o1 = o2 -> t1 = t2 -> Change t o2 t2.
Proof. by intros ? <- <-. Qed.

(** *** What each view and each task does to the tables *)

Lemma PaymentKeyView_post_Change (now : datetime) (token : string) (request : Request unit)
    (w : World) :
  Change (tables w) (merchant_of (user request) w)
    (tables (PaymentKeyView_post now token request w).2).
Proof.
  pose proof (PaymentKeyView_post_cases now token request w) as H. cbv zeta in H.
  destruct (PaymentKeyView_post now token request w) as [response w'].
  destruct H as [(m & pk & Hm & _ & Hpk & _ & ->)|(_ & _ & ->)]; [|apply Unchanged].
  apply (Change_to _ _ _ _ _ (PaymentKeyAdded (tables w) pk ltac:(by rewrite Hpk))); [|done].
  unfold merchant_of. by rewrite Hm, Hpk.
Qed.

Lemma TransactionCreateView_post_Change (now : datetime) (request : Request TransactionData)
    (w : World) :
  Change (tables w) (merchant_of (user request) w)
    (tables (TransactionCreateView_post now request w).2).
Proof.
  pose proof (TransactionCreateView_post_cases now request w) as H. cbv zeta in H.
  destruct (TransactionCreateView_post now request w) as [response w']. cbn [snd].
  destruct H as [(_ & _ & ->)|[(_ & _ & -> & _)|(_ & _ & m & Hmerchant & H)]].
  1,2: unfold checked; destruct (request_key request); apply Unchanged.
  destruct H as (Htx & _ & _ & Hm & Hpk & Hr & Hw & Hs & _).
  apply (Change_to _ _ _ _ _
           (TransactionAdded (tables w) (new_transaction m (body request) now w)
              eq_refl eq_refl)).
  - unfold merchant_of. by rewrite Hmerchant.
  - unfold tables. simpl. by rewrite Htx, Hm, Hpk, Hr, Hw, Hs.
Qed.

Lemma RefundCreateView_post_Change (now : datetime) (request : Request RefundData) (w : World) :
  Change (tables w) (merchant_of (user request) w)
    (tables (RefundCreateView_post (fw_unique_validator fw) now request w).2).
Proof.
  pose proof (RefundCreateView_post_cases (fw_unique_validator fw) now request w) as H.
  pose proof (RefundCreateView_post_created (fw_unique_validator fw) now request w) as Hcreated.
  cbv zeta in *.
  destruct (RefundCreateView_post (fw_unique_validator fw) now request w) as [response w'].
  destruct H as [(Hok & _)|(_ & _ & -> & _)]; [|apply Unchanged].
  destruct (Hcreated Hok) as (m & Hm & [= _ ->]).
  destruct Hok as (tx & (m' & Hm' & Hfind)%owned_transaction_Some & _ & Hnone & Hamount).
  apply find_some in Hfind as [Hin [Hid Hmerchant]%andb_prop].
  apply (Change_to _ _ _ _ _
           (RefundAdded (tables w) (new_refund (body request) now w) tx
              eq_refl eq_refl Hin ltac:(simpl; lia) Hamount Hnone)); [|done].
  unfold merchant_of. rewrite Hm'. simpl. f_equal. lia.
Qed.

Lemma WebhookListCreateView_post_Change (now : datetime) (secret : string)
    (request : Request string) (w : World) :
  Change (tables w) (merchant_of (user request) w)
    (tables (WebhookListCreateView_post (fw_URLField_valid fw) now secret request w).2).
Proof.
  cbv beta iota zeta delta [WebhookListCreateView_post try_except mbind M_bind merchant_or_404
    WebhookSerializer_is_valid next_id nextval gets modify ret raise].
  unfold merchant_of.
  destruct (get_merchant (user request) w) as [m|]; [|apply Unchanged].
  destruct (fw_URLField_valid fw (body request)); [|apply Unchanged].
  destruct (WebhookSerializer_validate_url (body request)); [apply Unchanged|].
  apply (Change_to _ _ _ _ _
           (WebhookAdded (tables w)
              {| webhook_id := default 0 (sequences w !! "payments_webhook") + 1;
                 webhook_merchant := merchant_id m; webhook_url := body request;
                 webhook_secret := secret; webhook_created_at := now |} eq_refl)); done.
Qed.

Lemma WebhookDeleteView_destroy_Change (request : Request unit) (pk : Z) (w : World) :
  Change (tables w) (merchant_of (user request) w)
    (tables (WebhookDeleteView_destroy request pk w).2).
Proof.
  cbv beta iota zeta delta [WebhookDeleteView_destroy try_except mbind M_bind merchant_or_404
    gets modify ret raise].
  unfold merchant_of.
  destruct (get_merchant (user request) w) as [m|]; [|apply Unchanged].
  rewrite find_filter.
  destruct (List.find _ (webhooks w)) as [instance|] eqn:Hfind; [|apply Unchanged].
  apply find_some in Hfind as [Hin [_ Hmerchant]%andb_prop].
  apply (Change_to _ _ _ _ _ (WebhookDeleted (tables w) instance Hin)); [|done].
  simpl. f_equal. lia.
Qed.

Lemma WebhookListCreateView_get_Change (request : Request unit) (w : World) :
  Change (tables w) (merchant_of (user request) w)
    (tables (WebhookListCreateView_get request w).2).
Proof.
  cbv beta iota zeta delta [WebhookListCreateView_get try_except mbind M_bind merchant_or_404
    gets modify ret raise].
  destruct (get_merchant (user request) w) as [m|]; apply Unchanged.
Qed.

Lemma RefundDetailView_retrieve_Change (request : Request unit) (pk : Z) (w : World) :
  Change (tables w) (merchant_of (user request) w)
    (tables (RefundDetailView_retrieve request pk w).2).
Proof.
  cbv beta iota zeta delta [RefundDetailView_retrieve try_except mbind M_bind merchant_or_404
    gets modify ret raise].
  destruct (get_merchant (user request) w) as [m|]; [|apply Unchanged].
  destruct (List.find _ _); apply Unchanged.
Qed.

Lemma TransactionDetailView_retrieve_Change (request : Request unit) (pk : Z) (w : World) :
  Change (tables w) (merchant_of (user request) w)
    (tables (TransactionDetailView_retrieve request pk w).2).
Proof.
  cbv beta iota zeta delta [TransactionDetailView_retrieve TransactionDetailView_get_object
    try_except mbind M_bind cache_hit merchant_or_404 cache_set gets modify ret raise].
  destruct (match cache w !! _ with Some v => _ | None => _ end); [apply Unchanged|].
  destruct (get_merchant (user request) w) as [m|]; [|apply Unchanged].
  destruct (List.find _ _); apply Unchanged.
Qed.

Lemma TransactionListView_list_Change (request : Request unit)
    (query_params : list (string * string)) (w : World) :
  Change (tables w) (merchant_of (user request) w)
    (tables (TransactionListView_list (fw_order_by_created_at_desc fw) (fw_filter_queryset fw)
               (fw_paginate_queryset fw) request query_params w).2).
Proof.
  cbv beta iota zeta delta [TransactionListView_list TransactionListView_get_queryset
    try_except mbind M_bind cache_hit merchant_or_404 cache_set gets modify ret raise].
  destruct (get_merchant (user request) w) as [m|] eqn:Hm; [|apply Unchanged].
  destruct (match cache w !! _ with Some v => _ | None => _ end); [apply Unchanged|].
  rewrite Hm.
  destruct (fw_paginate_queryset fw query_params _) as [e|[page_obj|]]; apply Unchanged.
Qed.

Lemma behind_middleware_Change {B} (now : datetime) (view : Handler B) (request : Request B)
    (w : World) :
  (forall w0, Change (tables w0) (merchant_of (user request) w0) (tables (view request w0).2)) ->
  Change (tables w) (merchant_of (user request) w)
    (tables (behind_middleware fw now view request w).2).
Proof.
  intros Hview. unfold behind_middleware, Middleware.__call__.
  destruct (Middleware.guarded request) as [key|]; [|apply Hview].
  assert (Change (tables w) (merchant_of (user request) w)
            (tables (Middleware.call_and_store (fw_json_dumps fw) view now key request
                       (set_queries (queries w ++ [SELECT key]) w)).2)) as Hstore.
  { unfold Middleware.call_and_store.
    specialize (Hview (set_queries (queries w ++ [SELECT key]) w)).
    destruct (view request _) as [response w1]. unfold Middleware.update_or_create. simpl.
    by destruct (idempotency_keys w1 !! key). }
  cbv zeta. simpl idempotency_keys.
  destruct (idempotency_keys w !! key) as [existing|]; [|exact Hstore].
  destruct (ik_response_body existing); [apply Unchanged|exact Hstore].
Qed.

Lemma send_webhooks_tables (id : Z) (w : World) : tables (Tasks.send_webhooks id w) = tables w.
Proof.
  unfold Tasks.send_webhooks. destruct (get_transaction id w) as [tx|]; [|done].
  destruct (List.filter _ (webhooks w)) as [|wb whs]; [done|].
  generalize (wb :: whs). clear wb whs. intros whs.
  assert (forall w0,
            tables (fold_left (fun w1 wb => delay (DeliverWebhook (webhook_id wb)
                                                     (Tasks.payload_of tx)) w1) whs w0)
            = tables w0) as H; [|apply H].
  induction whs as [|wb whs IH]; intros w0; simpl; [done|]. by rewrite IH.
Qed.

Lemma run_job_Change (job : Job) (k : Z) (now : datetime) (w : World) :
  exists owner, Change (tables w) owner (tables (run_job job k now w)).
Proof.
  destruct job as [id|id|]; simpl;
    [|rewrite send_webhooks_tables; exists None; apply Unchanged|exists None; apply Unchanged].
  unfold Tasks.process_transaction.
  destruct (get_transaction id w) as [tx|] eqn:Hget; [|exists None; apply Unchanged].
  pose proof (find_tx_id _ _ _ Hget) as Hid. unfold get_transaction in Hget. rewrite <- Hid in Hget.
  eexists. eapply Change_to; [|done|].
  - apply (TransactionSettled (tables w) tx
             (if Tasks.random_above_0_2 k then "succeeded" else "failed") now Hget).
    destruct (Tasks.random_above_0_2 k); [by left|by right].
  - done.
Qed.

Lemma serve_Change (now : datetime) (c : Call) (w : World) :
  Change (tables w) (merchant_of (caller c) w) (tables (serve fw now c w).2).
Proof.
  destruct c; simpl; apply behind_middleware_Change; intros w0.
  - apply PaymentKeyView_post_Change.
  - apply TransactionCreateView_post_Change.
  - apply TransactionListView_list_Change.
  - apply TransactionDetailView_retrieve_Change.
  - apply RefundCreateView_post_Change.
  - apply RefundDetailView_retrieve_Change.
  - apply WebhookListCreateView_get_Change.
  - apply WebhookListCreateView_post_Change.
  - apply WebhookDeleteView_destroy_Change.
Qed.

Lemma step_Change (ev : Event) (w : World) :
  exists owner, Change (tables w) owner (tables (step fw ev w)).
Proof.
  destruct ev as [now c|job k now]; [|apply run_job_Change].
  eexists. apply serve_Change.
Qed.

(** *** What the changes preserve *)

Lemma NoDup_map_eq {A B} (f : A -> B) (l : list A) (x y : A) :
  NoDup (map f l) -> In x l -> In y l -> f x = f y -> x = y.
Proof.
  induction l as [|a l IH]; simpl; [done|].
  intros [Hnotin Hnd]%NoDup_cons [->|Hx] [->|Hy] Hf; try done.
  - destruct Hnotin. apply list_elem_of_In. rewrite Hf. by apply in_map.
  - destruct Hnotin. apply list_elem_of_In. rewrite <- Hf. by apply in_map.
  - by apply IH.
Qed.

Lemma keyed_same {A} (id : A -> Z) (table : string) (rows : list A) (t t' : Tables) :
  keyed id table rows t -> last_id table t <= last_id table t' -> keyed id table rows t'.
Proof.
  intros [Hnd Hle] Hlast. split; [done|].
  eapply Forall_impl; [exact Hle|]. simpl. intros; lia.
Qed.

Lemma keyed_add {A} (id : A -> Z) (table : string) (rows : list A) (x : A) (t t' : Tables) :
  keyed id table rows t -> id x = last_id table t + 1 -> last_id table t' = id x ->
  keyed id table (rows ++ [x]) t'.
Proof.
  intros [Hnd Hle] Hx Hlast. rewrite List.Forall_forall in Hle. split.
  - rewrite map_app. apply NoDup_app. split; [done|]. split; [|apply NoDup_singleton].
    intros y Hy%list_elem_of_In Hy'%list_elem_of_In.
    apply in_map_iff in Hy as (row & <- & Hrow%Hle). destruct Hy' as [Hy'|[]]. lia.
  - apply List.Forall_forall. intros row [Hrow%Hle|[<-|[]]]%in_app_or; lia.
Qed.

Lemma keyed_filter {A} (id : A -> Z) (table : string) (rows : list A) (p : A -> bool)
    (t t' : Tables) :
  keyed id table rows t -> last_id table t <= last_id table t' ->
  keyed id table (List.filter p rows) t'.
Proof.
  intros [Hnd Hle] Hlast. rewrite List.Forall_forall in Hle. split.
  - induction rows as [|row rows IH]; simpl; [done|].
    apply NoDup_cons in Hnd as [Hnotin Hnd].
    destruct (p row); simpl; [|apply IH; [done|intros; apply Hle; by right]].
    apply NoDup_cons. split; [|apply IH; [done|intros; apply Hle; by right]].
    intros (row' & Hid & [Hin _]%filter_In)%list_elem_of_In%in_map_iff. apply Hnotin.
    apply list_elem_of_In. rewrite <- Hid. by apply in_map.
  - apply List.Forall_forall. intros row [Hrow%Hle _]%filter_In. lia.
Qed.

Lemma keyed_settled (rows : list Transaction) (id : Z) (new : Transaction) (t t' : Tables) :
  tx_id new = id ->
  keyed tx_id "payments_transaction" rows t ->
  last_id "payments_transaction" t <= last_id "payments_transaction" t' ->
  keyed tx_id "payments_transaction"
    (map (fun row => if tx_id row =? id then new else row) rows) t'.
Proof.
  intros Hnew [Hnd Hle] Hlast.
  assert (forall row, tx_id (if tx_id row =? id then new else row) = tx_id row) as Hid.
  { intros row. destruct (Z.eqb_spec (tx_id row) id); congruence. }
  split.
  - rewrite map_map. erewrite map_ext; [exact Hnd|]. intros row. apply Hid.
  - apply List.Forall_map. eapply Forall_impl; [exact Hle|]. simpl. intros row. rewrite Hid. lia.
Qed.

Ltac last_ids :=
  unfold last_id; cbn [t_sequences];
  rewrite ?lookup_insert_eq; rewrite ?lookup_insert_ne by done; simpl; lia.

Lemma consistent_Change (t t' : Tables) (owner : option Z) :
  consistent t -> Change t owner t' -> consistent t'.
Proof.
  intros (Hpk & Htx & Hr & Hwb) Hchange. unfold consistent.
  destruct Hchange; cbn [t_payment_keys t_transactions t_refunds t_webhooks];
    [done|split; [|split; [|split]]..].
  all: try (eapply keyed_same; [done|last_ids]).
  all: try (eapply keyed_add; [done|done|last_ids]).
  - eapply keyed_settled; [done|done|last_ids].
  - eapply keyed_filter; [done|last_ids].
Qed.

Lemma evolves_refl (tx : Transaction) : evolves tx tx.
Proof. repeat split; try done. by left. Qed.

Lemma evolves_trans (tx1 tx2 tx3 : Transaction) :
  evolves tx1 tx2 -> evolves tx2 tx3 -> evolves tx1 tx3.
Proof.
  intros (? & ? & ? & ? & ? & ? & H12) (? & ? & ? & ? & ? & ? & H23).
  repeat split; try congruence.
  destruct H23 as [->|H23]; [done|by right].
Qed.

Lemma Forall2_evolves_refl (rows : list Transaction) : Forall2 evolves rows rows.
Proof. induction rows; constructor; [apply evolves_refl|done]. Qed.

Lemma ledger_grows_refl (t t' : Tables) :
  t_transactions t' = t_transactions t -> ledger_grows t t'.
Proof.
  intros Heq. exists (t_transactions t), []. split; [by rewrite Heq, app_nil_r|].
  apply Forall2_evolves_refl.
Qed.

Lemma ledger_grows_trans (t1 t2 t3 : Tables) :
  ledger_grows t1 t2 -> ledger_grows t2 t3 -> ledger_grows t1 t3.
Proof.
  intros (rows & added & H2 & H12) (rows' & added' & H3 & H23).
  rewrite H2 in H23. apply Forall2_app_inv_l in H23 as (rows1 & rows2 & Hrows1 & Hrows2 & ->).
  exists rows1, (rows2 ++ added'). split; [by rewrite H3, <- app_assoc|].
  clear H2 H3 Hrows2. revert rows1 Hrows1.
  induction H12 as [|tx tx' l l' Htx Hl IH]; intros rows1 Hrows1.
  - inversion Hrows1. constructor.
  - inversion Hrows1 as [|? tx'' ? l'' Htx' Hl']; subst. constructor.
    + by eapply evolves_trans.
    + by apply IH.
Qed.

Lemma ledger_grows_Change (t t' : Tables) (owner : option Z) :
  consistent t -> Change t owner t' -> ledger_grows t t'.
Proof.
  intros (_ & [Hnd _] & _) Hchange.
  destruct Hchange as [?|pk ?|tx ? ?|tx status now Hfind Hstatus|r tx ? ? ? ? ? ?|wb ?|wb ?];
    try (by apply ledger_grows_refl).
  - exists (t_transactions t), [tx]. split; [done|apply Forall2_evolves_refl].
  - eexists _, []. split; [by rewrite app_nil_r|]. simpl.
    apply find_some in Hfind as [Hin _].
    assert (forall row, In row (t_transactions t) ->
              evolves row (if tx_id row =? tx_id tx
                           then Tasks.pre_save now (Tasks.with_status status tx) else row)) as H.
    { intros row Hrow. destruct (Z.eqb_spec (tx_id row) (tx_id tx)) as [Hid|]; [|apply evolves_refl].
      assert (row = tx) as -> by (by apply (NoDup_map_eq tx_id (t_transactions t))).
      repeat split; try done. right. simpl. done. }
    revert H. clear. induction (t_transactions t) as [|row rows IH]; intros H; simpl.
    + constructor.
    + constructor; [apply H; by left|]. apply IH. intros; apply H; by right.
Qed.

Lemma sound_refunds_Change (t t' : Tables) (owner : option Z) :
  consistent t -> sound_refunds t -> Change t owner t' -> sound_refunds t'.
Proof.
  intros (_ & [Hnd _] & _) [Hone Hsound] Hchange. rewrite List.Forall_forall in Hsound.
  destruct Hchange as [?|pk ?|tx ? ?|tx status now Hfind Hstatus|r tx ? ? Hin Hid Hamount Hnone
                      |wb ?|wb ?];
    (split; [try exact Hone|apply List.Forall_forall; try exact Hsound]);
    cbn [t_refunds t_transactions].
  - intros r (Hr & tx0 & Hin & Hid & Hamount)%Hsound. split; [done|].
    exists tx0. split; [apply in_or_app; by left|done].
  - intros r (Hr & tx0 & Hin & Hid & Hamount)%Hsound. split; [done|].
    exists (if tx_id tx0 =? tx_id tx
            then Tasks.pre_save now (Tasks.with_status status tx) else tx0).
    split; [apply (in_map (fun row => if tx_id row =? tx_id tx
                                      then Tasks.pre_save now (Tasks.with_status status tx)
                                      else row)), Hin|].
    destruct (Z.eqb_spec (tx_id tx0) (tx_id tx)) as [Hsame|]; [|done].
    apply find_some in Hfind as [Hin' _].
    assert (tx0 = tx) as -> by (by apply (NoDup_map_eq tx_id (t_transactions t))). done.
  - rewrite map_app. apply NoDup_app. split; [done|]. split; [|apply NoDup_singleton].
    intros y (r' & <- & Hr')%list_elem_of_In%in_map_iff [Hy|[]]%list_elem_of_In.
    apply (find_none _ _ Hnone) in Hr'. simpl in Hr'. lia.
  - intros r' [Hr'%Hsound|[<-|[]]]%in_app_or; [done|]. split; [done|]. by exists tx.
Qed.





(** *** Over any sequence of calls and jobs *)

(** X22. Primary keys stay primary keys: when in each table the ids are
    distinct and not above the sequence of the table, they are so after any
    sequence of calls and jobs. *)
Theorem primary_keys_stay_unique (evs : list Event) (w : World) :
  consistent (tables w) -> consistent (tables (run fw evs w)).
Proof.
  revert w. induction evs as [|ev evs IH]; intros w Hw; [done|].
  destruct (step_Change ev w) as [owner Hstep].
  apply IH. eapply consistent_Change; [exact Hw|exact Hstep].
Qed.

(** X23. The ledger only grows. After any sequence of calls and jobs, every
    transaction is still in its place with its id, merchant, amount, currency,
    description and creation time; it is untouched, or its status is
    ['succeeded'] or ['failed'], so no transaction returns to ['pending'];
    and no call deletes one. *)
Theorem ledger_only_grows (evs : list Event) (w : World) :
  consistent (tables w) -> ledger_grows (tables w) (tables (run fw evs w)).
Proof.
  revert w. induction evs as [|ev evs IH]; intros w Hw; [by apply ledger_grows_refl|].
  destruct (step_Change ev w) as [owner Hstep].
  eapply ledger_grows_trans; [by eapply ledger_grows_Change|].
  apply IH. by eapply consistent_Change.
Qed.

(** X24. Refunds stay sound. After any sequence of calls and jobs the
    refunds of before are still there, unchanged and in their places, and every
    refund has status ['succeeded'], is on a transaction of the ledger for a
    positive amount not above the transaction's, and no transaction has two
    refunds. *)
Theorem refunds_stay_sound (evs : list Event) (w : World) :
  consistent (tables w) -> sound_refunds (tables w) ->
  sound_refunds (tables (run fw evs w))
  /\ exists added, refunds (run fw evs w) = refunds w ++ added.
Proof.
  revert w. induction evs as [|ev evs IH]; intros w Hw Hsound.
  { split; [done|]. exists []. by rewrite app_nil_r. }
  destruct (step_Change ev w) as [owner Hstep].
  destruct (IH (step fw ev w)) as [Hsound' [added Hadded]].
  { by eapply consistent_Change. }
  { by eapply sound_refunds_Change. }
  split; [exact Hsound'|].
  change (run fw (ev :: evs) w) with (run fw evs (step fw ev w)). rewrite Hadded.
  assert (exists one, refunds (step fw ev w) = refunds w ++ one) as [one ->].
  { change (refunds (step fw ev w)) with (t_refunds (tables (step fw ev w))).
    change (refunds w) with (t_refunds (tables w)).
    destruct Hstep; simpl; try (by exists []; rewrite app_nil_r). by eexists. }
  exists (one ++ added). by rewrite app_assoc.
Qed.

End Invariants.

(** ** Reading a refund *)

Section RefundDetail.

Import Serializers Views.

Lemma refund_of_merchant_true (w : World) (m : Merchant) (r : Refund) :
  refund_of_merchant m w r = true <->
  exists tx, get_transaction (refund_transaction r) w = Some tx
    /\ tx_merchant tx = merchant_id m.
Proof.
  unfold refund_of_merchant.
  destruct (get_transaction (refund_transaction r) w) as [tx|].
  - split; [intros ?%Z.eqb_eq; by exists tx|].
    intros (tx' & [= <-] & ?). by apply Z.eqb_eq.
  - split; [done|]. by intros (? & [=] & _).
Qed.

(** X25. A refund is shown only to the merchant of its transaction: the
    view answers 200 with the first refund that has the id and is on a
    transaction of the user's merchant; when there is none, and so for a
    refund of another merchant, it answers 404. It changes nothing. *)
Theorem refund_detail_scoped (request : Request unit) (pk : Z) (w : World) :
  let '(response, w') := RefundDetailView_retrieve request pk w in
  w' = w
  /\ ((exists r, In r (refunds w) /\ refund_id r = pk
         /\ (exists m tx, get_merchant (user request) w = Some m
               /\ get_transaction (refund_transaction r) w = Some tx
               /\ tx_merchant tx = merchant_id m)
         /\ response = standard_response true (RefundSerializer_data r) PNone 200)
      \/ (response = standard_response false PNone (PStr "Refund not found") 404
          /\ forall r, In r (refunds w) -> refund_id r = pk ->
               ~ exists m tx, get_merchant (user request) w = Some m
                   /\ get_transaction (refund_transaction r) w = Some tx
                   /\ tx_merchant tx = merchant_id m)).
Proof.
  cbv beta iota zeta delta [RefundDetailView_retrieve try_except mbind M_bind merchant_or_404
    gets modify ret raise].
  destruct (get_merchant (user request) w) as [m|] eqn:Hm.
  2:{ split; [done|]. right. split; [done|]. by intros r _ _ (? & ? & [=] & _). }
  rewrite find_filter.
  destruct (List.find _ (refunds w)) as [r|] eqn:Hfind; (split; [done|]).
  - apply find_some in Hfind as [Hin [Hid Hown]%andb_prop]. left. exists r.
    split; [done|]. split; [lia|]. split; [|done].
    apply refund_of_merchant_true in Hown as (tx & Htx & Hmerchant). by exists m, tx.
  - right. split; [done|]. intros r Hin Hid (m' & tx & [= <-] & Htx & Hmerchant).
    assert (refund_of_merchant m w r = true) as Hown.
    { apply refund_of_merchant_true. by exists tx. }
    apply (find_none _ _ Hfind) in Hin. simpl in Hin. rewrite Hown in Hin.
    apply andb_false_iff in Hin as [?|?]; [lia|done].
Qed.

Variable unique_validator : bool.

(** X26. A refund that was just created can be read back by its id by the
    user who created it: the data are those of the creation response. The ids
    of the transactions are distinct and no refund has an id above the
    sequence. *)
Theorem refund_create_then_retrieve (now : datetime) (request : Request RefundData)
    (detail : Request unit) (w : World) :
  user detail = user request ->
  NoDup (map tx_id (transactions w)) ->
  Forall (fun r => refund_id r <= default 0 (sequences w !! "payments_refund")) (refunds w) ->
  let '(response, w') := RefundCreateView_post unique_validator now request w in
  status_code response = 201 ->
  exists r, refunds w' = refunds w ++ [r]
    /\ RefundDetailView_retrieve detail (refund_id r) w'
       = ({| status_code := 200; data := data response |}, w').
Proof.
  intros Huser Hnd Hids.
  pose proof (RefundCreateView_post_cases unique_validator now request w) as H.
  pose proof (RefundCreateView_post_created unique_validator now request w) as Hcreated.
  cbv zeta in *.
  destruct (RefundCreateView_post unique_validator now request w) as [response w'].
  intros Hstatus. destruct H as [(Hok & _)|(_ & ? & _)]; [|lia].
  destruct (Hcreated Hok) as (m & Hm & [= -> ->]).
  set (r := new_refund (body request) now w). exists r. split; [done|].
  destruct Hok as (tx & (m' & Hm' & Hfind)%owned_transaction_Some & _).
  assert (m' = m) as -> by congruence.
  apply find_some in Hfind as [Hin [Hid Hmerchant]%andb_prop].
  assert (get_transaction (rd_transaction (body request)) w = Some tx) as Hget.
  { unfold get_transaction.
    destruct (List.find _ (transactions w)) as [tx0|] eqn:Hfind0.
    - apply find_some in Hfind0 as [Hin0 Hid0]. f_equal.
      apply (NoDup_map_eq tx_id (transactions w)); [done..|lia].
    - apply (find_none _ _ Hfind0) in Hin. simpl in Hin. lia. }
  cbv beta iota zeta delta [RefundDetailView_retrieve try_except mbind M_bind merchant_or_404
    gets modify ret raise].
  rewrite Huser. unfold get_merchant in *. simpl. rewrite Hm. simpl.
  rewrite find_filter, find_app.
  destruct (List.find _ (refunds w)) as [r0|] eqn:Hfind0.
  { apply find_some in Hfind0 as [Hin0 [Hid0 _]%andb_prop].
    rewrite List.Forall_forall in Hids. apply Hids in Hin0. simpl in Hid0. lia. }
  simpl. rewrite Z.eqb_refl. unfold refund_of_merchant, get_transaction. simpl.
  unfold get_transaction in Hget. rewrite Hget.
  assert ((tx_merchant tx =? merchant_id m) = true) as -> by lia. done.
Qed.

End RefundDetail.

(** ** Listing transactions *)

Section Listing.

Import Serializers Views.

Variable order_by_created_at_desc : list Transaction -> list Transaction.
Variable filter_queryset : list (string * string) -> list Transaction -> list Transaction.
Variable paginate_queryset :
  list (string * string) -> list Transaction -> exception + option Page.

Ltac run_view := cbv beta iota zeta delta [TransactionListView_list
  TransactionListView_get_queryset try_except mbind M_bind cache_hit merchant_or_404 cache_set
  gets modify ret raise].


Section Owned.

(** The order, the filters and the paginator select among the rows they are
    given. *)
Hypothesis order_selects :
  forall rows tx, In tx (order_by_created_at_desc rows) -> In tx rows.
Hypothesis filter_selects :
  forall query_params rows tx, In tx (filter_queryset query_params rows) -> In tx rows.
Hypothesis page_selects :
  forall query_params rows page_obj tx,
    paginate_queryset query_params rows = inr (Some page_obj) ->
    In tx (page_results page_obj) -> In tx rows.

(** X28. When the order, the filters and the paginator select among the
    rows they are given, a list that is not served from the cache shows
    transactions of the user's merchant only, each as
    [TransactionListSerializer] writes it. *)
Theorem listed_transactions_owned (request : Request unit)
    (query_params : list (string * string)) (w : World) (m : Merchant) :
  get_merchant (user request) w = Some m ->
  cache w !! list_cache_key m query_params = None ->
  let response :=
    (TransactionListView_list order_by_created_at_desc filter_queryset paginate_queryset
       request query_params w).1 in
  status_code response = 200 ->
  exists d, data response = PDict [("success", PBool true); ("data", d); ("error", PNone)]
    /\ Forall (fun row => exists tx, In tx (transactions w)
                            /\ tx_merchant tx = merchant_id m
                            /\ row = TransactionListSerializer_data tx w) (results_of d).
Proof.
  intros Hm Hmiss. cbv zeta. run_view. rewrite Hm, Hmiss. rewrite Hm.
  assert (forall tx,
            In tx (filter_queryset query_params
                     (order_by_created_at_desc
                        (List.filter (fun t => tx_merchant t =? merchant_id m) (transactions w)))) ->
            In tx (transactions w) /\ tx_merchant tx = merchant_id m) as Hrows.
  { intros tx [Hin Hown]%filter_selects%order_selects%filter_In. split; [done|lia]. }
  destruct (paginate_queryset query_params _) as [e|[page_obj|]] eqn:Hpage; [by intros [=]|..];
    intros _; (eexists; split; [done|]); simpl; apply List.Forall_forall;
    intros row (tx & <- & Hin)%in_map_iff; exists tx.
  - apply (page_selects _ _ _ _ Hpage), Hrows in Hin as [Hin Hown]. done.
  - apply Hrows in Hin as [Hin Hown]. done.
Qed.

End Owned.

(** *** The order of the query parameters *)

Lemma string_compare_refl (s : string) : (s ?= s)%string = Eq.
Proof.
  induction s as [|c s IH]; simpl; [done|]. unfold Ascii.compare. by rewrite N.compare_refl.
Qed.

Lemma string_compare_lt_trans (a b c : string) :
  (a ?= b)%string = Lt -> (b ?= c)%string = Lt -> (a ?= c)%string = Lt.
Proof.
  revert b c. induction a as [|x a IH]; intros [|y b] [|z c]; simpl; try done.
  unfold Ascii.compare.
  destruct (N.compare_spec (N_of_ascii x) (N_of_ascii y)),
    (N.compare_spec (N_of_ascii y) (N_of_ascii z)),
    (N.compare_spec (N_of_ascii x) (N_of_ascii z));
    try done; try (intros; lia); apply IH.
Qed.

Lemma string_leb_trans (a b c : string) :
  String.leb a b = true -> String.leb b c = true -> String.leb a c = true.
Proof.
  unfold String.leb.
  destruct (a ?= b)%string eqn:Hab; [|intros _|done].
  - apply String.compare_eq_iff in Hab as ->. done.
  - destruct (b ?= c)%string eqn:Hbc; [|intros _|done].
    + apply String.compare_eq_iff in Hbc as ->. intros _. by rewrite Hab.
    + by rewrite (string_compare_lt_trans a b c).
Qed.

Lemma string_leb_refl (s : string) : String.leb s s = true.
Proof. unfold String.leb. by rewrite string_compare_refl. Qed.

#[local] Instance item_le_trans : Transitive item_le.
Proof.
  intros [k1 v1] [k2 v2] [k3 v3]. unfold item_le, item_leb. simpl.
  destruct (String.eqb_spec k1 k2) as [->|H12], (String.eqb_spec k2 k3) as [->|H23];
    rewrite ?String.eqb_refl; try done;
    try (destruct (String.eqb_spec k1 k3) as [->|H13]; try done).
  - apply string_leb_trans.
  - intros Hle Hle'. destruct H12. by apply String.leb_antisym.
  - apply string_leb_trans.
Qed.

#[local] Instance item_le_antisym : AntiSymm eq item_le.
Proof.
  intros [k1 v1] [k2 v2]. unfold item_le, item_leb. simpl.
  destruct (String.eqb_spec k1 k2) as [->|H12].
  - rewrite String.eqb_refl. intros H1 H2. f_equal. by apply String.leb_antisym.
  - destruct (String.eqb_spec k2 k1) as [->|_]; [done|].
    intros H1 H2. destruct H12. by apply String.leb_antisym.
Qed.

#[local] Instance item_le_total : Total item_le.
Proof.
  intros [k1 v1] [k2 v2]. unfold item_le, item_leb. simpl.
  rewrite (String.eqb_sym k2 k1). destruct (String.eqb k1 k2); apply String.leb_total.
Qed.

Lemma find_key_Permutation (name : string) (l l' : list (string * string)) :
  l ≡ₚ l' -> NoDup (map fst l) ->
  List.find (fun kv => String.eqb kv.1 name) l = List.find (fun kv => String.eqb kv.1 name) l'.
Proof.
  intros Hperm Hnd.
  destruct (List.find _ l) as [kv|] eqn:Hl, (List.find _ l') as [kv'|] eqn:Hl'; [| | |done].
  - apply find_some in Hl as [Hin Hkey], Hl' as [Hin' Hkey'].
    apply String.eqb_eq in Hkey, Hkey'. f_equal.
    apply (NoDup_map_eq fst l); [done|done| |congruence].
    apply list_elem_of_In. rewrite Hperm. by apply list_elem_of_In.
  - apply find_some in Hl as [Hin Hkey].
    apply list_elem_of_In in Hin. rewrite Hperm in Hin. apply list_elem_of_In in Hin.
    apply (find_none _ _ Hl') in Hin. congruence.
  - apply find_some in Hl' as [Hin Hkey].
    apply list_elem_of_In in Hin. rewrite <- Hperm in Hin. apply list_elem_of_In in Hin.
    apply (find_none _ _ Hl) in Hin. congruence.
Qed.

(** X29. The cache key of a list request does not depend on the order in
    which the query parameters arrive (the names of the parameters are
    distinct, as the items of a [QueryDict] are). *)
Theorem list_cache_key_order (m : Merchant) (query_params query_params' : list (string * string)) :
  query_params ≡ₚ query_params' -> NoDup (map fst query_params) ->
  list_cache_key m query_params = list_cache_key m query_params'.
Proof.
  intros Hperm Hnd. unfold list_cache_key, query_param. cbv zeta.
  rewrite (find_key_Permutation "page" query_params query_params') by done.
  assert (merge_sort item_le query_params = merge_sort item_le query_params') as ->; [|done].
  apply (Sorted_unique item_le); [apply (Sorted_merge_sort item_le)..|].
  by rewrite !merge_sort_Permutation.
Qed.

End Listing.

(** ** The properties at work *)

Import Serializers Views.

(** What a run returned, by computation. *)
Ltac known Hrun :=
  match type of Hrun with
  | ?run = (?response, ?w') =>
      try (replace response with (fst run) by (by rewrite Hrun));
      try (replace w' with (snd run) by (by rewrite Hrun));
      by vm_compute
  end.

Lemma webhook_create_then_list_witness :
  exists before d,
    data (WebhookListCreateView_get (Sample.request "GET" None 10 tt)
            (Sample.world "pending")).1
      = PDict [("success", PBool true); ("data", PList before); ("error", PNone)]
    /\ data (WebhookListCreateView_get (Sample.request "GET" None 10 tt)
               (WebhookListCreateView_post (fun _ => true) Sample.t1 "s"
                  (Sample.request "POST" None 10 "https://b.example/hook")
                  (Sample.world "pending")).2).1
       = PDict [("success", PBool true); ("data", PList (before ++ [d])); ("error", PNone)].
Proof.
  pose proof (webhook_create_then_list (fun _ => true) Sample.t1 "s"
                (Sample.request "POST" None 10 "https://b.example/hook")
                (Sample.request "GET" None 10 tt) (Sample.world "pending") eq_refl) as H.
  destruct (WebhookListCreateView_post _ _ _ _ _) as [response w'] eqn:Hrun.
  assert (status_code response = 201) as Hstatus by known Hrun.
  destruct (H Hstatus) as (before & d & Hbefore & _ & Hafter).
  by exists before, d.
Defined.

Lemma delivery_after_delete_witness :
  Tasks.attempts
    (Tasks.run_deliver_webhook
       (fun n => {| Tasks.env_webhooks :=
                      webhooks (WebhookDeleteView_destroy (Sample.request "DELETE" None 10 tt)
                                  1 (Sample.world "pending")).2;
                    Tasks.env_post := fun _ _ => Tasks.Responded 200 "OK" |})
       1 PNone) = 3%nat.
Proof.
  pose proof (delivery_after_delete (Sample.request "DELETE" None 10 tt) 1
                (Sample.world "pending") (fun _ _ _ => Tasks.Responded 200 "OK") PNone) as H.
  destruct (WebhookDeleteView_destroy _ _ _) as [response w'] eqn:Hrun.
  assert (status_code response = 200) as Hstatus by known Hrun.
  exact (proj1 (H Hstatus)).
Defined.



Lemma payment_key_replayed_witness :
  (TransactionCreateView_post Sample.t1 (Sample.request "POST" (Some "k1") 20 Sample.pay_other)
     (TransactionCreateView_post Sample.t0 (Sample.request "POST" (Some "k1") 10 Sample.pay)
        (Sample.world "pending")).2).1
  = (TransactionCreateView_post Sample.t0 (Sample.request "POST" (Some "k1") 10 Sample.pay)
       (Sample.world "pending")).1.
Proof.
  pose proof (payment_key_replayed Sample.t0 Sample.t1
                (Sample.request "POST" (Some "k1") 10 Sample.pay)
                (Sample.request "POST" (Some "k1") 20 Sample.pay_other)
                (Sample.world "pending") "k1" eq_refl eq_refl eq_refl) as H.
  destruct (TransactionCreateView_post Sample.t0 _ _) as [response w'] eqn:Hrun.
  assert (status_code response = 201) as Hstatus by known Hrun.
  exact (f_equal fst (H Hstatus)).
Defined.


Lemma first_response_stored_witness :
  ik_response_status
    <$> idempotency_keys
          (Middleware.__call__ (fun v => Some (Json.dumps v)) (Json.loads [])
             (TransactionCreateView_post Sample.t1) Sample.t1
             (Sample.request "POST" (Some "k1") 20 Sample.pay) (Sample.world "pending")).2
        !! "k1"
  = Some (Some 403).
Proof.
  pose proof (first_response_stored (fun v => Some (Json.dumps v)) (Json.loads [])
                (TransactionCreateView_post Sample.t1) Sample.t1
                (Sample.request "POST" (Some "k1") 20 Sample.pay) (Sample.world "pending")
                "k1" eq_refl eq_refl) as H.
  destruct (TransactionCreateView_post _ _ _) as [response w1] eqn:Hrun.
  assert (status_code response = 403) as Hstatus by known Hrun.
  destruct (Middleware.__call__ _ _ _ _ _ _) as [response' w'].
  destruct H as (_ & (row & Hrow & Hrow' & _) & _).
  cbn [snd]. rewrite Hrow. simpl. by rewrite Hrow', Hstatus.
Defined.



Lemma list_cache_key_scoped_witness :
  list_cache_key Sample.alice [] <> list_cache_key Sample.bob [("page", "1")].
Proof. apply list_cache_key_scoped. discriminate. Defined.

Lemma payment_invalidates_list_pages_witness :
  cache (TransactionCreateView_post Sample.t1 (Sample.request "POST" None 10 Sample.pay)
           (Scenario.cached "pending")).2 !! list_cache_key Sample.alice [] = None
  /\ cache (TransactionCreateView_post Sample.t1 (Sample.request "POST" None 10 Sample.pay)
              (Scenario.cached "pending")).2 !! list_cache_key Sample.bob []
     = cache (Scenario.cached "pending") !! list_cache_key Sample.bob [].
Proof.
  pose proof (payment_invalidates_list_pages Sample.t1
                (Sample.request "POST" None 10 Sample.pay) (Scenario.cached "pending")) as H.
  destruct (TransactionCreateView_post _ _ _) as [response w'] eqn:Hrun.
  assert (status_code response = 201) as Hstatus by known Hrun.
  destruct H as (m & Hm & Hown & Hother & _); [by intros (? & ? & ? & [=] & _)|exact Hstatus|].
  assert (m = Sample.alice) as -> by (by injection Hm).
  split; [apply Hown|]. apply Hother. discriminate.
Defined.

Lemma refund_invalidates_cache_witness :
  cache (RefundCreateView_post true Sample.t1 (Sample.request "POST" None 10 (Scenario.refund 1))
           (Scenario.cached "succeeded")).2 !! detail_cache_key 1 = None
  /\ cache (RefundCreateView_post true Sample.t1
              (Sample.request "POST" None 10 (Scenario.refund 1))
              (Scenario.cached "succeeded")).2 !! list_cache_key Sample.bob []
     = cache (Scenario.cached "succeeded") !! list_cache_key Sample.bob [].
Proof.
  pose proof (refund_invalidates_cache true Sample.t1
                (Sample.request "POST" None 10 (Scenario.refund 1))
                (Scenario.cached "succeeded")) as H.
  destruct (RefundCreateView_post _ _ _ _) as [response w'] eqn:Hrun.
  assert (status_code response = 201) as Hstatus by known Hrun.
  destruct (H Hstatus) as (m & Hm & Hdetail & _ & _ & Hother).
  assert (m = Sample.alice) as -> by (by injection Hm).
  split; [exact Hdetail|]. apply Hother. discriminate.
Defined.

Lemma detail_lookup_scoped_witness :
  (TransactionDetailView_retrieve (Sample.request "GET" None 20 tt) 1
     (Sample.world "succeeded")).1
  = standard_response false PNone (PStr "Transaction not found") 404
  /\ (TransactionDetailView_retrieve (Sample.request "GET" None 10 tt) 1
        (Sample.world "succeeded")).1
     = standard_response true
         (TransactionDetailSerializer_data (Sample.tx1 "succeeded") (Sample.world "succeeded"))
         PNone 200.
Proof.
  pose proof (detail_lookup_scoped (Sample.request "GET" None 20 tt) 1
                (Sample.world "succeeded") eq_refl) as Hother.
  pose proof (detail_lookup_scoped (Sample.request "GET" None 10 tt) 1
                (Sample.world "succeeded") eq_refl) as Howner.
  destruct (TransactionDetailView_retrieve (Sample.request "GET" None 20 tt) _ _)
    as [response w'].
  destruct (TransactionDetailView_retrieve (Sample.request "GET" None 10 tt) _ _)
    as [response0 w0].
  change (owned_transaction _ _ _) with (@None Transaction) in Hother.
  change (owned_transaction _ _ _) with (Some (Sample.tx1 "succeeded")) in Howner.
  destruct Hother as [-> _], Howner as (-> & _). done.
Defined.

Lemma cached_detail_survives_settlement_witness :
  (TransactionDetailView_retrieve (Sample.request "GET" None 10 tt) 1
     (Tasks.process_transaction 1 (2 ^ 52) Sample.t1
        (TransactionDetailView_retrieve (Sample.request "GET" None 10 tt) 1
           (Sample.world "pending")).2)).1
  = (TransactionDetailView_retrieve (Sample.request "GET" None 10 tt) 1
       (Sample.world "pending")).1.
Proof.
  pose proof (cached_detail_survives_settlement (Sample.request "GET" None 10 tt)
                (Sample.request "GET" None 10 tt) 1 1 (2 ^ 52) Sample.t1
                (Sample.world "pending")) as H.
  destruct (TransactionDetailView_retrieve _ _ (Sample.world "pending")) as [response w1] eqn:Hrun.
  assert (status_code response = 200) as Hstatus by known Hrun.
  exact (f_equal fst (H Hstatus)).
Defined.

Lemma refund_shown_in_detail_witness :
  exists tx r,
    get "refund"
      (TransactionDetailSerializer_data tx
         (RefundCreateView_post true Sample.t1
            (Sample.request "POST" None 10 (Scenario.refund 1))
            (Scenario.cached "succeeded")).2)
    = Some (RefundSerializer_data r)
    /\ (TransactionDetailView_retrieve (Sample.request "GET" None 10 tt) 1
          (RefundCreateView_post true Sample.t1
             (Sample.request "POST" None 10 (Scenario.refund 1))
             (Scenario.cached "succeeded")).2).1
       = standard_response true
           (TransactionDetailSerializer_data tx
              (RefundCreateView_post true Sample.t1
                 (Sample.request "POST" None 10 (Scenario.refund 1))
                 (Scenario.cached "succeeded")).2)
           PNone 200.
Proof.
  pose proof (refund_shown_in_detail true Sample.t1
                (Sample.request "POST" None 10 (Scenario.refund 1))
                (Sample.request "GET" None 10 tt) (Scenario.cached "succeeded") eq_refl) as H.
  destruct (RefundCreateView_post _ _ _ _) as [response w'] eqn:Hrun.
  assert (status_code response = 201) as Hstatus by known Hrun.
  destruct (H Hstatus) as (tx & r & _ & _ & Hdetail & Hrefund).
  by exists tx, r.
Defined.

Lemma shop_consistent (status : string) : consistent (tables (Scenario.shop status)).
Proof.
  unfold consistent, keyed. simpl.
  repeat split; try (apply (bool_decide_unpack _); by vm_compute);
    repeat constructor; by vm_compute.
Defined.

Lemma primary_keys_stay_unique_witness :
  consistent (tables (run Scenario.framework Scenario.day (Scenario.shop "pending"))).
Proof. apply primary_keys_stay_unique, shop_consistent. Defined.

Lemma ledger_only_grows_witness :
  ledger_grows (tables (Scenario.shop "pending"))
    (tables (run Scenario.framework Scenario.day (Scenario.shop "pending"))).
Proof. apply ledger_only_grows, shop_consistent. Defined.

Lemma refunds_stay_sound_witness :
  sound_refunds (tables (run Scenario.framework Scenario.day (Scenario.shop "pending")))
  /\ exists added,
       refunds (run Scenario.framework Scenario.day (Scenario.shop "pending"))
       = refunds (Scenario.shop "pending") ++ added.
Proof.
  apply refunds_stay_sound; [apply shop_consistent|].
  split; [apply NoDup_nil_2|apply Forall_nil_2].
Defined.


Lemma refund_create_then_retrieve_witness :
  exists r,
    refunds (RefundCreateView_post true Sample.t1
               (Sample.request "POST" None 10 (Scenario.refund 1))
               (Sample.world "succeeded")).2 = [r]
    /\ RefundDetailView_retrieve (Sample.request "GET" None 10 tt) (refund_id r)
         (RefundCreateView_post true Sample.t1
            (Sample.request "POST" None 10 (Scenario.refund 1))
            (Sample.world "succeeded")).2
       = ({| status_code := 200;
             data := data (RefundCreateView_post true Sample.t1
                             (Sample.request "POST" None 10 (Scenario.refund 1))
                             (Sample.world "succeeded")).1 |},
          (RefundCreateView_post true Sample.t1
             (Sample.request "POST" None 10 (Scenario.refund 1))
             (Sample.world "succeeded")).2).
Proof.
  pose proof (refund_create_then_retrieve true Sample.t1
                (Sample.request "POST" None 10 (Scenario.refund 1))
                (Sample.request "GET" None 10 tt) (Sample.world "succeeded") eq_refl) as H.
  destruct (RefundCreateView_post _ _ _ _) as [response w'] eqn:Hrun.
  assert (status_code response = 201) as Hstatus by known Hrun.
  refine (H _ _ Hstatus).
  - apply (bool_decide_unpack _). by vm_compute.
  - constructor.
Defined.

Lemma listed_transactions_owned_witness :
  exists d,
    data (TransactionListView_list (fw_order_by_created_at_desc Scenario.framework)
            (fw_filter_queryset Scenario.framework) (fw_paginate_queryset Scenario.framework)
            (Sample.request "GET" None 10 tt) [("status", "pending")]
            (Sample.world "pending")).1
    = PDict [("success", PBool true); ("data", d); ("error", PNone)]
    /\ Forall (fun row => exists tx, In tx (transactions (Sample.world "pending"))
                            /\ tx_merchant tx = 1
                            /\ row = TransactionListSerializer_data tx (Sample.world "pending"))
              (results_of d).
Proof.
  apply (listed_transactions_owned (fw_order_by_created_at_desc Scenario.framework)
           (fw_filter_queryset Scenario.framework) (fw_paginate_queryset Scenario.framework))
    with (m := Sample.alice); try (by vm_compute).
  - intros rows tx Hin. by apply in_rev.
  - intros query_params rows tx. simpl.
    destruct (List.find _ query_params); [by intros [? _]%filter_In|done].
  - intros query_params rows page_obj tx. simpl.
    destruct (String.eqb _ "1"); [|done]. intros [= <-]. simpl.
    intros Hin%list_elem_of_In. apply list_elem_of_In.
    eapply elem_of_sublist; [exact Hin|apply sublist_take].
Defined.

Lemma list_cache_key_order_witness :
  list_cache_key Sample.alice [("status", "failed"); ("page", "1")]
  = list_cache_key Sample.alice [("page", "1"); ("status", "failed")].
Proof.
  apply list_cache_key_order; [apply perm_swap|].
  apply (bool_decide_unpack _). by vm_compute.
Defined.

Lemma payment_reaches_webhooks_witness :
  queue (run_job (SendWebhooks 2) 0 Sample.t1
           (run_job (ProcessTransaction 2) 0 Sample.t1
              (TransactionCreateView_post Sample.t0 (Sample.request "POST" None 10 Sample.pay)
                 (Sample.world "pending")).2))
  = [ ProcessTransaction 2; SendWebhooks 2;
      DeliverWebhook 1
        (PDict [ ("id", PInt 2); ("status", PStr "failed"); ("amount", PStr "100.00");
                 ("currency", PStr "USD"); ("description", PStr "");
                 ("created_at", PStr "2024-01-02T03:04:05+00:00");
                 ("updated_at", PStr "2024-01-02T03:04:09.000120+00:00") ]) ].
Proof.
  pose proof (payment_reaches_webhooks Sample.t0 Sample.t1 0
                (Sample.request "POST" None 10 Sample.pay) (Sample.world "pending") I) as H.
  destruct (TransactionCreateView_post _ _ _) as [response w1] eqn:Hrun.
  assert (status_code response = 201) as Hstatus by known Hrun.
  destruct H as (m & Hm & Hq1 & _ & Hq2 & Hq3); [repeat constructor; by vm_compute|done|].
  assert (m = Sample.alice) as -> by (by injection Hm).
  cbv zeta in Hq3. cbn [snd]. change (tx_id _) with 2 in Hq3, Hq2, Hq1.
  rewrite Hq3, Hq2, Hq1. by vm_compute.
Defined.

(** The scenario, run: the payment is settled, fanned out and refunded, and
    then turned to failed by the job delivered again; the refund stays. *)
Example day_outcome :
  map tx_status (transactions (run Scenario.framework Scenario.day (Scenario.shop "pending")))
  = ["pending"; "failed"]
  /\ map refund_transaction
       (refunds (run Scenario.framework Scenario.day (Scenario.shop "pending"))) = [2]
  /\ map paymentkey_merchant
       (payment_keys (run Scenario.framework Scenario.day (Scenario.shop "pending"))) = [1; 2]
  /\ webhooks (run Scenario.framework Scenario.day (Scenario.shop "pending")) = []
  /\ length (queue (run Scenario.framework Scenario.day (Scenario.shop "pending"))) = 4%nat.
Proof. vm_compute. done. Qed.
